(** * GeoViz browser extension: coordinate capture and round automation

    A shallow embedding of the extension's JavaScript sources
    (background.js, geo-bridge.js, popup.js and the two content scripts)
    together with the properties of the design specification that can
    be stated over it.

    Conventions of the embedding
    - a JavaScript number is a binary64 float ([PrimFloat.float]);
    - a JavaScript string is a [string] of code units below 256;
    - [null] and [undefined] results of an expression that may also yield
      a value are [None];
    - module-level [let] variables become fields of a state record that
      every operation threads explicitly;
    - what the browser answers (debugger attach, message responses, DOM
      look-ups) is an explicit argument of the operation that asks. *)

From Stdlib Require Import ZArith List String Ascii Bool Lia.
From Stdlib Require Import PrimFloat FloatOps SpecFloat Uint63 DecimalString.
From Stdlib Require Import HexadecimalString.
From stdpp Require Import base option list gmap strings.

Set Warnings "-inexact-float,-register-all".
Local Open Scope string_scope.
Local Open Scope Z_scope.

(** ** The JavaScript platform: strings *)

Module JSString.

Definition len (s : string) : Z := Z.of_nat (String.length s).

(** [s.startsWith(p)] *)
Definition startsWith (s p : string) : bool := String.prefix p s.

(** [s.indexOf(p)], searching from position [i] of the original string *)
Fixpoint indexOf_from (p s : string) (i : Z) : Z :=
  if String.prefix p s then i
  else match s with
       | EmptyString => -1
       | String _ t => indexOf_from p t (i + 1)
       end.

Definition indexOf (s p : string) : Z := indexOf_from p s 0.

(** [s.lastIndexOf(p)] *)
Fixpoint lastIndexOf_from (p s : string) (i : Z) : Z :=
  match s with
  | EmptyString => if String.prefix p EmptyString then i else -1
  | String _ t =>
      let r := lastIndexOf_from p t (i + 1) in
      if 0 <=? r then r
      else if String.prefix p s then i else -1
  end.

Definition lastIndexOf (s p : string) : Z := lastIndexOf_from p s 0.

(** [s.includes(p)] *)
Definition includes (s p : string) : bool := 0 <=? indexOf s p.

(** [s.slice(a, b)]: negative positions count from the end, both are
    clamped to the string, an empty range gives the empty string. *)
Definition slice (s : string) (a b : Z) : string :=
  let n := len s in
  let from := if a <? 0 then Z.max (n + a) 0 else Z.min a n in
  let to := if b <? 0 then Z.max (n + b) 0 else Z.min b n in
  String.substring (Z.to_nat from) (Z.to_nat (Z.max (to - from) 0)) s.

(** [s.substring(a, b)]: positions are clamped to [0, length] and
    swapped when out of order. *)
Definition substring (s : string) (a b : Z) : string :=
  let n := len s in
  let a' := Z.min (Z.max a 0) n in
  let b' := Z.min (Z.max b 0) n in
  let lo := Z.min a' b' in
  let hi := Z.max a' b' in
  String.substring (Z.to_nat lo) (Z.to_nat (hi - lo)) s.

(** White space of [String.prototype.trim] among the code units below
    256: TAB, LF, VT, FF, CR, SPACE and NBSP. *)
Definition isWhiteSpace (c : ascii) : bool :=
  let n := Z.of_nat (nat_of_ascii c) in
  ((9 <=? n) && (n <=? 13)) || (n =? 32) || (n =? 160).

Fixpoint trimStart (s : string) : string :=
  match s with
  | String c t => if isWhiteSpace c then trimStart t else s
  | EmptyString => EmptyString
  end.

Fixpoint trimEnd (s : string) : string :=
  match s with
  | EmptyString => EmptyString
  | String c t =>
      match trimEnd t with
      | EmptyString => if isWhiteSpace c then EmptyString else String c EmptyString
      | t' => String c t'
      end
  end.

Definition trim (s : string) : string := trimEnd (trimStart s).

(** [s.toLowerCase()] on code units below 256: A-Z and the Latin-1
    capitals (except the multiplication sign) move up by 32. *)
Definition lowerChar (c : ascii) : ascii :=
  let n := nat_of_ascii c in
  let z := Z.of_nat n in
  if ((65 <=? z) && (z <=? 90)) || ((192 <=? z) && (z <=? 222) && negb (z =? 215))
  then ascii_of_nat (n + 32) else c.

Fixpoint toLowerCase (s : string) : string :=
  match s with
  | EmptyString => EmptyString
  | String c t => String (lowerChar c) (toLowerCase t)
  end.

End JSString.

(** ** The JavaScript platform: numbers *)

Module JSNumber.

(** [Number.isFinite(x)] for a number [x] *)
Definition isFinite (x : float) : bool := PrimFloat.is_finite x.

(** The number that stands for an integer below 2^63 in magnitude *)
Definition ofZ (n : Z) : float :=
  if n <? 0 then PrimFloat.opp (PrimFloat.of_uint63 (Uint63.of_Z (- n)))
  else PrimFloat.of_uint63 (Uint63.of_Z n).

(** The decimal digits of a natural number, ["0"] for zero. *)
Definition digits (n : Z) : string :=
  DecimalString.NilZero.string_of_uint (N.to_uint (Z.to_N n)).

Fixpoint zeros (k : nat) : string :=
  match k with
  | O => EmptyString
  | S k' => String "0" (zeros k')
  end.

(** Steps 8-10 of [Number.prototype.toFixed]: [n] written with [f]
    digits after the point. *)
Definition fixedDigits (n : Z) (f : nat) : string :=
  let m := digits n in
  match f with
  | O => m
  | _ =>
      let k := String.length m in
      let m' := if (k <=? f)%nat then zeros (f + 1 - k) ++ m else m in
      let k' := String.length m' in
      String.substring 0 (k' - f) m' ++ "." ++ String.substring (k' - f) f m'
  end.

(** [x.toFixed(f)]: the integer [n] for which [n / 10^f - |x|] is
    closest to zero, the larger one on a tie, computed on the exact
    value [m * 2^e] of the float.  ECMAScript prints magnitudes of
    [1e21] and more in exponent notation; latitudes and longitudes
    never get there and this model keeps the positional digits. *)
Definition toFixed (x : float) (f : nat) : string :=
  match Prim2SF x with
  | S754_nan => "NaN"
  | S754_infinity false => "Infinity"
  | S754_infinity true => "-Infinity"
  | S754_zero _ => fixedDigits 0 f
  | S754_finite s m e =>
      let scale := 10 ^ Z.of_nat f in
      let n := if 0 <=? e then Z.pos m * 2 ^ e * scale
               else (2 * Z.pos m * scale + 2 ^ (- e)) / (2 * 2 ^ (- e)) in
      (if s then "-" else "") ++ fixedDigits n f
  end.

(** The binary64 value nearest to the positive rational [p / q]
    (ties to even), as [JSON.parse] and number literals produce it. *)
Definition nearest (neg : bool) (p q : Z) : float :=
  if p <=? 0 then (if neg then PrimFloat.neg_zero else PrimFloat.zero)
  else
    let scaled (e : Z) : Z * Z :=
      if 0 <=? e then (p, q * 2 ^ e) else (p * 2 ^ (- e), q) in
    let e0 := Z.log2 p - Z.log2 q - 52 in
    let m0 := fst (scaled e0) / snd (scaled e0) in
    let e1 := if 2 ^ 53 <=? m0 then e0 + 1
              else if m0 <? 2 ^ 52 then e0 - 1 else e0 in
    let e := Z.max e1 (-1074) in
    let '(num, den) := scaled e in
    let m := num / den in
    let r := num mod den in
    let m' := if (den <? 2 * r) || ((den =? 2 * r) && Z.odd m) then m + 1 else m in
    if 971 <? e then (if neg then PrimFloat.neg_infinity else PrimFloat.infinity)
    else match m' with
         | Zpos pm => SF2Prim (S754_finite neg pm e)
         | _ => if neg then PrimFloat.neg_zero else PrimFloat.zero
         end.

(** The number denoted by the decimal literal [mant * 10^exp10]. *)
Definition ofDecimal (neg : bool) (mant exp10 : Z) : float :=
  if 0 <=? exp10 then nearest neg (mant * 10 ^ exp10) 1
  else nearest neg mant (10 ^ (- exp10)).

End JSNumber.

(** ** The JavaScript platform: JSON values and [JSON.parse] *)

Module JSON.

(** A value as [JSON.parse] builds it.  The members of [JObj] are the
    object's own properties in [Object.keys] order. *)
Inductive json : Type :=
| JNull
| JBool (b : bool)
| JNum (x : float)
| JStr (s : string)
| JArr (xs : list json)
| JObj (kvs : list (string * json)).

(** [typeof v === "number"], for a value that may be [undefined] *)
Definition isNumber (v : option json) : bool :=
  match v with Some (JNum _) => true | _ => false end.

(** Truthiness of a value that may be [undefined] *)
Definition truthy (v : option json) : bool :=
  match v with
  | None | Some JNull => false
  | Some (JBool b) => b
  | Some (JNum x) => negb (PrimFloat.is_nan x || PrimFloat.is_zero x)
  | Some (JStr s) => negb (String.eqb s "")
  | Some (JArr _) | Some (JObj _) => true
  end.

Fixpoint assoc (k : string) (kvs : list (string * json)) : option json :=
  match kvs with
  | [] => None
  | (k', v) :: rest => if String.eqb k k' then Some v else assoc k rest
  end.

(** [v?.[i]]: [undefined] on [null] and [undefined], the element of an
    array, the property named by the digits of [i] of an object, the
    one-unit string at [i] of a string, [undefined] on a number or a
    boolean. *)
Definition at_ (v : option json) (i : nat) : option json :=
  match v with
  | Some (JArr xs) => nth_error xs i
  | Some (JObj kvs) => assoc (JSNumber.digits (Z.of_nat i)) kvs
  | Some (JStr s) =>
      match String.get i s with
      | Some c => Some (JStr (String c EmptyString))
      | None => None
      end
  | _ => None
  end.

(** *** A recursive-descent [JSON.parse] *)

Definition isJsonSpace (c : ascii) : bool :=
  let n := nat_of_ascii c in
  Nat.eqb n 32 || Nat.eqb n 9 || Nat.eqb n 10 || Nat.eqb n 13.

Fixpoint skipSpace (s : string) : string :=
  match s with
  | String c t => if isJsonSpace c then skipSpace t else s
  | EmptyString => EmptyString
  end.

Definition digitValue (c : ascii) : option Z :=
  let n := Z.of_nat (nat_of_ascii c) in
  if (48 <=? n) && (n <=? 57) then Some (n - 48) else None.

Definition hexValue (c : ascii) : option Z :=
  let n := Z.of_nat (nat_of_ascii c) in
  if (48 <=? n) && (n <=? 57) then Some (n - 48)
  else if (65 <=? n) && (n <=? 70) then Some (n - 55)
  else if (97 <=? n) && (n <=? 102) then Some (n - 87)
  else None.

(** A run of digits: the accumulated value, how many were read, and
    the rest of the text. *)
Fixpoint readDigits (s : string) (acc : Z) (count : Z) : Z * Z * string :=
  match s with
  | String c t =>
      match digitValue c with
      | Some d => readDigits t (acc * 10 + d) (count + 1)
      | None => (acc, count, s)
      end
  | EmptyString => (acc, count, s)
  end.

(** A JSON number: optional minus, an integer part without a leading
    zero (unless it is zero itself), an optional fraction, an optional
    exponent. *)
Definition readNumber (s : string) : option (float * string) :=
  let '(neg, s1) := match s with
                    | String "-" t => (true, t)
                    | _ => (false, s)
                    end in
  let '(ip, ic, s2) := readDigits s1 0 0 in
  let leadingZero := match s1 with String "0" _ => true | _ => false end in
  if (ic =? 0) || (leadingZero && (1 <? ic)) then None
  else
    let frac := match s2 with
                | String "." t =>
                    let '(m, fc, s3) := readDigits t ip 0 in
                    if fc =? 0 then None else Some (m, fc, s3)
                | _ => Some (ip, 0, s2)
                end in
    match frac with
    | None => None
    | Some (mant, fc, s3) =>
        let expo := match s3 with
                    | String c t =>
                        if Ascii.eqb c "e" || Ascii.eqb c "E" then
                          let '(eneg, t') := match t with
                                             | String "-" u => (true, u)
                                             | String "+" u => (false, u)
                                             | _ => (false, t)
                                             end in
                          let '(ev, ec, s4) := readDigits t' 0 0 in
                          if ec =? 0 then None
                          else Some (if eneg then - ev else ev, s4)
                        else Some (0, s3)
                    | EmptyString => Some (0, s3)
                    end in
        match expo with
        | None => None
        | Some (ev, s4) => Some (JSNumber.ofDecimal neg mant (ev - fc), s4)
        end
    end.

(** The characters of a string literal after its opening quote.  An
    escape [\uXXXX] beyond code unit 255 is outside the string model
    and refused. *)
Fixpoint readString (fuel : nat) (s : string) : option (string * string) :=
  match fuel with
  | O => None
  | S fuel' =>
      match s with
      | EmptyString => None
      | String "034" t => Some (EmptyString, t)
      | String "\" (String e t) =>
          let continue (c : ascii) (rest : string) :=
            match readString fuel' rest with
            | Some (body, r) => Some (String c body, r)
            | None => None
            end in
          if Ascii.eqb e "034" then continue "034"%char t
          else if Ascii.eqb e "\" then continue "\"%char t
          else if Ascii.eqb e "/" then continue "/"%char t
          else if Ascii.eqb e "b" then continue "008"%char t
          else if Ascii.eqb e "f" then continue "012"%char t
          else if Ascii.eqb e "n" then continue "010"%char t
          else if Ascii.eqb e "r" then continue "013"%char t
          else if Ascii.eqb e "t" then continue "009"%char t
          else if Ascii.eqb e "u" then
            match t with
            | String h1 (String h2 (String h3 (String h4 t'))) =>
                match hexValue h1, hexValue h2, hexValue h3, hexValue h4 with
                | Some a, Some b, Some c, Some d =>
                    if (a =? 0) && (b =? 0)
                    then continue (ascii_of_nat (Z.to_nat (c * 16 + d))) t'
                    else None
                | _, _, _, _ => None
                end
            | _ => None
            end
          else None
      | String c t =>
          if (nat_of_ascii c <? 32)%nat then None
          else match readString fuel' t with
               | Some (body, r) => Some (String c body, r)
               | None => None
               end
      end
  end.

Definition expect (word : string) (s : string) (v : json) : option (json * string) :=
  if String.prefix word s
  then Some (v, String.substring (String.length word) (String.length s) s)
  else None.

(** The elements of an array after the first one has been announced:
    [value (, value)* \]]. *)
Fixpoint readElements (value : string -> option (json * string))
         (fuel : nat) (s : string) (acc : list json) : option (json * string) :=
  match fuel with
  | O => None
  | S fuel' =>
      match value s with
      | None => None
      | Some (v, r) =>
          match skipSpace r with
          | String "," r' => readElements value fuel' r' (acc ++ [v])
          | String "]" r' => Some (JArr (acc ++ [v]), r')
          | _ => None
          end
      end
  end.

(** A canonical array index: the digits of an integer below 2^32 - 1. *)
Definition indexKey (k : string) : option Z :=
  let '(n, c, rest) := readDigits k 0 0 in
  if (0 <? c) && String.eqb rest "" && String.eqb (JSNumber.digits n) k
     && (n <? 4294967295)
  then Some n else None.

(** Defining property [k]: a repeated key keeps its place and takes the
    new value. *)
Fixpoint setMember (k : string) (v : json) (kvs : list (string * json))
  : list (string * json) :=
  match kvs with
  | [] => [(k, v)]
  | (k', v') :: rest =>
      if String.eqb k k' then (k, v) :: rest else (k', v') :: setMember k v rest
  end.

Fixpoint insertIndexKey (n : Z) (kv : string * json) (sorted : list (Z * (string * json)))
  : list (Z * (string * json)) :=
  match sorted with
  | [] => [(n, kv)]
  | (n', kv') :: rest =>
      if n <? n' then (n, kv) :: sorted else (n', kv') :: insertIndexKey n kv rest
  end.

(** [Object.keys] order: array indices ascending, then the other keys
    in the order of creation. *)
Definition keyOrder (kvs : list (string * json)) : list (string * json) :=
  let indexed :=
    fold_left (fun acc kv => match indexKey (fst kv) with
                             | Some n => insertIndexKey n kv acc
                             | None => acc
                             end) kvs [] in
  let others :=
    List.filter (fun kv => match indexKey (fst kv) with Some _ => false | None => true end) kvs in
  map snd indexed ++ others.

Fixpoint readMembers (value : string -> option (json * string))
         (fuel : nat) (s : string) (acc : list (string * json)) : option (json * string) :=
  match fuel with
  | O => None
  | S fuel' =>
      match skipSpace s with
      | String "034" t =>
          match readString (S (String.length t)) t with
          | None => None
          | Some (k, r) =>
              match skipSpace r with
              | String ":" r1 =>
                  match value r1 with
                  | None => None
                  | Some (v, r2) =>
                      match skipSpace r2 with
                      | String "," r3 => readMembers value fuel' r3 (setMember k v acc)
                      | String "}" r3 => Some (JObj (keyOrder (setMember k v acc)), r3)
                      | _ => None
                      end
                  end
              | _ => None
              end
          end
      | _ => None
      end
  end.

Fixpoint readValue (fuel : nat) (s : string) : option (json * string) :=
  match fuel with
  | O => None
  | S fuel' =>
      match skipSpace s with
      | EmptyString => None
      | String c t =>
          if Ascii.eqb c "n" then expect "ull" t JNull
          else if Ascii.eqb c "t" then expect "rue" t (JBool true)
          else if Ascii.eqb c "f" then expect "alse" t (JBool false)
          else if Ascii.eqb c "034" then
            match readString (S (String.length t)) t with
            | Some (body, r) => Some (JStr body, r)
            | None => None
            end
          else if Ascii.eqb c "[" then
            match skipSpace t with
            | String "]" r => Some (JArr [], r)
            | _ => readElements (readValue fuel') (S (String.length t)) t []
            end
          else if Ascii.eqb c "{" then
            match skipSpace t with
            | String "}" r => Some (JObj [], r)
            | _ => readMembers (readValue fuel') (S (String.length t)) t []
            end
          else
            match readNumber (String c t) with
            | Some (x, r) => Some (JNum x, r)
            | None => None
            end
      end
  end.

(** [JSON.parse(text)]; [None] is the SyntaxError it throws.  The
    nesting of a value is below the length of its text, so this much
    fuel never runs out on well-formed input. *)
Definition parse (text : string) : option json :=
  match readValue (S (String.length text)) text with
  | Some (v, rest) =>
      match skipSpace rest with
      | EmptyString => Some v
      | _ => None
      end
  | None => None
  end.

End JSON.

Import JSON.

(** ** The JavaScript platform: [Number(value)] and message passing *)

Module JSValue.

(** A sign in front of a decimal literal or of an exponent *)
Definition takeSign (s : string) : bool * string :=
  match s with
  | String "-" t => (true, t)
  | String "+" t => (false, t)
  | _ => (false, s)
  end.

(** [StrUnsignedDecimalLiteral]: [Infinity], or digits with an optional
    point (a digit on one side of it at least) and an optional
    exponent; leading zeros are allowed. *)
Definition unsignedDecimal (neg : bool) (s : string) : option float :=
  if String.eqb s "Infinity"
  then Some (if neg then PrimFloat.neg_infinity else PrimFloat.infinity)
  else
    let '(ip, ic, s1) := readDigits s 0 0 in
    let '(mant, fc, s2) := match s1 with
                           | String "." t => readDigits t ip 0
                           | _ => (ip, 0, s1)
                           end in
    if ic + fc =? 0 then None
    else
      match s2 with
      | EmptyString => Some (JSNumber.ofDecimal neg mant (- fc))
      | String c t =>
          if Ascii.eqb c "e" || Ascii.eqb c "E" then
            let '(eneg, t') := takeSign t in
            let '(ev, ec, s3) := readDigits t' 0 0 in
            if (0 <? ec) && String.eqb s3 ""
            then Some (JSNumber.ofDecimal neg mant ((if eneg then - ev else ev) - fc))
            else None
          else None
      end.

(** The digits of a literal in base 2, 8 or 16, up to the end of the
    text *)
Fixpoint radixDigits (radix : Z) (s : string) (acc : Z) : option Z :=
  match s with
  | EmptyString => Some acc
  | String c t =>
      match hexValue c with
      | Some d => if d <? radix then radixDigits radix t (acc * radix + d) else None
      | None => None
      end
  end.

Definition radixOf (c : ascii) : option Z :=
  if Ascii.eqb c "x" || Ascii.eqb c "X" then Some 16
  else if Ascii.eqb c "o" || Ascii.eqb c "O" then Some 8
  else if Ascii.eqb c "b" || Ascii.eqb c "B" then Some 2
  else None.

(** [NonDecimalIntegerLiteral]: [0x], [0o] or [0b] and at least one
    digit; it takes no sign. *)
Definition nonDecimal (s : string) : option float :=
  match s with
  | String "0" (String c (String d t)) =>
      match radixOf c with
      | Some radix =>
          match radixDigits radix (String d t) 0 with
          | Some n => Some (JSNumber.nearest false n 1)
          | None => None
          end
      | None => None
      end
  | _ => None
  end.

(** [StringToNumber]: white space around the literal is dropped, the
    empty text is [+0], a text outside the grammar is [NaN]. *)
Definition stringToNumber (s : string) : float :=
  let t := JSString.trim s in
  if String.eqb t "" then PrimFloat.zero
  else
    match nonDecimal t with
    | Some x => x
    | None =>
        let '(neg, u) := takeSign t in
        match unsignedDecimal neg u with
        | Some x => x
        | None => PrimFloat.nan
        end
    end.

(** Whether converting [v] to a primitive throws a TypeError.  The
    properties of a value that came as JSON are never functions, so an
    object with an own property [toString] has no method left to call:
    [valueOf] is either its own and no function, or the inherited one,
    which returns the object.  Joining an array converts every
    element. *)
Fixpoint conversionThrows (v : json) : bool :=
  match v with
  | JObj kvs => existsb (fun kv => String.eqb (fst kv) "toString") kvs
  | JArr xs => existsb conversionThrows xs
  | _ => false
  end.

(** [Number(String(v))] for an element [v] of an array, as [join]
    writes it: nothing for [null], the words [true] and [false], the
    digits of a number (from which the number is read back, [-0] as
    [+0]), the text of a string, the joined elements of an array, with a
    comma when there are two or more, and [[object Object]]. *)
Fixpoint elementToNumber (v : json) : float :=
  match v with
  | JNull => PrimFloat.zero
  | JBool _ => PrimFloat.nan
  | JNum x => if PrimFloat.is_zero x then PrimFloat.zero else x
  | JStr s => stringToNumber s
  | JArr xs =>
      match xs with
      | [] => PrimFloat.zero
      | [e] => elementToNumber e
      | _ => PrimFloat.nan
      end
  | JObj _ => PrimFloat.nan
  end.

(** [Number(v)] for a value that may be [undefined]; [None] is the
    TypeError it throws. *)
Definition toNumber (v : option json) : option float :=
  match v with
  | None => Some PrimFloat.nan
  | Some JNull => Some PrimFloat.zero
  | Some (JBool b) => Some (if b then PrimFloat.one else PrimFloat.zero)
  | Some (JNum x) => Some x
  | Some (JStr s) => Some (stringToNumber s)
  | Some (JArr xs) =>
      if conversionThrows (JArr xs) then None else Some (elementToNumber (JArr xs))
  | Some (JObj kvs) =>
      if conversionThrows (JObj kvs) then None else Some PrimFloat.nan
  end.

(** A number after the JSON serialisation of [chrome.tabs.sendMessage]:
    [NaN] and the infinities arrive as [null], [-0] as [0]. *)
Definition sentNumber (x : float) : json :=
  if JSNumber.isFinite x
  then JNum (if PrimFloat.is_zero x then PrimFloat.zero else x)
  else JNull.

End JSValue.

(** ** background.js (the multi-tab background process) *)

Module Background.

(** *** Payload parsing *)

Definition stripJSONPWrapper (text : string) : string :=
  let first := JSString.indexOf text "(" in
  let last := JSString.lastIndexOf text ")" in
  if negb (first =? -1) && negb (last =? -1) && (first <? last)
  then JSString.slice text (first + 1) last
  else text.

(** [parseGeoPayload(text)]; [JNull] is the [null] it returns. *)
Definition parseGeoPayload (text : string) : json :=
  if String.eqb text "" then JNull
  else
    let trimmed := stripJSONPWrapper (JSString.trim text) in
    match JSON.parse trimmed with
    | Some v => v
    | None =>
        let firstBracket := JSString.indexOf trimmed "[" in
        let lastBracket := JSString.lastIndexOf trimmed "]" in
        if negb (firstBracket =? -1) && negb (lastBracket =? -1)
           && (firstBracket <? lastBracket)
        then match JSON.parse (JSString.slice trimmed firstBracket (lastBracket + 1)) with
             | Some v => v
             | None => JNull
             end
        else JNull
    end.

(** *** Deep search for coordinates *)

(** The test of [findCoordinates] on an array: at least four elements,
    numbers at indices 2 and 3. *)
Definition numberPair (xs : list json) : option (float * float) :=
  if (4 <=? length xs)%nat then
    match nth_error xs 2, nth_error xs 3 with
    | Some (JNum a), Some (JNum b) => Some (a, b)
    | _, _ => None
    end
  else None.

(** [scan] of [findCoordinates].  The closure variables [lat] and [lon]
    are assigned together, so they are one [option] threaded through
    the traversal; the [for] loops stop as soon as it is set. *)
Fixpoint scan (value : json) (found : option (float * float))
  : option (float * float) :=
  match found with
  | Some _ => found
  | None =>
      match value with
      | JArr xs =>
          (fix each (l : list json) (st : option (float * float)) :=
             match l with
             | [] => st
             | entry :: rest =>
                 match scan entry st with
                 | Some c => Some c
                 | None => each rest None
                 end
             end) xs (numberPair xs)
      | JObj kvs =>
          (fix each (l : list (string * json)) (st : option (float * float)) :=
             match l with
             | [] => st
             | (_, member) :: rest =>
                 match scan member st with
                 | Some c => Some c
                 | None => each rest None
                 end
             end) kvs None
      | _ => None
      end
  end.

Definition findCoordinates (node : json) : option (float * float) :=
  scan node None.

(** *** Emitting an observation *)

(** The object the debugger listener hands to [emitGeoMetadata]. *)
Record GeoMetadata : Type := mkGeoMetadata {
  md_lat : float;
  md_lon : float;
  md_place : option string;
  md_language : option string;
  md_source : string;
  md_url : string;
  md_timestamp : Z;
  md_hookType : string;
  md_tabId : Z
}.

(** An entry of [tabMetadataCache]: [{...metadata, tabId, capturedAt}]. *)
Record CachedMetadata : Type := mkCached {
  cm_metadata : GeoMetadata;
  cm_capturedAt : Z
}.

Definition withTabId (m : GeoMetadata) (tabId : Z) : GeoMetadata :=
  mkGeoMetadata (md_lat m) (md_lon m) (md_place m) (md_language m)
                (md_source m) (md_url m) (md_timestamp m) (md_hookType m) tabId.

(** The module-level collections of background.js and what it has
    handed to the browser: the value stored under [geovizLastMetadata]
    and the [GEO_METADATA] messages sent to tabs, oldest first. *)
Record State : Type := mkState {
  activeCaptureTabs : gset Z;
  tabCoordinateSignatures : gmap Z string;
  tabMetadataCache : gmap Z CachedMetadata;
  geovizLastMetadata : option GeoMetadata;
  sentToTabs : list (Z * GeoMetadata)
}.

Definition initial : State := mkState ∅ ∅ ∅ None [].

(** The template string of [emitGeoMetadata] *)
Definition signature (m : GeoMetadata) : string :=
  JSNumber.toFixed (md_lat m) 5 ++ ":" ++ JSNumber.toFixed (md_lon m) 5.

(** [sendGeoMetadataToTab] does nothing for a falsy tab id. *)
Definition sendGeoMetadataToTab (tabId : Z) (payload : GeoMetadata)
           (log : list (Z * GeoMetadata)) : list (Z * GeoMetadata) :=
  if tabId =? 0 then log else log ++ [(tabId, payload)].

(** [emitGeoMetadata(tabId, metadata)], with [now] for [Date.now()] *)
Definition emitGeoMetadata (tabId : Z) (metadata : GeoMetadata) (now : Z)
           (st : State) : State :=
  let sig := signature metadata in
  let lastSig := tabCoordinateSignatures st !! tabId in
  if negb (String.eqb sig "") && bool_decide (lastSig = Some sig) then st
  else
    mkState (activeCaptureTabs st)
            (<[tabId := sig]> (tabCoordinateSignatures st))
            (<[tabId := mkCached (withTabId metadata tabId) now]> (tabMetadataCache st))
            (Some metadata)
            (sendGeoMetadataToTab tabId metadata (sentToTabs st)).

(** *** Starting a capture *)

(** What [chrome.debugger] answers: [chrome.runtime.lastError.message]
    in the callback of [attach] and of [sendCommand("Network.enable")],
    [None] when no error is set. *)
Record Debugger : Type := mkDebugger {
  attachError : option string;
  enableError : option string
}.

Inductive DebuggerCall : Type :=
| Attach (tabId : Z)
| NetworkEnable (tabId : Z).

Inductive Settled : Type :=
| Resolved
| Rejected (message : string).

Definition noTabMessage : string :=
  "Kein Tab f" ++ String "252"%char ("r GeoCapture verf" ++ String "252"%char "gbar.").

Definition addTab (tabId : Z) (st : State) : State :=
  mkState ({[tabId]} ∪ activeCaptureTabs st) (tabCoordinateSignatures st)
          (tabMetadataCache st) (geovizLastMetadata st) (sentToTabs st).

Definition resetSignature (tabId : Z) (st : State) : State :=
  mkState (activeCaptureTabs st) (delete tabId (tabCoordinateSignatures st))
          (tabMetadataCache st) (geovizLastMetadata st) (sentToTabs st).

(** [startGeoCapture(tabId)]: how the promise settles, the state
    afterwards and the debugger calls that were made. *)
Definition startGeoCapture (tabId : Z) (dbg : Debugger) (st : State)
  : Settled * State * list DebuggerCall :=
  if tabId =? 0 then (Rejected noTabMessage, st, [])
  else if bool_decide (tabId ∈ activeCaptureTabs st) then (Resolved, st, [])
  else
    match attachError dbg with
    | Some message =>
        if JSString.includes message "Another debugger"
        then (Resolved, addTab tabId st, [Attach tabId])
        else (Rejected message, st, [Attach tabId])
    | None =>
        match enableError dbg with
        | Some message => (Rejected message, st, [Attach tabId; NetworkEnable tabId])
        | None =>
            (Resolved, resetSignature tabId (addTab tabId st),
             [Attach tabId; NetworkEnable tabId])
        end
    end.

End Background.

(** ** geo-bridge.js (the hook injected into the page) *)

Module GeoBridge.

Definition CALLBACK_PREFIX : string := "/**/_callbacks____".

(** [parseBody(body)]; [JNull] is the [null] it returns. *)
Definition parseBody (body : string) : json :=
  if String.eqb body "" || negb (JSString.startsWith body CALLBACK_PREFIX)
  then JNull
  else
    let start := JSString.indexOf body "(" in
    let end_ := JSString.lastIndexOf body ")" in
    if (start =? -1) || (end_ =? -1) then JNull
    else
      match JSON.parse (JSString.slice body (start + 1) end_) with
      | Some v => v
      | None => JNull
      end.

(** [handleBody] forwards a truthy parse result to the content script
    and drops anything else. *)
Definition handleBody (body : string) : option json :=
  let parsed := parseBody body in
  if truthy (Some parsed) then Some parsed else None.

End GeoBridge.

(** ** The content script: reading a GeoPhotoService response *)

Module Extraction.

(** The range test of [findCoordinatesDeep] *)
Definition inRange (possibleLat possibleLon : float) : bool :=
  ((-90)%float <=? possibleLat)%float && (possibleLat <=? 90%float)%float
  && ((-180)%float <=? possibleLon)%float && (possibleLon <=? 180%float)%float.

Definition coordinatePair (xs : list json) : option (float * float) :=
  match Background.numberPair xs with
  | Some (a, b) => if inRange a b then Some (a, b) else None
  | None => None
  end.

(** [scan] of [findCoordinatesDeep]: as in the background script, with
    the range test and an immediate return on a hit. *)
Fixpoint scan (value : json) (found : option (float * float))
  : option (float * float) :=
  match found with
  | Some _ => found
  | None =>
      match value with
      | JArr xs =>
          match coordinatePair xs with
          | Some c => Some c
          | None =>
              (fix each (l : list json) : option (float * float) :=
                 match l with
                 | [] => None
                 | entry :: rest =>
                     match scan entry None with
                     | Some c => Some c
                     | None => each rest
                     end
                 end) xs
          end
      | JObj kvs =>
          (fix each (l : list (string * json)) : option (float * float) :=
             match l with
             | [] => None
             | (_, member) :: rest =>
                 match scan member None with
                 | Some c => Some c
                 | None => each rest
                 end
             end) kvs
      | _ => None
      end
  end.

Definition findCoordinatesDeep (node : json) : option (float * float) :=
  scan node None.

(** Strategy 1 of [extractMetadataFromArray] (and the first reading of
    the older content script's message listener): the values found at
    the fixed position, each possibly [undefined]. *)
Definition standardPath (data : json) : option json * option json :=
  let root := at_ (at_ (Some data) 1) 0 in
  if truthy root then
    let locationSets := at_ (at_ (at_ root 5) 0) 1 in
    let primaryLocation := at_ locationSets 0 in
    if truthy primaryLocation
    then (at_ primaryLocation 2, at_ primaryLocation 3)
    else (None, None)
  else (None, None).

Record StreetViewMetadata : Type := mkMeta {
  sv_lat : option float;
  sv_lon : option float;
  sv_country : option string;
  sv_address : option string;
  sv_country_code : option string;
  sv_photoId : option json
}.

Definition nonEmpty (s : option string) : option string :=
  match s with
  | Some t => if String.eqb t "" then None else Some t
  | None => None
  end.

Section WithAddressLogic.

(** The address side of the script reads strings only and never
    touches the coordinates; it enters the model as two functions:
    [findAddress data] for the address that strategies 1 and 3
    settle on, and the country look-up [inferCountryFromAddress]. *)
Variable findAddress : json -> option string.
Variable inferCountryFromAddress : string -> option string.

Definition inferCountry (address : option string) : option string :=
  match nonEmpty address with
  | Some a => inferCountryFromAddress a
  | None => None
  end.

(** [extractMetadataFromArray(data)]; [None] is its [null]. *)
Definition extractMetadataFromArray (data : json) : option StreetViewMetadata :=
  let '(lat1, lon1) := standardPath data in
  let '(lat, lon) :=
    if negb (isNumber lat1) || negb (isNumber lon1) then
      match findCoordinatesDeep data with
      | Some (a, b) => (Some (JNum a), Some (JNum b))
      | None => (lat1, lon1)
      end
    else (lat1, lon1) in
  match lat, lon with
  | Some (JNum a), Some (JNum b) =>
      let address := findAddress data in
      let country := inferCountry address in
      Some (mkMeta (Some a) (Some b) country (nonEmpty address) country
                   (at_ (at_ (at_ (at_ (Some data) 1) 0) 1) 1))
  | _, _ => None
  end.

(** The text a greedy match of [/\[[\s\S]*\]/] selects: from the
    first opening bracket to the last closing bracket, when the
    latter comes after the former. *)
Definition bracketMatch (body : string) : option string :=
  let first := JSString.indexOf body "[" in
  let last := JSString.lastIndexOf body "]" in
  if negb (first =? -1) && (first <? last)
  then Some (JSString.slice body first (last + 1))
  else None.

(** The value of [data] in [parseGeoPhotoResponse] when the parsing
    attempts are over ([JNull] for [null]). *)
Definition parseGeoPhotoData (body : string) : json :=
  let callbackPrefix := "/**/_callbacks____" in
  let data1 :=
    if JSString.startsWith body callbackPrefix then
      let start := JSString.indexOf body "(" in
      let end_ := JSString.lastIndexOf body ")" in
      if negb (start =? -1) && negb (end_ =? -1) then
        match JSON.parse (JSString.slice body (start + 1) end_) with
        | Some v => v
        | None => JNull
        end
      else JNull
    else JNull in
  if truthy (Some data1) then data1
  else
    match JSON.parse body with
    | Some v => v
    | None =>
        match bracketMatch body with
        | Some text =>
            match JSON.parse text with
            | Some v => v
            | None => data1
            end
        | None => data1
        end
    end.

(** [parseGeoPhotoResponse(body)] as a function of the variable it
    assigns, [latestStreetViewMetadata]. *)
Definition parseGeoPhotoResponse (body : string)
           (latest : option StreetViewMetadata) : option StreetViewMetadata :=
  if String.eqb body "" then latest
  else
    let data := parseGeoPhotoData body in
    if truthy (Some data) then
      match extractMetadataFromArray data with
      | Some meta => Some meta
      | None => latest
      end
    else latest.

End WithAddressLogic.

End Extraction.

(** ** The JavaScript platform: [atob] and [btoa] *)

Module Base64.

(** ASCII white space, which [atob] drops before decoding *)
Definition isAsciiWhitespace (c : ascii) : bool :=
  let n := nat_of_ascii c in
  Nat.eqb n 9 || Nat.eqb n 10 || Nat.eqb n 12 || Nat.eqb n 13 || Nat.eqb n 32.

(** The value of a character of the base64 alphabet *)
Definition sextet (c : ascii) : option Z :=
  let n := Z.of_nat (nat_of_ascii c) in
  if (65 <=? n) && (n <=? 90) then Some (n - 65)
  else if (97 <=? n) && (n <=? 122) then Some (n - 71)
  else if (48 <=? n) && (n <=? 57) then Some (n + 4)
  else if n =? 43 then Some 62
  else if n =? 47 then Some 63
  else None.

Fixpoint sextets (l : list ascii) : option (list Z) :=
  match l with
  | [] => Some []
  | c :: t =>
      match sextet c, sextets t with
      | Some v, Some vs => Some (v :: vs)
      | _, _ => None
      end
  end.

(** Up to two [=] at the end go when the length is a multiple of 4. *)
Definition stripPadding (l : list ascii) : list ascii :=
  if (length l mod 4 =? 0)%nat then
    match rev l with
    | c :: r =>
        if Ascii.eqb c "=" then
          match r with
          | d :: r' => if Ascii.eqb d "=" then rev r' else rev r
          | [] => []
          end
        else l
    | [] => l
    end
  else l.

(** Four characters give three bytes; a group of three at the end
    gives two, a group of two gives one, the spare bits are dropped. *)
Fixpoint decodeSextets (l : list Z) : list Z :=
  match l with
  | a :: b :: c :: d :: rest =>
      let n := ((a * 64 + b) * 64 + c) * 64 + d in
      n / 65536 :: (n / 256) mod 256 :: n mod 256 :: decodeSextets rest
  | [a; b; c] =>
      let n := ((a * 64 + b) * 64 + c) / 4 in
      [n / 256; n mod 256]
  | [a; b] => [(a * 64 + b) / 16]
  | _ => []
  end.

(** [atob(data)] as the list of the code units of the binary string it
    returns; [None] is the exception it throws. *)
Definition atob (data : string) : option (list Z) :=
  let chars := stripPadding (List.filter (fun c => negb (isAsciiWhitespace c))
                                         (list_ascii_of_string data)) in
  if (length chars mod 4 =? 1)%nat then None
  else match sextets chars with
       | Some vs => Some (decodeSextets vs)
       | None => None
       end.

Definition alphabet (n : Z) : ascii :=
  if n <? 26 then ascii_of_nat (Z.to_nat (n + 65))
  else if n <? 52 then ascii_of_nat (Z.to_nat (n + 71))
  else if n <? 62 then ascii_of_nat (Z.to_nat (n - 4))
  else if n =? 62 then "+"%char else "/"%char.

Fixpoint encodeBytes (l : list Z) : list ascii :=
  match l with
  | a :: b :: c :: rest =>
      let n := (a * 256 + b) * 256 + c in
      alphabet (n / 262144) :: alphabet ((n / 4096) mod 64)
        :: alphabet ((n / 64) mod 64) :: alphabet (n mod 64) :: encodeBytes rest
  | [a; b] =>
      let n := (a * 256 + b) * 4 in
      [alphabet (n / 4096); alphabet ((n / 64) mod 64); alphabet (n mod 64); "="%char]
  | [a] =>
      let n := a * 16 in
      [alphabet (n / 64); alphabet (n mod 64); "="%char; "="%char]
  | [] => []
  end.

(** The base64 text of a byte buffer, as [btoa] and
    [canvas.toDataURL] write it. *)
Definition btoa (bytes : list Z) : string :=
  string_of_list_ascii (encodeBytes bytes).

End Base64.

(** ** The content script: image checks *)

Module Image.

(** The elements at positions [skip], [skip + step], ... of a list *)
Fixpoint everyNthFrom {A : Type} (skip step : nat) (l : list A) : list A :=
  match l with
  | [] => []
  | x :: t =>
      match skip with
      | O => x :: everyNthFrom (step - 1) step t
      | S k => everyNthFrom k step t
      end
  end.

(** The bytes a loop [for (i = 0; i < l.length; i += step)] visits *)
Definition everyNth {A : Type} (step : nat) (l : list A) : list A :=
  everyNthFrom 0 step l.

(** The sample of the darkness test and its two counters *)
Definition darkSample (bytes : list Z) : list Z := everyNth 10 bytes.

Definition lowCount (sample : list Z) : Z :=
  Z.of_nat (length (List.filter (fun b => b <? 30) sample)).

Definition totalChecked (sample : list Z) : Z := Z.of_nat (length sample).

(** The sample of the uniformity test: every fifth byte among the
    first [Math.min(bytes.length, 500)] *)
Definition uniformSample (bytes : list Z) : list Z := everyNth 5 (firstn 500 bytes).

(** [uniqueValues]: the set of [Math.floor(b / 10)] over the sample *)
Definition uniqueValues (sample : list Z) : gset Z :=
  list_to_set (List.map (fun b => b / 10) sample).

(** [isInvalidImage(base64Data)] *)
Definition isInvalidImage (base64Data : string) : bool :=
  if String.eqb base64Data "" || (JSString.len base64Data <? 1000) then true
  else
    match Base64.atob (JSString.substring base64Data 0 10000) with
    | None => false
    | Some bytes =>
        let sample := darkSample bytes in
        if (0 <? totalChecked sample)
           && (0.8 <? JSNumber.ofZ (lowCount sample) / JSNumber.ofZ (totalChecked sample))%float
        then true
        else if (size (uniqueValues (uniformSample bytes)) <? 5)%nat then true
        else false
    end.

End Image.

(** ** The content script (multi-tab variant): state and operations *)

Module ContentScript.

Import Extraction.

Definition ROUND_LIMIT : Z := 5.
Definition STATUS_ERROR : string := "Fehler: ".

(** How a call that may throw (or a promise that may reject) ends. *)
Inductive Completion (A : Type) : Type :=
| Returned (a : A)
| Threw (message : string).
Arguments Returned {A} a.
Arguments Threw {A} message.

(** The module-level variables that the operations below read or
    write ([currentPrediction] and [lastInferencePayload], which only
    the overlay and the round log use, are left to those);
    [statusText] is the text [updateStatus] last displayed. *)
Record State : Type := mkState {
  currentSessionId : string;
  currentRound : Z;
  lastPreviewDataUrl : option string;
  lastGuessCoordinates : option (float * float);
  latestStreetViewMetadata : option StreetViewMetadata;
  screenshotApiAvailable : bool;
  lastCoordinateTime : Z;
  statusText : string
}.

(** The values of the declarations; [Date.now()] at load time is [now]. *)
Definition initial (now : Z) (idle : string) : State :=
  mkState "" 1 None None None true now idle.

Definition setSession (v : string) (st : State) : State :=
  mkState v (currentRound st) (lastPreviewDataUrl st) (lastGuessCoordinates st)
          (latestStreetViewMetadata st) (screenshotApiAvailable st)
          (lastCoordinateTime st) (statusText st).

Definition setRound (v : Z) (st : State) : State :=
  mkState (currentSessionId st) v (lastPreviewDataUrl st) (lastGuessCoordinates st)
          (latestStreetViewMetadata st) (screenshotApiAvailable st)
          (lastCoordinateTime st) (statusText st).

Definition setPreview (v : option string) (st : State) : State :=
  mkState (currentSessionId st) (currentRound st) v (lastGuessCoordinates st)
          (latestStreetViewMetadata st) (screenshotApiAvailable st)
          (lastCoordinateTime st) (statusText st).

Definition setGuess (v : option (float * float)) (st : State) : State :=
  mkState (currentSessionId st) (currentRound st) (lastPreviewDataUrl st) v
          (latestStreetViewMetadata st) (screenshotApiAvailable st)
          (lastCoordinateTime st) (statusText st).

Definition setMetadata (v : option StreetViewMetadata) (st : State) : State :=
  mkState (currentSessionId st) (currentRound st) (lastPreviewDataUrl st)
          (lastGuessCoordinates st) v (screenshotApiAvailable st)
          (lastCoordinateTime st) (statusText st).

Definition setScreenshotApi (v : bool) (st : State) : State :=
  mkState (currentSessionId st) (currentRound st) (lastPreviewDataUrl st)
          (lastGuessCoordinates st) (latestStreetViewMetadata st) v
          (lastCoordinateTime st) (statusText st).

Definition setCoordinateTime (v : Z) (st : State) : State :=
  mkState (currentSessionId st) (currentRound st) (lastPreviewDataUrl st)
          (lastGuessCoordinates st) (latestStreetViewMetadata st)
          (screenshotApiAvailable st) v (statusText st).

(** [updateStatus(message)] *)
Definition updateStatus (message : string) (st : State) : State :=
  mkState (currentSessionId st) (currentRound st) (lastPreviewDataUrl st)
          (lastGuessCoordinates st) (latestStreetViewMetadata st)
          (screenshotApiAvailable st) (lastCoordinateTime st) message.

(** A number in a template string, for the integers used here *)
Definition showZ (n : Z) : string :=
  if n <? 0 then "-" ++ JSNumber.digits (- n) else JSNumber.digits n.

Definition roundId (n : Z) : string := "round-" ++ showZ n.

(** The [payload] of a [GEO_METADATA] message as the listener receives
    it: [lat] and [lon] hold any value, [None] when the property is
    missing; [place] is the text or the [null] that the background
    script puts there. *)
Record GeoMetadataPayload : Type := mkPayload {
  pl_lat : option json;
  pl_lon : option json;
  pl_place : option string
}.

(** What arrives in the tab when the background script sends
    [metadata] (the listener reads these three properties only). *)
Definition delivered (metadata : Background.GeoMetadata) : GeoMetadataPayload :=
  mkPayload (Some (JSValue.sentNumber (Background.md_lat metadata)))
            (Some (JSValue.sentNumber (Background.md_lon metadata)))
            (Background.md_place metadata).

Section WithAddressLogic.

Variable findAddress : json -> option string.
Variable inferCountryFromAddress : string -> option string.

(** *** The [GEO_METADATA] branch of [listenForDebuggerMetadata]

    [Number(payload?.lat)] and [Number(payload?.lon)] are evaluated
    first; a TypeError thrown there leaves the listener before anything
    is assigned. *)
Definition onGeoMetadata (payload : GeoMetadataPayload) (now : Z)
           (st : State) : State :=
  match JSValue.toNumber (pl_lat payload) with
  | None => st
  | Some latValue =>
      match JSValue.toNumber (pl_lon payload) with
      | None => st
      | Some lonValue =>
          if JSNumber.isFinite latValue && JSNumber.isFinite lonValue then
            let place := nonEmpty (pl_place payload) in
            let inferred := match place with
                            | Some p => nonEmpty (inferCountryFromAddress p)
                            | None => None
                            end in
            setMetadata (Some (mkMeta (Some latValue) (Some lonValue) inferred place
                                      inferred None))
                        (setCoordinateTime now st)
          else st
      end
  end.

(** *** The fetch and XHR interceptors end in [parseGeoPhotoResponse] *)
Definition onGeoPhotoResponse (body : string) (st : State) : State :=
  setMetadata (parseGeoPhotoResponse findAddress inferCountryFromAddress body
                                     (latestStreetViewMetadata st)) st.

End WithAddressLogic.

(** *** [saveCurrentScreenshot] *)

(** The answer of the background process to [SAVE_SCREENSHOT] *)
Record SaveResponse : Type := mkSaveResponse {
  sr_success : bool;
  sr_error : option string;
  sr_status : option Z;
  sr_data : option json
}.

(** What the call meets: [captureImageBase64()] returns the image or
    throws; [sendMessageAsync] resolves with the response (possibly
    [undefined]) or rejects. *)
Record ScreenshotEnv : Type := mkScreenshotEnv {
  capture : Completion string;
  reply : Completion (option SaveResponse)
}.

Inductive Effect : Type :=
| CaptureImage
| SendSaveScreenshot (imageBase64 sessionId round : string).

Definition saveFailedMessage : string := "Screenshot speichern fehlgeschlagen.".

(** [response?.error || "Screenshot speichern fehlgeschlagen."] *)
Definition failureMessage (response : option SaveResponse) : string :=
  match response with
  | Some r => match nonEmpty (sr_error r) with
              | Some m => m
              | None => saveFailedMessage
              end
  | None => saveFailedMessage
  end.

(** [response?.status === 404 || normalizedMessage.includes("not found")] *)
Definition endpointMissing (response : option SaveResponse) : bool :=
  bool_decide (match response with Some r => sr_status r | None => None end = Some 404)
  || JSString.includes (JSString.toLowerCase (failureMessage response)) "not found".

Definition saveCurrentScreenshot (silent : bool) (env : ScreenshotEnv) (st : State)
  : Completion (option json) * State * list Effect :=
  if negb (screenshotApiAvailable st) then (Returned None, st, [])
  else
    let report (message : string) (s : State) :=
      if silent then s else updateStatus (STATUS_ERROR ++ message) s in
    match capture env with
    | Threw message => (Threw message, report message st, [CaptureImage])
    | Returned imageBase64 =>
        let st1 := setPreview (Some ("data:image/jpeg;base64," ++ imageBase64)) st in
        let effects := [CaptureImage;
                        SendSaveScreenshot imageBase64 (currentSessionId st)
                                           (roundId (currentRound st))] in
        match reply env with
        | Threw message => (Threw message, report message st1, effects)
        | Returned response =>
            if match response with Some r => sr_success r | None => false end then
              (Returned (match response with Some r => sr_data r | None => None end),
               st1, effects)
            else if endpointMissing response then
              let st2 := setScreenshotApi false st1 in
              (Returned None,
               if silent then st2
               else updateStatus "Screenshot-API nicht verfuegbar." st2,
               effects)
            else (Threw (failureMessage response), st1, effects)
        end
    end.

(** *** Choosing the guess *)

Record Prediction : Type := mkPrediction {
  p_lat : option float;
  p_lon : option float
}.

(** [getTargetCoordinates(prediction)]; [!= null] on a field is
    [Some] in the model, and so is it on an object behind [?.]. *)
Definition getTargetCoordinates (prediction : option Prediction) (st : State)
  : float * float :=
  match prediction with
  | Some (mkPrediction (Some lat) (Some lon)) => (lat, lon)
  | _ =>
      match latestStreetViewMetadata st with
      | Some (mkMeta (Some lat) (Some lon) _ _ _ _) => (lat, lon)
      | _ => (0%float, 0%float)
      end
  end.

(** *** Round counter: Scrape *)

(** The end of a completed round in the loop of [scrapeRound]:
    [currentRound += 1; if (currentRound > ROUND_LIMIT) currentRound = 1],
    then the status line. *)
Definition finishScrapeRound (st : State) : State :=
  let r := currentRound st + 1 in
  let st1 := setRound (if ROUND_LIMIT <? r then 1 else r) st in
  updateStatus ("Scrape: Runde " ++ showZ (currentRound st1 - 1) ++ " abgeschlossen.") st1.

(** The play-again branch of the new-game monitor *)
Definition onPlayAgainDetected (newSessionId : string) (st : State) : State :=
  setSession newSessionId (setMetadata None (setGuess None (setRound 1 st))).

(** *** Round counter: Auto Play *)

(** What [handleResultTransition] meets: an exception before the
    counter is touched (an aborted wait), or else whether
    [goToNextRound] finds a control, and the session id that
    [startNextGame] composes. *)
Record TransitionEnv : Type := mkTransitionEnv {
  transitionThrows : option string;
  nextRoundFound : bool;
  newSessionId : string
}.

(** [startNextGame]: whether or not the play-again control was found,
    the counters are reset and a new session id is taken. *)
Definition startNextGame (env : TransitionEnv) (st : State) : State :=
  setSession (newSessionId env) (setGuess None (setRound 1 st)).

Definition handleResultTransition (isFinalRound : bool) (env : TransitionEnv)
           (st : State) : Completion unit * State :=
  match transitionThrows env with
  | Some message => (Threw message, st)
  | None =>
      if negb isFinalRound && nextRoundFound env
      then (Returned tt, setRound (currentRound st + 1) st)
      else (Returned tt, startNextGame env st)
  end.

(** What one iteration of the loop of [playAutomaticMatch] meets:
    whether the loop is still wanted; an exception while waiting for
    the scene; the image [requestPrediction] captured, if it got that
    far, and how it ended; an exception of [placeGuessOnMap], or else
    the marker it read back from the map; exceptions of [submitGuess]
    and of the steps after it; and what the transition meets. *)
Record RoundEnv : Type := mkRoundEnv {
  running : bool;
  sceneReady : option string;
  previewImage : option string;
  prediction : Completion (option Prediction);
  placeGuess : option string;
  marker : option (float * float);
  submit : option string;
  afterSubmit : option string;
  transition : TransitionEnv
}.

(** The calls an iteration makes to the backend and to the game's map *)
Inductive Call : Type :=
| SendCoords (lat lon : float) (source : string) (roundIndex : Z)
| PlaceGuessOnMap (lat lon : float)
| SubmitGuess.

(** The coordinates sent first, when metadata with both is at hand *)
Definition coordsCall (roundIndex : Z) (st : State) : list Call :=
  match latestStreetViewMetadata st with
  | Some (mkMeta (Some lat) (Some lon) _ _ _ _) =>
      [SendCoords lat lon "auto_play" (roundIndex + 1)]
  | _ => []
  end.

(** The [try] block of an iteration: prediction, placement, submission
    and what follows; an exception leaves the block and is reported on
    the status line.  A placement that returns leaves the marker read
    from the map, or else the target, in [lastGuessCoordinates]. *)
Definition guessStep (env : RoundEnv) (st : State) : State * list Call :=
  let st1 := match previewImage env with
             | Some image => setPreview (Some ("data:image/jpeg;base64," ++ image)) st
             | None => st
             end in
  match prediction env with
  | Threw message => (updateStatus (STATUS_ERROR ++ message) st1, [])
  | Returned p =>
      let '(lat, lon) := getTargetCoordinates p st1 in
      match placeGuess env with
      | Some message =>
          (updateStatus (STATUS_ERROR ++ message) st1, [PlaceGuessOnMap lat lon])
      | None =>
          let st2 := setGuess (Some (match marker env with
                                     | Some position => position
                                     | None => (lat, lon)
                                     end)) st1 in
          match submit env with
          | Some message =>
              (updateStatus (STATUS_ERROR ++ message) st2,
               [PlaceGuessOnMap lat lon; SubmitGuess])
          | None =>
              (match afterSubmit env with
               | Some message => updateStatus (STATUS_ERROR ++ message) st2
               | None => st2
               end,
               [PlaceGuessOnMap lat lon; SubmitGuess])
          end
      end
  end.

(** One iteration for [roundIndex]: whether it ran to its end (the
    function returns at the head of the loop when Auto Play was
    stopped, and throws when the scene does not appear), the state it
    leaves and the calls it made.  (The status line ends in an
    ellipsis, a code unit beyond 255, which is left out.) *)
Definition playRound (roundIndex : Z) (env : RoundEnv) (st : State)
  : bool * State * list Call :=
  if negb (running env) then (false, st, [])
  else
    let st0 := updateStatus ("Auto Play: Runde " ++ showZ (roundIndex + 1) ++ " von "
                             ++ showZ ROUND_LIMIT) (setGuess None st) in
    match sceneReady env with
    | Some _ => (false, st0, [])
    | None =>
        let sent := coordsCall roundIndex st0 in
        let '(st1, calls) := guessStep env st0 in
        let '(_, st2) :=
          handleResultTransition (ROUND_LIMIT - 1 <=? roundIndex) (transition env) st1 in
        (true, st2, (sent ++ calls)%list)
    end.

(** [playAutomaticMatch]: the counter is set to 1, then the iterations
    for [roundIndex] = 0 .. [ROUND_LIMIT - 1] run against [envs].  The
    result lists [currentRound] after each finished iteration and the
    calls made. *)
Fixpoint playRounds (roundIndex : Z) (envs : list RoundEnv) (st : State)
  : State * list Z * list Call :=
  match envs with
  | [] => (st, [], [])
  | env :: rest =>
      if ROUND_LIMIT <=? roundIndex then (st, [], [])
      else
        match playRound roundIndex env st with
        | (false, st1, calls) => (st1, [], calls)
        | (true, st1, calls) =>
            let '(st2, rounds, calls') := playRounds (roundIndex + 1) rest st1 in
            (st2, currentRound st1 :: rounds, (calls ++ calls')%list)
        end
  end.

Definition playAutomaticMatch (envs : list RoundEnv) (st : State)
  : State * list Z * list Call :=
  playRounds 0 envs (setRound 1 st).

(** *** The operations on the state, as one type

    Every modelled entry point that writes a module-level variable,
    with what it meets as its argument. *)
Inductive Operation : Type :=
| OpGeoMetadata (payload : GeoMetadataPayload) (now : Z)
| OpGeoPhotoResponse (body : string)
| OpSaveScreenshot (silent : bool) (env : ScreenshotEnv)
| OpFinishScrapeRound
| OpPlayAgainDetected (newSession : string)
| OpPlayAutomaticMatch (envs : list RoundEnv).

Section Performing.

Variable findAddress : json -> option string.
Variable inferCountryFromAddress : string -> option string.

Definition perform (op : Operation) (st : State) : State :=
  match op with
  | OpGeoMetadata payload now => onGeoMetadata inferCountryFromAddress payload now st
  | OpGeoPhotoResponse body =>
      onGeoPhotoResponse findAddress inferCountryFromAddress body st
  | OpSaveScreenshot silent env => snd (fst (saveCurrentScreenshot silent env st))
  | OpFinishScrapeRound => finishScrapeRound st
  | OpPlayAgainDetected sid => onPlayAgainDetected sid st
  | OpPlayAutomaticMatch envs => fst (fst (playAutomaticMatch envs st))
  end.

Definition performAll (ops : list Operation) (st : State) : State :=
  fold_left (fun s op => perform op s) ops st.

End Performing.

End ContentScript.

(** ** The older content script: reporting coordinates to the backend *)

Module CoordsReport.

(** What [getOverlayState()] reads from the overlay's inputs *)
Record OverlayState : Type := mkOverlay {
  sessionId : option string;
  roundIndex : option Z;
  roundId : option string
}.

(** What a call meets in the page: whether [chrome.runtime.sendMessage]
    exists, the overlay, and [window.__geovizDebuggerMetadata]. *)
Record Page : Type := mkPage {
  runtimeAvailable : bool;
  overlay : OverlayState;
  debuggerPlace : option string;
  debuggerLanguage : option string
}.

(** The payload of a [SEND_COORDS] message ([captured_at], the time of
    the call, is not kept). *)
Record CoordsMessage : Type := mkCoordsMessage {
  msg_lat : float;
  msg_lon : float;
  msg_source : string;
  msg_session_id : option string;
  msg_round_id : option string;
  msg_round_index : option Z;
  msg_place : option string;
  msg_language : option string
}.

(** [lastSentCoordsSignature] and the messages sent, oldest first *)
Record State : Type := mkState {
  lastSentCoordsSignature : option string;
  outbox : list CoordsMessage
}.

Definition initial : State := mkState None [].

Definition signature (latValue lonValue : float) (context : string) : string :=
  JSNumber.toFixed latValue 5 ++ ":" ++ JSNumber.toFixed lonValue 5 ++ ":" ++ context.

(** [notifyCoordsUpdate(latValue, lonValue, context)] *)
Definition notifyCoordsUpdate (page : Page) (latValue lonValue : float)
           (context : string) (st : State) : State :=
  if negb (runtimeAvailable page) then st
  else if negb (JSNumber.isFinite latValue) || negb (JSNumber.isFinite lonValue) then st
  else
    let sig := signature latValue lonValue context in
    if bool_decide (lastSentCoordsSignature st = Some sig) then st
    else
      let o := overlay page in
      mkState (Some sig)
              (outbox st ++
                 [mkCoordsMessage latValue lonValue context (sessionId o) (roundId o)
                                  (roundIndex o)
                                  (Extraction.nonEmpty (debuggerPlace page))
                                  (Extraction.nonEmpty (debuggerLanguage page))])%list.

End CoordsReport.

(** ** The deep search as the specification words it *)

Module DeepSearchSpec.

(** The arrays of a value in depth-first order: an array, then the
    arrays within its elements from left to right; the members of an
    object are visited in key order. *)
Fixpoint arrays (v : json) : list (list json) :=
  match v with
  | JArr xs => xs :: List.flat_map arrays xs
  | JObj kvs => List.flat_map (fun kv => arrays (snd kv)) kvs
  | _ => []
  end.

Fixpoint firstSome {A B : Type} (f : A -> option B) (l : list A) : option B :=
  match l with
  | [] => None
  | x :: rest =>
      match f x with
      | Some b => Some b
      | None => firstSome f rest
      end
  end.

(** "An array of length at least 4 whose elements at index 2 and 3 are
    both numbers within valid lat/lon range" *)
Definition validCoordinateArray (xs : list json) : option (float * float) :=
  if (4 <=? length xs)%nat then
    match nth_error xs 2, nth_error xs 3 with
    | Some (JNum lat), Some (JNum lon) =>
        if ((-90)%float <=? lat)%float && (lat <=? 90%float)%float
           && ((-180)%float <=? lon)%float && (lon <=? 180%float)%float
        then Some (lat, lon) else None
    | _, _ => None
    end
  else None.

(** "Return the first such match (depth-first, array traversal order)";
    [None] when there is none. *)
Definition firstCoordinates (node : json) : option (float * float) :=
  firstSome validCoordinateArray (arrays node).

End DeepSearchSpec.

(** ** Terms of the specification *)

Module SpecTerms.


(** Street-view metadata "has been captured" when an object with both
    coordinates is stored. *)
Definition captured (m : option Extraction.StreetViewMetadata) : bool :=
  match m with
  | Some (Extraction.mkMeta (Some _) (Some _) _ _ _ _) => true
  | _ => false
  end.

(** The observations of a sequence that are delivered when an
    observation is suppressed exactly if its key equals the key of the
    one before it ([last] being the key in force at the start). *)
Fixpoint changes {A : Type} (key : A -> string) (last : option string) (l : list A)
  : list A :=
  match l with
  | [] => []
  | x :: rest =>
      if bool_decide (last = Some (key x)) then changes key last rest
      else x :: changes key (Some (key x)) rest
  end.

(** The key as the specification writes it: latitude and longitude at
    five decimals and the source tag. *)
Definition signatureWithSource (lat lon : float) (source : string) : string :=
  JSNumber.toFixed lat 5 ++ ":" ++ JSNumber.toFixed lon 5 ++ ":" ++ source.

(** An Auto Play iteration in which nothing stops the loop, the scene
    appears, the transition does not throw and the next-round control
    is found. *)
Definition smooth (env : ContentScript.RoundEnv) : bool :=
  ContentScript.running env
  && match ContentScript.sceneReady env with None => true | Some _ => false end
  && match ContentScript.transitionThrows (ContentScript.transition env) with
     | None => true
     | Some _ => false
     end
  && ContentScript.nextRoundFound (ContentScript.transition env).

(** A base64 text with no white space in it, as [canvas.toDataURL]
    writes it. *)
Definition withoutWhitespace (text : string) : bool :=
  forallb (fun c => negb (Base64.isAsciiWhitespace c)) (list_ascii_of_string text).

End SpecTerms.

(** ** Checking a finite range of integers *)

Module Range.

(** [f] holds on [from], [from + 1], ..., [from + count - 1]. *)
Fixpoint all (count : nat) (from : Z) (f : Z -> bool) : bool :=
  match count with
  | O => true
  | S k => f from && all k (from + 1) f
  end.

(** The darkness test of [isInvalidImage] agrees with the comparison of
    the integers [5 * low] and [4 * total], for every [low] up to
    [total]. *)
Definition ratioAgrees (total : Z) : bool :=
  all (Z.to_nat total + 1) 0
      (fun low => Bool.eqb (0.8 <? JSNumber.ofZ low / JSNumber.ofZ total)%float
                           (4 * total <? 5 * low)).

End Range.

(** ** Sample inputs *)

Module Samples.

(** The synthetic response of the specification, with the brackets of
    its array balanced and the text that [JSON.stringify] writes. *)
Definition syntheticBody : string :=
  "/**/_callbacks____foo([null,[[null,null,null,null,null,[[null,[[null,[null,null,48.8566,2.3522]]]]]]]])".

(** A response in which an array of tile sizes comes before the
    location. *)
Definition tileSizesFirst : string :=
  "[[2,2,512,512],[null,null,48.8566,2.3522]]".

(** A response with no location at all. *)
Definition noLocation : string := "[7,8,512,1024]".

Definition observation (lat lon : float) (source : string) : Background.GeoMetadata :=
  Background.mkGeoMetadata lat lon None None source "https://maps.googleapis.com/GeoPhotoService"
                           1700000000000 "debugger" 7.

Definition freshPage : ContentScript.State :=
  ContentScript.initial 1700000000000 "Bereit.".

Definition noCountry (address : string) : option string := None.
Definition noAddress (data : json) : option string := None.

(** An Auto Play iteration with a full prediction in which every step
    succeeds; [found] tells whether the next-round control is there. *)
Definition autoRound (found : bool) : ContentScript.RoundEnv :=
  ContentScript.mkRoundEnv
    true None (Some "AAAA")
    (ContentScript.Returned
       (Some (ContentScript.mkPrediction (Some 48.8566%float) (Some 2.3522%float))))
    None None None None
    (ContentScript.mkTransitionEnv None found "chrome-session-tab-1-1700000000003").

(** The bytes of a picture with varied brightness, and its base64 text
    (1200 characters). *)
Definition variedBytes : list Z :=
  List.map (fun i => (Z.of_nat i * 37) mod 256) (seq 1 900).

Definition variedText : string := Base64.btoa variedBytes.

End Samples.

(** ** background.js: the place name of a response *)

Module Place.

Definition preferredLanguages : list string := ["en"; "da"; "es"; "de"].

(** What [best] holds in [findPlaceCandidate] *)
Record Candidate : Type := mkCandidate {
  place : string;
  lang : string;
  score : float
}.

(** [/,|\s/.test(text)]: a comma or a white-space character of the
    regular expression class, which among the code units below 256 is
    the white space of [trim]. *)
Definition hasCommaOrSpace (text : string) : bool :=
  existsb (fun c => Ascii.eqb c "," || JSString.isWhiteSpace c)
          (list_ascii_of_string text).

(** [/^©|\(c\)/i.test(text)]: the copyright sign (code unit 169) at the
    start, or an opening bracket, a letter c of either case and a
    closing bracket anywhere. *)
Definition isCopyright (text : string) : bool :=
  JSString.startsWith text (String "169"%char EmptyString)
  || JSString.includes (JSString.toLowerCase text) "(c)".

Definition looksLikePlace (text : string) : bool :=
  hasCommaOrSpace text && (3 <=? JSString.len text) && negb (isCopyright text).

(** [preferredLanguages.indexOf(lang)] *)
Fixpoint indexOfLanguage (lang : string) (l : list string) (i : Z) : Z :=
  match l with
  | [] => -1
  | x :: rest => if String.eqb x lang then i else indexOfLanguage lang rest (i + 1)
  end.

(** [(preferredLanguages.indexOf(lang) + 1) || preferredLanguages.length + 1] *)
Definition languageScore (lang : string) : Z :=
  let k := indexOfLanguage lang preferredLanguages 0 + 1 in
  if k =? 0 then Z.of_nat (length preferredLanguages) + 1 else k.

(** [Math.abs(30 - text.length) / 30] *)
Definition lengthPenalty (text : string) : float :=
  (PrimFloat.abs (JSNumber.ofZ (30 - JSString.len text)) / JSNumber.ofZ 30)%float.

(** The test of [scan] on an array, and the entry it would store. *)
Definition candidate (xs : list json) : option Candidate :=
  match xs with
  | JStr s0 :: JStr s1 :: _ =>
      if JSString.len s1 <=? 5 then
        let text := JSString.trim s0 in
        let lang := JSString.toLowerCase s1 in
        if looksLikePlace text
        then Some (mkCandidate text lang
                     (JSNumber.ofZ (languageScore lang) + lengthPenalty text)%float)
        else None
      else None
  | _ => None
  end.

(** [if (!best || score < best.score) best = ...] *)
Definition better (c : Candidate) (best : option Candidate) : option Candidate :=
  match best with
  | None => Some c
  | Some b => if (score c <? score b)%float then Some c else best
  end.

Definition consider (best : option Candidate) (xs : list json) : option Candidate :=
  match candidate xs with
  | Some c => better c best
  | None => best
  end.

(** [scan] of [findPlaceCandidate], threading the closure variable
    [best] ([_terminal] is never set, so the traversal is never cut
    short). *)
Fixpoint scan (value : json) (best : option Candidate) : option Candidate :=
  match value with
  | JArr xs =>
      (fix each (l : list json) (b : option Candidate) :=
         match l with
         | [] => b
         | entry :: rest => each rest (scan entry b)
         end) xs (consider best xs)
  | JObj kvs =>
      (fix each (l : list (string * json)) (b : option Candidate) :=
         match l with
         | [] => b
         | (_, member) :: rest => each rest (scan member b)
         end) kvs best
  | _ => best
  end.

(** [findPlaceCandidate(node)]: the place and its language *)
Definition findPlaceCandidate (node : json) : option (string * string) :=
  match scan node None with
  | Some b => Some (place b, lang b)
  | None => None
  end.

End Place.

(** ** background.js: the debugger's events and the end of a capture *)

Module Capture.

Import Background.

(** Further calls to [chrome.debugger] *)
Inductive Request : Type :=
| Detach (tabId : Z)
| GetResponseBody (tabId : Z) (requestId : string).

(** The three deletions in the callback of [chrome.debugger.detach] *)
Definition removeTab (tabId : Z) (st : State) : State :=
  mkState (activeCaptureTabs st ∖ {[tabId]})
          (delete tabId (tabCoordinateSignatures st))
          (delete tabId (tabMetadataCache st))
          (geovizLastMetadata st) (sentToTabs st).

(** [stopGeoCapture(tabId = null)]; the promise always resolves. *)
Definition stopGeoCapture (tabId : option Z) (st : State) : State * list Request :=
  match tabId with
  | None => (st, [])
  | Some t =>
      if bool_decide (t ∈ activeCaptureTabs st) then (removeTab t st, [Detach t])
      else (st, [])
  end.

(** [stopAllGeoCaptures()]: one [stopGeoCapture] per captured tab.  The
    loop issues every [detach] before any callback runs; the tabs are
    taken here in the order of [elements]. *)
Definition stopNext (acc : State * list Request) (t : Z) : State * list Request :=
  let '(s, reqs) := stopGeoCapture (Some t) (fst acc) in
  (s, (snd acc ++ reqs)%list).

Definition stopAllGeoCaptures (st : State) : State * list Request :=
  fold_left stopNext (elements (activeCaptureTabs st)) (st, []).

(** The listener of [chrome.tabs.onRemoved] *)
Definition onTabRemoved (tabId : Z) (st : State) : State * list Request :=
  if bool_decide (tabId ∈ activeCaptureTabs st) then stopGeoCapture (Some tabId) st
  else (st, []).

(** [GEO_SERVICE_REGEX.test(url)]: the word in any mix of upper and
    lower case. *)
Definition isGeoServiceUrl (url : string) : bool :=
  JSString.includes (JSString.toLowerCase url) "geophotoservice".

(** The listener of [chrome.debugger.onEvent] up to the request for the
    body; [url] is [params?.response?.url]. *)
Definition onDebuggerEvent (tabId : Z) (method : string) (url : option string)
           (requestId : string) (st : State) : list Request :=
  if negb (bool_decide (tabId ∈ activeCaptureTabs st)) then []
  else if negb (String.eqb method "Network.responseReceived") then []
  else if negb (isGeoServiceUrl (default "" url)) then []
  else [GetResponseBody tabId requestId].

(** The callback of [Network.getResponseBody] from the point where the
    text of the body is known, with [timestamp] and [now] for the two
    readings of [Date.now()]. *)
Definition onResponseText (tabId : Z) (url text : string) (timestamp now : Z)
           (st : State) : State :=
  let data := parseGeoPayload text in
  if negb (truthy (Some data)) then st
  else
    match findCoordinates data with
    | None => st
    | Some (lat, lon) =>
        let found := Place.findPlaceCandidate data in
        emitGeoMetadata tabId
          (mkGeoMetadata lat lon (option_map fst found) (option_map snd found)
                         "debugger" url timestamp "debugger" tabId)
          now st
    end.

(** What happens to the state of the background process *)
Inductive Operation : Type :=
| OpStart (tabId : Z) (dbg : Debugger)
| OpStop (tabId : option Z)
| OpStopAll
| OpTabRemoved (tabId : Z)
| OpResponseText (tabId : Z) (url text : string) (timestamp now : Z).

Definition perform (op : Operation) (st : State) : State :=
  match op with
  | OpStart tabId dbg => snd (fst (startGeoCapture tabId dbg st))
  | OpStop tabId => fst (stopGeoCapture tabId st)
  | OpStopAll => fst (stopAllGeoCaptures st)
  | OpTabRemoved tabId => fst (onTabRemoved tabId st)
  | OpResponseText tabId url text timestamp now =>
      onResponseText tabId url text timestamp now st
  end.

Definition performAll (ops : list Operation) (st : State) : State :=
  fold_left (fun s op => perform op s) ops st.

End Capture.

(** ** background.js, the variant for one tab *)

Module SingleTab.

(** [geoCaptureTabId] and [lastCoordinateSignature] (the key of the
    last observation that [emitGeoMetadata] let through) *)
Record State : Type := mkState {
  geoCaptureTabId : option Z;
  lastCoordinateSignature : option string
}.

Definition initial : State := mkState None None.

Inductive Request : Type :=
| Attach (tabId : Z)
| NetworkEnable (tabId : Z)
| Detach (tabId : Z).

(** [stopGeoCapture()] *)
Definition stopGeoCapture (st : State) : State * list Request :=
  match geoCaptureTabId st with
  | None => (st, [])
  | Some targetTab => (mkState None None, [Detach targetTab])
  end.

(** [startGeoCapture(tabId)]: a capture on another tab is stopped
    before the debugger is attached to this one. *)
Definition startGeoCapture (tabId : Z) (dbg : Background.Debugger) (st : State)
  : Background.Settled * State * list Request :=
  if tabId =? 0 then (Background.Rejected Background.noTabMessage, st, [])
  else if bool_decide (geoCaptureTabId st = Some tabId) then (Background.Resolved, st, [])
  else
    let '(st1, stopped) := stopGeoCapture st in
    match Background.attachError dbg with
    | Some message => (Background.Rejected message, st1, (stopped ++ [Attach tabId])%list)
    | None =>
        match Background.enableError dbg with
        | Some message =>
            (Background.Rejected message, st1,
             (stopped ++ [Attach tabId; NetworkEnable tabId])%list)
        | None =>
            (Background.Resolved, mkState (Some tabId) (lastCoordinateSignature st1),
             (stopped ++ [Attach tabId; NetworkEnable tabId])%list)
        end
    end.

(** The listener of [chrome.tabs.onRemoved] *)
Definition onTabRemoved (tabId : Z) (st : State) : State * list Request :=
  if bool_decide (geoCaptureTabId st = Some tabId) then stopGeoCapture st else (st, []).

End SingleTab.

(** ** background.js: configuration and the backend's endpoints *)

Module Config.

Definition DEFAULT_backendUrl : string := "http://localhost:8000".
Definition DEFAULT_sessionPrefix : string := "chrome-session".
Definition DEFAULT_autoPlayEnabled : bool := false.

(** [DEFAULT_CONFIG] *)
Definition DEFAULT_CONFIG : list (string * json) :=
  [("backendUrl", JStr DEFAULT_backendUrl);
   ("sessionPrefix", JStr DEFAULT_sessionPrefix);
   ("autoPlayEnabled", JBool DEFAULT_autoPlayEnabled)].

(** [chrome.storage.sync.get(defaults, callback)] on the items
    [storage] of [chrome.storage.sync]: for each key of [defaults] the
    stored item, or else the default. *)
Definition storageGet (defaults : list (string * json)) (storage : gmap string json)
  : list (string * json) :=
  List.map (fun kv => (fst kv, default (snd kv) (storage !! fst kv))) defaults.

(** [chrome.storage.sync.set(items)] *)
Definition storageSet (items : list (string * json)) (storage : gmap string json) : gmap string json :=
  fold_left (fun s kv => <[fst kv := snd kv]> s) items storage.

(** [ensureDefaults()]: the items it decides to write *)
Definition missingDefaults (storage : gmap string json) : list (string * json) :=
  let config := storageGet DEFAULT_CONFIG storage in
  List.filter (fun kv => match assoc (fst kv) config with
                         | None => true
                         | Some _ => false
                         end) DEFAULT_CONFIG.

Definition ensureDefaults (storage : gmap string json) : gmap string json :=
  match missingDefaults storage with
  | [] => storage
  | updates => storageSet updates storage
  end.

Record Configuration : Type := mkConfiguration {
  backendUrl : json;
  sessionPrefix : json;
  autoPlayEnabled : bool
}.

(** [value || fallback] *)
Definition orElse (value : option json) (fallback : json) : json :=
  if truthy value then default fallback value else fallback.

(** [getConfig()] *)
Definition getConfig (storage : gmap string json) : Configuration :=
  let config := storageGet DEFAULT_CONFIG storage in
  mkConfiguration
    (orElse (assoc "backendUrl" config) (JStr DEFAULT_backendUrl))
    (orElse (assoc "sessionPrefix" config) (JStr DEFAULT_sessionPrefix))
    (match assoc "autoPlayEnabled" config with
     | Some (JBool b) => b
     | _ => DEFAULT_autoPlayEnabled
     end).

(** [{ ...current, ...partial }]: the keys of [current] in place with
    the values of [partial] where it has them, then the further keys
    of [partial]. *)
Definition spread (current partial : list (string * json)) : list (string * json) :=
  fold_left (fun acc kv => setMember (fst kv) (snd kv) acc) partial current.

(** [saveConfig(partial)]: the storage after [set(merged)]; the
    promise resolves with [merged]. *)
Definition saveConfig (partial : list (string * json)) (storage : gmap string json) : gmap string json :=
  storageSet (spread (storageGet DEFAULT_CONFIG storage) partial) storage.




End Config.

(** ** popup.js: the settings form *)

Module Popup.

(** [input.value.trim() || fallback] *)
Definition orDefault (input fallback : string) : string :=
  let text := JSString.trim input in
  if String.eqb text "" then fallback else text.

(** The payload of the [SAVE_CONFIG] message that [saveConfig()] sends *)
Definition savePayload (backendInput sessionInput : string) (autoPlay : bool)
  : list (string * json) :=
  [("backendUrl", JStr (orDefault backendInput "http://localhost:8000"));
   ("sessionPrefix", JStr (orDefault sessionInput "chrome-session"));
   ("autoPlayEnabled", JBool autoPlay)].

End Popup.
(** ** The content script: address and country of a response *)

Module Address.

(** The test of [scan] in [findAddressDeep] on an array: two strings
    in front, the first one with a comma and 5 to 200 code units when
    trimmed. *)
Definition addressCandidate (xs : list json) : option string :=
  match xs with
  | JStr s0 :: JStr s1 :: _ =>
      let text := JSString.trim s0 in
      if JSString.includes text "," && (5 <=? JSString.len text)
         && (JSString.len text <=? 200)
      then Some text else None
  | _ => None
  end.

(** [if (!bestAddress || text.length > bestAddress.length) bestAddress = text] *)
Definition longer (text : string) (best : option string) : option string :=
  match best with
  | None => Some text
  | Some b =>
      if String.eqb b "" || (JSString.len b <? JSString.len text) then Some text else best
  end.

Definition consider (best : option string) (xs : list json) : option string :=
  match addressCandidate xs with
  | Some text => longer text best
  | None => best
  end.

(** [scan] of [findAddressDeep], threading [bestAddress] *)
Fixpoint scan (value : json) (best : option string) : option string :=
  match value with
  | JArr xs =>
      (fix each (l : list json) (b : option string) :=
         match l with
         | [] => b
         | entry :: rest => each rest (scan entry b)
         end) xs (consider best xs)
  | JObj kvs =>
      (fix each (l : list (string * json)) (b : option string) :=
         match l with
         | [] => b
         | (_, member) :: rest => each rest (scan member b)
         end) kvs best
  | _ => best
  end.

Definition findAddressDeep (node : json) : option string := scan node None.

(** [s.split(",")] *)
Fixpoint split (s : string) : list string :=
  match s with
  | EmptyString => [EmptyString]
  | String c t =>
      if Ascii.eqb c "," then EmptyString :: split t
      else match split t with
           | p :: rest => String c p :: rest
           | [] => [String c EmptyString]
           end
  end.

(** [address.split(",").map((part) => part.trim()).filter(Boolean)] *)
Definition parts (address : string) : list string :=
  List.filter (fun p => negb (String.eqb p "")) (List.map JSString.trim (split address)).

(** The entries of [countryMappings] whose key is made of code units
    below 256; the twenty keys in other scripts equal no string of
    this model. *)
Definition countryMappings : list (string * string) :=
  [("united states", "US"); ("usa", "US"); ("u.s.a.", "US"); ("u.s.", "US");
   ("america", "US"); ("united kingdom", "GB"); ("uk", "GB"); ("great britain", "GB");
   ("england", "GB"); ("scotland", "GB"); ("wales", "GB"); ("germany", "DE");
   ("deutschland", "DE"); ("france", "FR"); ("francia", "FR"); ("frankreich", "FR");
   ("spain", "ES"); ("espa" ++ String "241"%char "a", "ES"); ("espana", "ES");
   ("spanien", "ES"); ("italy", "IT"); ("italia", "IT"); ("italien", "IT");
   ("netherlands", "NL"); ("nederland", "NL"); ("holland", "NL"); ("belgium", "BE");
   ("belgique", "BE"); ("belgie", "BE"); ("belgien", "BE"); ("portugal", "PT");
   ("austria", "AT"); (String "246"%char "sterreich", "AT"); ("osterreich", "AT");
   ("switzerland", "CH"); ("schweiz", "CH"); ("suisse", "CH"); ("svizzera", "CH");
   ("poland", "PL"); ("polska", "PL"); ("polen", "PL"); ("czech republic", "CZ");
   ("czechia", "CZ"); ("cesko", "CZ"); ("sweden", "SE"); ("sverige", "SE");
   ("schweden", "SE"); ("norway", "NO"); ("norge", "NO"); ("norwegen", "NO");
   ("denmark", "DK"); ("danmark", "DK"); ("d" ++ String "228"%char "nemark", "DK");
   ("danemark", "DK"); ("finland", "FI"); ("suomi", "FI"); ("finnland", "FI");
   ("russia", "RU"); ("russland", "RU"); ("russian federation", "RU"); ("japan", "JP");
   ("nippon", "JP"); ("south korea", "KR"); ("korea", "KR");
   ("republic of korea", "KR"); ("china", "CN"); ("peoples republic of china", "CN");
   ("taiwan", "TW"); ("australia", "AU"); ("australien", "AU"); ("new zealand", "NZ");
   ("neuseeland", "NZ"); ("canada", "CA"); ("kanada", "CA"); ("mexico", "MX");
   ("m" ++ String "233"%char "xico", "MX"); ("mexiko", "MX"); ("brazil", "BR");
   ("brasil", "BR"); ("brasilien", "BR"); ("argentina", "AR"); ("argentinien", "AR");
   ("chile", "CL"); ("colombia", "CO"); ("kolumbien", "CO"); ("peru", "PE");
   ("south africa", "ZA"); ("s" ++ String "252"%char "dafrika", "ZA");
   ("sudafrika", "ZA"); ("india", "IN"); ("indien", "IN"); ("thailand", "TH");
   ("indonesia", "ID"); ("indonesien", "ID"); ("malaysia", "MY"); ("singapore", "SG");
   ("singapur", "SG"); ("philippines", "PH"); ("philippinen", "PH");
   ("pilipinas", "PH"); ("vietnam", "VN"); ("turkey", "TR");
   ("t" ++ String "252"%char "rkiye", "TR"); ("turkiye", "TR");
   ("t" ++ String "252"%char "rkei", "TR"); ("turkei", "TR"); ("greece", "GR");
   ("ellada", "GR"); ("griechenland", "GR"); ("ireland", "IE");
   (String "233"%char "ire", "IE"); ("eire", "IE"); ("irland", "IE");
   ("iceland", "IS"); (String "237"%char "sland", "IS"); ("island", "IS");
   ("hungary", "HU"); ("magyarorsz" ++ String "225"%char "g", "HU");
   ("magyarorszag", "HU"); ("ungarn", "HU"); ("romania", "RO");
   ("rom" ++ String "226"%char "nia", "RO"); ("rum" ++ String "228"%char "nien", "RO");
   ("rumanien", "RO"); ("bulgaria", "BG"); ("bulgarien", "BG"); ("croatia", "HR");
   ("hrvatska", "HR"); ("kroatien", "HR"); ("serbia", "RS"); ("srbija", "RS");
   ("serbien", "RS"); ("ukraine", "UA"); ("ukraina", "UA"); ("israel", "IL");
   ("egypt", "EG"); (String "228"%char "gypten", "EG"); ("agypten", "EG");
   ("morocco", "MA"); ("marokko", "MA"); ("united arab emirates", "AE"); ("uae", "AE");
   ("saudi arabia", "SA"); ("mongolia", "MN"); ("mongolei", "MN"); ("estonia", "EE");
   ("eesti", "EE"); ("estland", "EE"); ("latvia", "LV"); ("latvija", "LV");
   ("lettland", "LV"); ("lithuania", "LT"); ("lietuva", "LT"); ("litauen", "LT");
   ("slovakia", "SK"); ("slovensko", "SK"); ("slowakei", "SK"); ("slovenia", "SI");
   ("slovenija", "SI"); ("slowenien", "SI"); ("luxembourg", "LU"); ("luxemburg", "LU");
   ("malta", "MT"); ("cyprus", "CY"); ("kypros", "CY"); ("zypern", "CY")].

Fixpoint lookupCountry (key : string) (table : list (string * string)) : option string :=
  match table with
  | [] => None
  | (k, v) :: rest => if String.eqb key k then Some v else lookupCountry key rest
  end.

(** The lower-case names that an object literal inherits from
    [Object.prototype]: [countryMappings[name]] is then a function or
    an object, and truthy. *)
Definition inherited (name : string) : bool :=
  String.eqb name "constructor" || String.eqb name "__proto__".

Definition isAsciiLetter (c : ascii) : bool :=
  let n := Z.of_nat (nat_of_ascii c) in
  ((65 <=? n) && (n <=? 90)) || ((97 <=? n) && (n <=? 122)).

(** [lastPart.length === 2 && /^[A-Za-z]{2}$/.test(lastPart)] *)
Definition isTwoLetterCode (lastPart : string) : bool :=
  (JSString.len lastPart =? 2) && forallb isAsciiLetter (list_ascii_of_string lastPart).

(** [toUpperCase()] on the letters a to z, where the script applies it *)
Definition upperChar (c : ascii) : ascii :=
  let n := nat_of_ascii c in
  if (97 <=? Z.of_nat n) && (Z.of_nat n <=? 122) then ascii_of_nat (n - 32) else c.

Fixpoint toUpperCase (s : string) : string :=
  match s with
  | EmptyString => EmptyString
  | String c t => String (upperChar c) (toUpperCase t)
  end.

(** What [inferCountryFromAddress] returns: a text, or the inherited
    member of [countryMappings] under the given name. *)
Inductive Country : Type :=
| Text (text : string)
| Inherited (name : string).

(** [inferCountryFromAddress(address)]; [None] is its [null]. *)
Definition inferCountryFromAddress (address : string) : option Country :=
  if String.eqb address "" then None
  else
    match last (parts address) with
    | None => None
    | Some lastPart =>
        let normalized := JSString.trim (JSString.toLowerCase lastPart) in
        if isTwoLetterCode lastPart then Some (Text (toUpperCase lastPart))
        else
          match lookupCountry normalized countryMappings with
          | Some code => Some (Text code)
          | None =>
              if inherited normalized then Some (Inherited normalized)
              else Some (Text lastPart)
          end
    end.

End Address.

(** ** The content script: duplicate frames *)

Module Dedup.

(** [ToInt32]: the integer modulo 2^32 in the signed range *)
Definition toInt32 (n : Z) : Z := (n + 2147483648) mod 4294967296 - 2147483648.

(** One round of the loop of [simpleImageHash]:
    [hash = ((hash << 5) - hash) + code; hash = hash & hash] *)
Definition hashStep (hash : Z) (code : Z) : Z :=
  toInt32 (toInt32 (toInt32 hash * 32) - hash + code).

Definition charCode (c : ascii) : Z := Z.of_nat (nat_of_ascii c).

(** [n.toString(16)] for an integer *)
Definition toString16 (n : Z) : string :=
  let hex (m : Z) := HexadecimalString.NilZero.string_of_uint (N.to_hex_uint (Z.to_N m)) in
  if n <? 0 then "-" ++ hex (- n) else hex n.

(** The characters the loop [for (i = 0; i < length; i += step)] reads *)
Definition sampled (base64Data : string) : list ascii :=
  Image.everyNth (Z.to_nat (JSString.len base64Data / 100))
                 (list_ascii_of_string base64Data).

(** [simpleImageHash(base64Data)]; [None] is its [null]. *)
Definition simpleImageHash (base64Data : string) : option string :=
  if String.eqb base64Data "" || (JSString.len base64Data <? 100) then None
  else Some (toString16 (fold_left hashStep (List.map charCode (sampled base64Data)) 0)).

(** [lastImageHash] and [consecutiveDuplicates] *)
Record State : Type := mkState {
  lastImageHash : option string;
  consecutiveDuplicates : Z
}.

Definition initial : State := mkState None 0.

(** [shouldSaveImage(base64Data)] *)
Definition shouldSaveImage (base64Data : string) (st : State) : bool * State :=
  if Image.isInvalidImage base64Data then (false, st)
  else
    let hash := simpleImageHash base64Data in
    if bool_decide (hash = lastImageHash st)
    then (false, mkState (lastImageHash st) (consecutiveDuplicates st + 1))
    else (true, mkState hash 0).

(** The frames of a sequence, one call each: the answers and the state
    at the end *)
Fixpoint shouldSaveImages (frames : list string) (st : State) : list bool * State :=
  match frames with
  | [] => ([], st)
  | frame :: rest =>
      let '(answer, st1) := shouldSaveImage frame st in
      let '(answers, st2) := shouldSaveImages rest st1 in
      (answer :: answers, st2)
  end.

End Dedup.
(** ** content-script.js, the content script for one tab *)

Module SimpleContentScript.

Section WithAddressLogic.

Variable findAddress : json -> option string.
Variable inferCountryFromAddress : string -> option string.

(** [parseGeoPhotoResponse(body)] of this script, as a function of
    [latestStreetViewMetadata]; [extractMetadataFromArray] is the one of
    the other content script, line for line. *)
Definition parseGeoPhotoResponse (body : string)
           (latest : option Extraction.StreetViewMetadata)
  : option Extraction.StreetViewMetadata :=
  let callbackPrefix := "/**/_callbacks____" in
  if String.eqb body "" || negb (JSString.startsWith body callbackPrefix) then latest
  else
    let start := JSString.indexOf body "(" in
    let end_ := JSString.lastIndexOf body ")" in
    if (start =? -1) || (end_ =? -1) then latest
    else
      match JSON.parse (JSString.slice body (start + 1) end_) with
      | None => latest
      | Some data =>
          match Extraction.extractMetadataFromArray findAddress inferCountryFromAddress data with
          | Some meta => Some meta
          | None => latest
          end
      end.

End WithAddressLogic.

End SimpleContentScript.
(** ** The content script: the Scrape loop and its watchdogs *)

Module Scrape.

Import ContentScript.

Definition MAX_CONSECUTIVE_DUPLICATES : Z := 3.
Definition LOADING_TIMEOUT_MS : Z := 5000.
Definition COORD_TIMEOUT_MS : Z := 15000.
Definition MAX_NULL_COORDS_BEFORE_RECONNECT : Z := 2.

(** The module-level variables of the loop besides those of
    [ContentScript.State]; [frames] holds [lastImageHash] and
    [consecutiveDuplicates]. *)
Record Watch : Type := mkWatch {
  scrapeActive : bool;
  autoPlayActive : bool;
  frames : Dedup.State;
  lastStreetViewChangeTime : Z;
  consecutiveNullCoords : Z
}.

Record State : Type := mkState {
  page : ContentScript.State;
  watch : Watch
}.

Definition setScrapeActive (v : bool) (w : Watch) : Watch :=
  mkWatch v (autoPlayActive w) (frames w) (lastStreetViewChangeTime w)
          (consecutiveNullCoords w).

Definition setFrames (v : Dedup.State) (w : Watch) : Watch :=
  mkWatch (scrapeActive w) (autoPlayActive w) v (lastStreetViewChangeTime w)
          (consecutiveNullCoords w).

Definition setNullCoords (v : Z) (w : Watch) : Watch :=
  mkWatch (scrapeActive w) (autoPlayActive w) (frames w) (lastStreetViewChangeTime w) v.

(** [isPageStuck()], with [now] for [Date.now()] *)
Definition isPageStuck (now : Z) (w : Watch) : bool :=
  LOADING_TIMEOUT_MS <? now - lastStreetViewChangeTime w.

(** [markStreetViewChanged()] *)
Definition markStreetViewChanged (now : Z) (w : Watch) : Watch :=
  mkWatch (scrapeActive w) (autoPlayActive w) (frames w) now (consecutiveNullCoords w).

(** [areCoordinatesStale()] *)
Definition areCoordinatesStale (now : Z) (p : ContentScript.State) : bool :=
  COORD_TIMEOUT_MS <? now - lastCoordinateTime p.

(** [requestDebuggerReconnect()]: [reply] is how the
    [RECONNECT_DEBUGGER] message ends, with the truthiness of
    [response.success] when there is a response. *)
Definition requestDebuggerReconnect (reply : Completion (option bool)) (now : Z)
           (p : ContentScript.State) : bool * ContentScript.State :=
  match reply with
  | Returned (Some true) => (true, setCoordinateTime now p)
  | _ => (false, p)
  end.

(** What one pass through the body of the loop meets, in the order of
    the source: [Date.now()] in [isPageStuck]; whether the scene
    appears, and when; [Date.now()] in [areCoordinatesStale]; the two
    possible reconnections and the time of their success; the frame
    captured in the loop; the capture and the reply that
    [saveCurrentScreenshot] meets, and the time afterwards; the marker
    that [placeMarkerAtMapCenter] reads back; an exception of
    [submitGuess]. *)
Record CycleEnv : Type := mkCycleEnv {
  nowAtStart : Z;
  sceneReadyAt : option Z;
  nowAfterSettle : Z;
  staleReconnect : Completion (option bool);
  nowStaleReconnected : Z;
  nullReconnect : Completion (option bool);
  nowNullReconnected : Z;
  frame : Completion string;
  screenshot : ScreenshotEnv;
  nowSaved : Z;
  centerMarker : Completion (option (float * float));
  submitError : option string
}.

(** What a pass does to the page, the extension's storage and the
    background process *)
Inductive Action : Type :=
| StoreRestartFlags
| ReloadPage
| ReconnectDebugger
| SendCoords (lat lon : float) (sessionId roundId : string) (roundIndex : Z)
| CaptureFrame
| Save (effect : ContentScript.Effect)
| PlaceMarkerAtMapCenter
| SubmitGuess.

(** How a pass ends: the page is reloaded and the loop function
    returns; or the pass is cut short by [continue]; or it runs to its
    end. *)
Inductive Outcome : Type :=
| Reloaded
| Retry
| Completed.

Definition stuckMessage : string :=
  "Seite h" ++ String "228"%char "ngt - lade neu...".
Definition duplicatesMessage : string := "Zu viele Duplikate - lade neu...".
Definition staleMessage : string := "Koordinaten veraltet - verbinde Debugger neu...".
Definition noCoordsMessage : string := "Keine Koordinaten - verbinde Debugger neu...".

(** From the capture of the frame to the end of the pass *)
Definition captureAndGuess (env : CycleEnv) (p : ContentScript.State) (w : Watch)
           (done : list Action) : Outcome * State * list Action :=
  match frame env with
  | Threw _ => (Retry, mkState p w, (done ++ [CaptureFrame])%list)
  | Returned imageBase64 =>
      let '(save, counted) := Dedup.shouldSaveImage imageBase64 (frames w) in
      let w1 := setFrames counted w in
      let '(p1, w2, saved) :=
        if save then
          match saveCurrentScreenshot true (screenshot env) p with
          | (Returned _, p', effects) =>
              (p', markStreetViewChanged (nowSaved env) w1, List.map Save effects)
          | (Threw _, p', effects) => (p', w1, List.map Save effects)
          end
        else (p, w1, []) in
      let p2 := match centerMarker env with
                | Returned position => setGuess position p1
                | Threw _ => p1
                end in
      let actions :=
        (done ++ [CaptureFrame] ++ saved ++ [PlaceMarkerAtMapCenter; SubmitGuess])%list in
      match submitError env with
      | Some _ => (Retry, mkState p2 w2, actions)
      | None => (Completed, mkState (finishScrapeRound p2) w2, actions)
      end
  end.

(** One pass through the body of the [while] loop of [scrapeRound],
    for a pass during which the loop is not stopped. *)
Definition cycle (env : CycleEnv) (st : State) : Outcome * State * list Action :=
  let p := page st in
  let w := watch st in
  if isPageStuck (nowAtStart env) w then
    (Reloaded, mkState (updateStatus stuckMessage p) w, [StoreRestartFlags; ReloadPage])
  else if MAX_CONSECUTIVE_DUPLICATES <=? Dedup.consecutiveDuplicates (frames w) then
    (Reloaded, mkState (updateStatus duplicatesMessage p) w, [StoreRestartFlags; ReloadPage])
  else
    match sceneReadyAt env with
    | None => (Retry, st, [])
    | Some ready =>
        let w1 := markStreetViewChanged ready w in
        let '(p1, asked) :=
          if areCoordinatesStale (nowAfterSettle env) p
             && (scrapeActive w1 || autoPlayActive w1)
          then (snd (requestDebuggerReconnect (staleReconnect env) (nowStaleReconnected env)
                                              (updateStatus staleMessage p)),
                [ReconnectDebugger])
          else (p, []) in
        match latestStreetViewMetadata p1 with
        | Some (Extraction.mkMeta (Some lat) (Some lon) _ _ _ _) =>
            captureAndGuess env p1 (setNullCoords 0 w1)
              (asked ++ [SendCoords lat lon (currentSessionId p1)
                                    (roundId (currentRound p1)) (currentRound p1)])%list
        | _ =>
            let missing := consecutiveNullCoords w1 + 1 in
            if MAX_NULL_COORDS_BEFORE_RECONNECT <=? missing then
              (Retry,
               mkState (snd (requestDebuggerReconnect (nullReconnect env)
                                                      (nowNullReconnected env)
                                                      (updateStatus noCoordsMessage p1)))
                       (setNullCoords 0 w1),
               (asked ++ [ReconnectDebugger])%list)
            else captureAndGuess env p1 (setNullCoords missing w1) asked
        end
    end.

(** What [stopScrape] does besides resetting variables *)
Inductive StopAction : Type :=
| StopKeepAlive
| SendStopGeoCapture
| ClearRestartFlags.

(** [stopScrape(updateStatusText = true)] *)
Definition stopScrape (updateStatusText : bool) (st : State) : State * list StopAction :=
  if negb (scrapeActive (watch st)) then (st, [])
  else
    let w := watch st in
    (mkState (if updateStatusText then updateStatus "Scrape gestoppt." (page st)
              else page st)
             (mkWatch false (autoPlayActive w) (Dedup.mkState None 0)
                      (lastStreetViewChangeTime w) 0),
     [StopKeepAlive; SendStopGeoCapture; ClearRestartFlags]).

End Scrape.
(** ** Further sample inputs *)

Module Cases.

(** The sample picture with its second character replaced *)
Definition retouched : string :=
  match Samples.variedText with
  | String c (String _ rest) => String c (String "Q" rest)
  | s => s
  end.

(** A page that has its ground truth, in a Scrape loop that accepted
    its last frame a second ago *)
Definition located : ContentScript.State :=
  ContentScript.setSession "chrome-session-tab-1-1700000000000"
    (ContentScript.setMetadata
       (Some (Extraction.mkMeta (Some 48.8566%float) (Some 2.3522%float)
                                None None None None))
       Samples.freshPage).

Definition watching : Scrape.Watch :=
  Scrape.mkWatch true false Dedup.initial 1700000000000 0.

(** A pass in which everything succeeds *)
Definition healthy : Scrape.CycleEnv :=
  Scrape.mkCycleEnv
    1700000001000 (Some 1700000001200) 1700000002700
    (ContentScript.Returned None) 0 (ContentScript.Returned None) 0
    (ContentScript.Returned Samples.variedText)
    (ContentScript.mkScreenshotEnv
       (ContentScript.Returned Samples.variedText)
       (ContentScript.Returned
          (Some (ContentScript.mkSaveResponse true None None (Some (JStr "saved.jpg"))))))
    1700000002900
    (ContentScript.Returned None) None.

End Cases.
(** ** Invariants of the background process *)

Module Invariants.

Import Background.

(** The key stored for a tab is the key of the metadata cached for it. *)
Definition signaturesAreCached (st : State) : Prop :=
  forall t sig, tabCoordinateSignatures st !! t = Some sig ->
    exists c, tabMetadataCache st !! t = Some c /\ signature (cm_metadata c) = sig.

(** The metadata cached for a tab carries that tab's id. *)
Definition cacheIsPerTab (st : State) : Prop :=
  forall t c, tabMetadataCache st !! t = Some c -> md_tabId (cm_metadata c) = t.

(** Every [GEO_METADATA] message went to the tab named in its payload,
    which is not the falsy tab id 0, and has the debugger as source. *)
Definition deliveriesArePerTab (st : State) : Prop :=
  Forall (fun tm => fst tm <> 0 /\ md_tabId (snd tm) = fst tm
                    /\ md_source (snd tm) = "debugger") (sentToTabs st).

Definition wellFormed (st : State) : Prop :=
  (0 ∉ activeCaptureTabs st) /\ signaturesAreCached st /\ cacheIsPerTab st
  /\ deliveriesArePerTab st.

End Invariants.

(** * Properties *)

(** ** Induction over JSON values *)

Lemma json_nested_ind (P : json -> Prop) :
  P JNull ->
  (forall b, P (JBool b)) ->
  (forall x, P (JNum x)) ->
  (forall s, P (JStr s)) ->
  (forall xs, Forall P xs -> P (JArr xs)) ->
  (forall kvs, Forall (fun kv => P (snd kv)) kvs -> P (JObj kvs)) ->
  forall v, P v.
Proof.
  intros Hnull Hbool Hnum Hstr Harr Hobj.
  fix IH 1.
  intros [ | b | x | s | xs | kvs ].
  - exact Hnull.
  - apply Hbool.
  - apply Hnum.
  - apply Hstr.
  - apply Harr. induction xs as [ | e rest IHrest ]; constructor; [ apply IH | exact IHrest ].
  - apply Hobj. induction kvs as [ | [k e] rest IHrest ]; constructor;
      [ apply IH | exact IHrest ].
Qed.

(** ** The two deep searches against the specification's search *)

Lemma firstSome_app {A B : Type} (f : A -> option B) (l1 l2 : list A) :
  DeepSearchSpec.firstSome f (l1 ++ l2) =
  match DeepSearchSpec.firstSome f l1 with
  | Some b => Some b
  | None => DeepSearchSpec.firstSome f l2
  end.
Proof.
  induction l1 as [ | x rest IH ]; simpl; [ reflexivity | ].
  destruct (f x); [ reflexivity | exact IH ].
Qed.

Lemma deep_scan_found (v : json) (c : float * float) :
  Extraction.scan v (Some c) = Some c.
Proof. destruct v; reflexivity. Qed.

Lemma background_scan_found (v : json) (c : float * float) :
  Background.scan v (Some c) = Some c.
Proof. destruct v; reflexivity. Qed.

(** [findCoordinatesDeep] of the content script is the search of the
    specification: the first array, depth first, with numbers in range
    at indices 2 and 3. *)
Lemma findCoordinatesDeep_is_first_valid (node : json) :
  Extraction.findCoordinatesDeep node = DeepSearchSpec.firstCoordinates node.
Proof.
  unfold Extraction.findCoordinatesDeep, DeepSearchSpec.firstCoordinates.
  assert (Hpair : forall xs, Extraction.coordinatePair xs
                             = DeepSearchSpec.validCoordinateArray xs).
  { intros xs. unfold Extraction.coordinatePair, Background.numberPair,
      DeepSearchSpec.validCoordinateArray, Extraction.inRange.
    destruct (4 <=? length xs)%nat; [ | reflexivity ].
    destruct (nth_error xs 2) as [ [ | | a | | | ] | ]; try reflexivity.
    destruct (nth_error xs 3) as [ [ | | b | | | ] | ]; reflexivity. }
  induction node as [ | b | x | s | xs IH | kvs IH ] using json_nested_ind;
    try reflexivity.
  - cbn [Extraction.scan DeepSearchSpec.arrays DeepSearchSpec.firstSome].
    rewrite Hpair.
    destruct (DeepSearchSpec.validCoordinateArray xs) as [ c | ]; [ reflexivity | ].
    induction IH as [ | e rest He _ IHrest ]; [ reflexivity | ].
    cbn [List.flat_map]. rewrite firstSome_app, <- He.
    destruct (Extraction.scan e None); [ reflexivity | exact IHrest ].
  - cbn [Extraction.scan DeepSearchSpec.arrays].
    induction IH as [ | [k e] rest He _ IHrest ]; [ reflexivity | ].
    cbn [List.flat_map snd]. cbn [snd] in He. rewrite firstSome_app, <- He.
    destruct (Extraction.scan e None); [ reflexivity | exact IHrest ].
Qed.

(** [findCoordinates] of the background script is the same search with
    the range test left out. *)
Lemma findCoordinates_is_first_number_pair (node : json) :
  Background.findCoordinates node
  = DeepSearchSpec.firstSome Background.numberPair (DeepSearchSpec.arrays node).
Proof.
  unfold Background.findCoordinates.
  induction node as [ | b | x | s | xs IH | kvs IH ] using json_nested_ind;
    try reflexivity.
  - cbn [Background.scan DeepSearchSpec.arrays DeepSearchSpec.firstSome].
    destruct (Background.numberPair xs) as [ c | ] eqn:Hpair.
    + destruct xs as [ | e rest ]; [ discriminate Hpair | ].
      now rewrite background_scan_found.
    + clear Hpair.
      induction IH as [ | e rest He _ IHrest ]; [ reflexivity | ].
      cbn [List.flat_map]. rewrite firstSome_app, <- He.
      destruct (Background.scan e None); [ reflexivity | exact IHrest ].
  - cbn [Background.scan DeepSearchSpec.arrays].
    induction IH as [ | [k e] rest He _ IHrest ]; [ reflexivity | ].
    cbn [List.flat_map snd]. cbn [snd] in He. rewrite firstSome_app, <- He.
    destruct (Background.scan e None); [ reflexivity | exact IHrest ].
Qed.

(** ** C1: observations that are not coordinates *)

(** C1, as stated, fails: an observation with latitude 91 and longitude
    200 is finite but out of range, and both steps apply it.  The
    background script caches it for the tab and sends it on; the content
    script makes it the latest known ground truth. *)
Lemma C1_out_of_range_observation_is_applied :
  let m := Samples.observation 91 200 "debugger" in
  let bg := Background.emitGeoMetadata 7 m 1700000000001 Background.initial in
  let cs := ContentScript.onGeoMetadata Samples.noCountry (ContentScript.delivered m)
                                        1700000000002 Samples.freshPage in
  Extraction.inRange (Background.md_lat m) (Background.md_lon m) = false /\
  Background.tabMetadataCache bg !! 7 = Some (Background.mkCached m 1700000000001) /\
  Background.sentToTabs bg = [(7, m)] /\
  ContentScript.latestStreetViewMetadata cs
  = Some (Extraction.mkMeta (Some 91%float) (Some 200%float) None None None None) /\
  ContentScript.latestStreetViewMetadata Samples.freshPage = None.
Proof. vm_compute. repeat split; reflexivity. Qed.

Lemma sentNumber_arrives (x : float) :
  exists y,
    JSValue.toNumber (Some (JSValue.sentNumber x)) = Some y
    /\ JSNumber.isFinite y = true
    /\ y = if JSNumber.isFinite x && negb (PrimFloat.is_zero x) then x else 0%float.
Proof.
  unfold JSValue.sentNumber.
  destruct (JSNumber.isFinite x) eqn:Hfinite; cbn [andb].
  - destruct (PrimFloat.is_zero x); cbn [negb JSValue.toNumber]; eexists;
      (split; [ reflexivity | ]); (split; [ | reflexivity ]);
      [ reflexivity | exact Hfinite ].
  - eexists. split; [ reflexivity | ]. split; reflexivity.
Qed.

(** C1, amended: the two merge steps test no range, and the only
    observations that are rejected are those whose latitude or longitude
    [Number(...)] does not read as a finite number.
    - When [Number(payload.lat)] or [Number(payload.lon)] throws, or
      one of the two results is NaN or infinite, the [GEO_METADATA]
      handler leaves every variable as it was.
    - When both results are finite the handler stores them as the
      latest known ground truth and notes the time, whatever their
      range, and changes nothing else.
    - Every observation that the background script sends is applied: a
      coordinate that is NaN or infinite there arrives as [null] and is
      stored as 0.
    - [emitGeoMetadata] caches, persists and forwards every observation
      whose key is not the one stored for the tab, whatever its
      values. *)
Theorem C1_only_unreadable_coordinates_are_rejected
        (inferCountryFromAddress : string -> option string) :
  (forall payload now st,
      JSValue.toNumber (ContentScript.pl_lat payload) = None
      \/ JSValue.toNumber (ContentScript.pl_lon payload) = None ->
      ContentScript.onGeoMetadata inferCountryFromAddress payload now st = st) /\
  (forall payload now st lat lon,
      JSValue.toNumber (ContentScript.pl_lat payload) = Some lat ->
      JSValue.toNumber (ContentScript.pl_lon payload) = Some lon ->
      JSNumber.isFinite lat = false \/ JSNumber.isFinite lon = false ->
      ContentScript.onGeoMetadata inferCountryFromAddress payload now st = st) /\
  (forall payload now st lat lon,
      JSValue.toNumber (ContentScript.pl_lat payload) = Some lat ->
      JSValue.toNumber (ContentScript.pl_lon payload) = Some lon ->
      JSNumber.isFinite lat = true ->
      JSNumber.isFinite lon = true ->
      let st' := ContentScript.onGeoMetadata inferCountryFromAddress payload now st in
      let place := Extraction.nonEmpty (ContentScript.pl_place payload) in
      let country := match place with
                     | Some p => Extraction.nonEmpty (inferCountryFromAddress p)
                     | None => None
                     end in
      ContentScript.latestStreetViewMetadata st'
      = Some (Extraction.mkMeta (Some lat) (Some lon) country place country None)
      /\ ContentScript.lastCoordinateTime st' = now
      /\ ContentScript.currentSessionId st' = ContentScript.currentSessionId st
      /\ ContentScript.currentRound st' = ContentScript.currentRound st
      /\ ContentScript.lastPreviewDataUrl st' = ContentScript.lastPreviewDataUrl st
      /\ ContentScript.lastGuessCoordinates st' = ContentScript.lastGuessCoordinates st
      /\ ContentScript.screenshotApiAvailable st' = ContentScript.screenshotApiAvailable st
      /\ ContentScript.statusText st' = ContentScript.statusText st) /\
  (forall metadata now st,
      let st' := ContentScript.onGeoMetadata inferCountryFromAddress
                   (ContentScript.delivered metadata) now st in
      let arrives (x : float) :=
        if JSNumber.isFinite x && negb (PrimFloat.is_zero x) then x else 0%float in
      ContentScript.lastCoordinateTime st' = now
      /\ exists meta,
           ContentScript.latestStreetViewMetadata st' = Some meta
           /\ Extraction.sv_lat meta = Some (arrives (Background.md_lat metadata))
           /\ Extraction.sv_lon meta = Some (arrives (Background.md_lon metadata))) /\
  (forall tabId metadata now st,
      Background.tabCoordinateSignatures st !! tabId
      <> Some (Background.signature metadata) ->
      let st' := Background.emitGeoMetadata tabId metadata now st in
      Background.tabMetadataCache st' !! tabId
      = Some (Background.mkCached (Background.withTabId metadata tabId) now)
      /\ Background.geovizLastMetadata st' = Some metadata
      /\ (tabId <> 0 ->
          Background.sentToTabs st' = (Background.sentToTabs st ++ [(tabId, metadata)])%list)).
Proof.
  split; [ | split; [ | split; [ | split ] ] ].
  - intros payload now st [H | H]; unfold ContentScript.onGeoMetadata; rewrite H;
      [ reflexivity | ].
    destruct (JSValue.toNumber (ContentScript.pl_lat payload)); reflexivity.
  - intros payload now st lat lon Hlat Hlon H.
    unfold ContentScript.onGeoMetadata. rewrite Hlat, Hlon.
    destruct H as [H | H]; rewrite H; [ reflexivity | ].
    now rewrite andb_false_r.
  - intros payload now st lat lon Hlat Hlon Hflat Hflon.
    cbv zeta. unfold ContentScript.onGeoMetadata.
    rewrite Hlat, Hlon, Hflat, Hflon. cbn [andb].
    repeat split; reflexivity.
  - intros metadata now st. cbv zeta.
    unfold ContentScript.onGeoMetadata, ContentScript.delivered.
    cbn [ContentScript.pl_lat ContentScript.pl_lon ContentScript.pl_place].
    destruct (sentNumber_arrives (Background.md_lat metadata)) as (a & Ha & Hfa & Hva).
    destruct (sentNumber_arrives (Background.md_lon metadata)) as (b & Hb & Hfb & Hvb).
    rewrite Ha, Hb, Hfa, Hfb. cbn [andb].
    split; [ reflexivity | ].
    eexists. split; [ reflexivity | ].
    cbn [Extraction.sv_lat Extraction.sv_lon]. now rewrite Hva, Hvb.
  - intros tabId metadata now st Hsig. cbv zeta.
    unfold Background.emitGeoMetadata.
    rewrite (bool_decide_eq_false_2 _ Hsig), andb_false_r.
    cbn [Background.tabMetadataCache Background.geovizLastMetadata Background.sentToTabs].
    split; [ apply lookup_insert_eq | ].
    split; [ reflexivity | ].
    intros Htab. unfold Background.sendGeoMetadataToTab.
    destruct (Z.eqb_spec tabId 0) as [ E | _ ]; [ contradiction | reflexivity ].
Qed.

(** A payload without [lat], one whose [lat] is a text that is no
    number, and one whose [lon] is an object that cannot be converted,
    leave a fresh page as it is; the text "91" with the number 200 is
    stored; an observation that the background script holds with an
    infinite latitude is stored with latitude 0. *)
Lemma C1_only_unreadable_coordinates_are_rejected_witness :
  let st := Samples.freshPage in
  let missing := ContentScript.mkPayload None (Some (JNum 2.3522)) None in
  let words := ContentScript.mkPayload (Some (JStr "north")) (Some (JNum 2.3522)) None in
  let broken := ContentScript.mkPayload (Some (JNum 48.8566))
                                        (Some (JObj [("toString", JNull)])) None in
  let text := ContentScript.mkPayload (Some (JStr " 91 ")) (Some (JNum 200)) None in
  let unbounded := Samples.observation PrimFloat.infinity 2.3522 "debugger" in
  ContentScript.onGeoMetadata Samples.noCountry missing 5 st = st /\
  ContentScript.onGeoMetadata Samples.noCountry words 5 st = st /\
  ContentScript.onGeoMetadata Samples.noCountry broken 5 st = st /\
  ContentScript.latestStreetViewMetadata
    (ContentScript.onGeoMetadata Samples.noCountry text 5 st)
  = Some (Extraction.mkMeta (Some 91%float) (Some 200%float) None None None None) /\
  (exists meta,
      ContentScript.latestStreetViewMetadata
        (ContentScript.onGeoMetadata Samples.noCountry
           (ContentScript.delivered unbounded) 5 st) = Some meta
      /\ Extraction.sv_lat meta = Some 0%float) /\
  Background.geovizLastMetadata
    (Background.emitGeoMetadata 7 unbounded 5 Background.initial) = Some unbounded.
Proof.
  cbv zeta.
  destruct (C1_only_unreadable_coordinates_are_rejected Samples.noCountry)
    as (Hthrows & Hrejects & Happlies & Harrives & Hemits).
  split; [ apply (Hrejects _ 5 Samples.freshPage PrimFloat.nan 2.3522%float);
           [ reflexivity | reflexivity | left; reflexivity ] | ].
  split; [ apply (Hrejects _ 5 Samples.freshPage PrimFloat.nan 2.3522%float);
           [ reflexivity | reflexivity | left; reflexivity ] | ].
  split; [ apply Hthrows; right; reflexivity | ].
  split; [ exact (proj1 (Happlies (ContentScript.mkPayload (Some (JStr " 91 "))
                                     (Some (JNum 200)) None)
                                  5 Samples.freshPage 91%float 200%float
                                  eq_refl eq_refl eq_refl eq_refl)) | ].
  split.
  - destruct (Harrives (Samples.observation PrimFloat.infinity 2.3522 "debugger")
                       5 Samples.freshPage) as (_ & meta & Hmeta & Hlat & _).
    exists meta. split; [ exact Hmeta | exact Hlat ].
  - apply (Hemits 7 _ 5 Background.initial). vm_compute. discriminate.
Defined.

(** ** C2: the deep search of the background script *)

(** C2 at two inputs the debugger can deliver.  With tile sizes ahead of
    the location, [findCoordinates] returns the sizes, where the search
    of the specification (and [findCoordinatesDeep], its sibling in the
    content script) returns the location; with no location in the
    response it still returns a pair, where the specification has
    [null]. *)
Theorem C2_findCoordinates_has_no_range_test :
  let data := Background.parseGeoPayload Samples.tileSizesFirst in
  let none := Background.parseGeoPayload Samples.noLocation in
  Background.findCoordinates data = Some (512%float, 512%float) /\
  DeepSearchSpec.firstCoordinates data = Some (48.8566%float, 2.3522%float) /\
  Extraction.findCoordinatesDeep data = Some (48.8566%float, 2.3522%float) /\
  Background.findCoordinates none = Some (512%float, 1024%float) /\
  DeepSearchSpec.firstCoordinates none = None.
Proof. vm_compute. repeat split; reflexivity. Qed.

(** ** C3: one delivery per change of signature *)

(** C3, as stated, fails on the privileged channel: the key that
    [emitGeoMetadata] stores for the tab is latitude and longitude at
    five decimals without the source tag, so an observation of the same
    place under another source tag, whose signature in the sense of the
    specification differs, is suppressed. *)
Lemma C3_privileged_key_has_no_source_tag :
  let m1 := Samples.observation 48.8566 2.3522 "debugger" in
  let m2 := Samples.observation 48.8566 2.3522 "page_hook" in
  let st1 := Background.emitGeoMetadata 7 m1 1700000000001 Background.initial in
  Background.tabCoordinateSignatures st1 !! 7 = Some "48.85660:2.35220" /\
  SpecTerms.signatureWithSource 48.8566 2.3522 "debugger" = "48.85660:2.35220:debugger" /\
  SpecTerms.signatureWithSource 48.8566 2.3522 "page_hook"
  <> SpecTerms.signatureWithSource 48.8566 2.3522 "debugger" /\
  Background.sentToTabs st1 = [(7, m1)] /\
  Background.emitGeoMetadata 7 m2 1700000000002 st1 = st1.
Proof.
  cbv zeta. repeat split; try (vm_compute; reflexivity).
  vm_compute. discriminate.
Qed.

Lemma signature_not_empty (m : Background.GeoMetadata) :
  String.eqb (Background.signature m) "" = false.
Proof.
  unfold Background.signature.
  destruct (JSNumber.toFixed (Background.md_lat m) 5); reflexivity.
Qed.

(** One call of [emitGeoMetadata]: nothing at all when the tab's stored
    key is the key of the observation, else one message to the tab and
    the key stored. *)
Lemma emitGeoMetadata_step (tabId : Z) (m : Background.GeoMetadata) (now : Z)
      (st : Background.State) :
  tabId <> 0 ->
  let st' := Background.emitGeoMetadata tabId m now st in
  if bool_decide (Background.tabCoordinateSignatures st !! tabId
                  = Some (Background.signature m))
  then st' = st
  else Background.sentToTabs st' = (Background.sentToTabs st ++ [(tabId, m)])%list
       /\ Background.tabCoordinateSignatures st' !! tabId = Some (Background.signature m).
Proof.
  intros Htab. cbv zeta. unfold Background.emitGeoMetadata.
  rewrite signature_not_empty. cbn [negb andb].
  destruct (bool_decide _); [ reflexivity | ].
  cbn [Background.sentToTabs Background.tabCoordinateSignatures].
  unfold Background.sendGeoMetadataToTab.
  destruct (Z.eqb_spec tabId 0) as [ | _ ]; [ contradiction | ].
  split; [ reflexivity | apply lookup_insert_eq ].
Qed.

Lemma emit_sequence (tabId : Z) (obs : list (Background.GeoMetadata * Z)) :
  tabId <> 0 ->
  forall st,
    Background.sentToTabs
      (fold_left (fun s o => Background.emitGeoMetadata tabId (fst o) (snd o) s) obs st)
    = (Background.sentToTabs st
       ++ List.map (fun o => (tabId, fst o))
            (SpecTerms.changes (fun o => Background.signature (fst o))
                               (Background.tabCoordinateSignatures st !! tabId) obs))%list.
Proof.
  intros Htab. induction obs as [ | [m now] rest IH ]; intros st.
  - cbn. now rewrite app_nil_r.
  - cbn [fold_left SpecTerms.changes fst snd].
    pose proof (emitGeoMetadata_step tabId m now st Htab) as Hstep. cbv zeta in Hstep.
    rewrite IH.
    destruct (bool_decide _).
    + now rewrite Hstep.
    + destruct Hstep as [Hsent Hsig]. rewrite Hsent, Hsig.
      cbn [List.map fst]. now rewrite <- app_assoc.
Qed.

(** One call of [notifyCoordsUpdate] with finite coordinates *)
Lemma notifyCoordsUpdate_step (page : CoordsReport.Page) (lat lon : float)
      (context : string) (st : CoordsReport.State) :
  CoordsReport.runtimeAvailable page = true ->
  JSNumber.isFinite lat && JSNumber.isFinite lon = true ->
  let st' := CoordsReport.notifyCoordsUpdate page lat lon context st in
  if bool_decide (CoordsReport.lastSentCoordsSignature st
                  = Some (CoordsReport.signature lat lon context))
  then st' = st
  else List.map (fun msg => (CoordsReport.msg_lat msg, CoordsReport.msg_lon msg,
                             CoordsReport.msg_source msg))
                (CoordsReport.outbox st')
       = (List.map (fun msg => (CoordsReport.msg_lat msg, CoordsReport.msg_lon msg,
                                CoordsReport.msg_source msg))
                   (CoordsReport.outbox st) ++ [(lat, lon, context)])%list
       /\ CoordsReport.lastSentCoordsSignature st'
          = Some (CoordsReport.signature lat lon context).
Proof.
  intros Hrun Hfin. apply andb_prop in Hfin as [Hlat Hlon].
  cbv zeta. unfold CoordsReport.notifyCoordsUpdate.
  rewrite Hrun, Hlat, Hlon. cbn [negb orb].
  destruct (bool_decide _); [ reflexivity | ].
  cbn [CoordsReport.outbox CoordsReport.lastSentCoordsSignature].
  rewrite List.map_app. split; reflexivity.
Qed.

Lemma notify_sequence (page : CoordsReport.Page) (obs : list (float * float * string)) :
  CoordsReport.runtimeAvailable page = true ->
  forallb (fun o => JSNumber.isFinite (fst (fst o)) && JSNumber.isFinite (snd (fst o))) obs
  = true ->
  forall st,
    List.map (fun msg => (CoordsReport.msg_lat msg, CoordsReport.msg_lon msg,
                          CoordsReport.msg_source msg))
             (CoordsReport.outbox
                (fold_left (fun s o => CoordsReport.notifyCoordsUpdate
                                         page (fst (fst o)) (snd (fst o)) (snd o) s) obs st))
    = (List.map (fun msg => (CoordsReport.msg_lat msg, CoordsReport.msg_lon msg,
                             CoordsReport.msg_source msg))
                (CoordsReport.outbox st)
       ++ SpecTerms.changes
            (fun o => SpecTerms.signatureWithSource (fst (fst o)) (snd (fst o)) (snd o))
            (CoordsReport.lastSentCoordsSignature st) obs)%list.
Proof.
  intros Hrun. induction obs as [ | [[lat lon] context] rest IH ]; intros Hfin st.
  - cbn. now rewrite app_nil_r.
  - cbn [forallb fst snd] in Hfin. apply andb_prop in Hfin as [Hfin Hrest].
    cbn [fold_left SpecTerms.changes fst snd].
    pose proof (notifyCoordsUpdate_step page lat lon context st Hrun Hfin) as Hstep.
    cbv zeta in Hstep. rewrite (IH Hrest).
    change (SpecTerms.signatureWithSource lat lon context)
      with (CoordsReport.signature lat lon context).
    destruct (bool_decide _).
    + now rewrite Hstep.
    + destruct Hstep as [Hsent Hsig]. rewrite Hsent, Hsig. now rewrite <- app_assoc.
Qed.

(** C3, amended: on each channel an observation whose key equals the
    key last delivered changes nothing and delivers nothing, and over
    any sequence of observations the deliveries are exactly the
    observations whose key differs from that of the observation before.
    The key is "{lat:5dp}:{lon:5dp}:{source}" on the page-context
    channel ([notifyCoordsUpdate], for finite coordinates) and
    "{lat:5dp}:{lon:5dp}", without the source tag, on the privileged
    channel ([emitGeoMetadata], per tab). *)
Theorem C3_one_delivery_per_change_of_key
        (tabId : Z) (page : CoordsReport.Page)
        (observed : list (Background.GeoMetadata * Z))
        (reported : list (float * float * string)) :
  tabId <> 0 ->
  CoordsReport.runtimeAvailable page = true ->
  forallb (fun o => JSNumber.isFinite (fst (fst o)) && JSNumber.isFinite (snd (fst o)))
          reported = true ->
  (forall st m now,
      Background.tabCoordinateSignatures st !! tabId
      = Some (JSNumber.toFixed (Background.md_lat m) 5 ++ ":"
              ++ JSNumber.toFixed (Background.md_lon m) 5) ->
      Background.emitGeoMetadata tabId m now st = st) /\
  (forall st,
      Background.sentToTabs
        (fold_left (fun s o => Background.emitGeoMetadata tabId (fst o) (snd o) s)
                   observed st)
      = (Background.sentToTabs st
         ++ List.map (fun o => (tabId, fst o))
              (SpecTerms.changes (fun o => Background.signature (fst o))
                 (Background.tabCoordinateSignatures st !! tabId) observed))%list) /\
  (forall st lat lon context,
      CoordsReport.lastSentCoordsSignature st
      = Some (SpecTerms.signatureWithSource lat lon context) ->
      CoordsReport.notifyCoordsUpdate page lat lon context st = st) /\
  (forall st,
      List.map (fun msg => (CoordsReport.msg_lat msg, CoordsReport.msg_lon msg,
                            CoordsReport.msg_source msg))
               (CoordsReport.outbox
                  (fold_left (fun s o => CoordsReport.notifyCoordsUpdate
                                           page (fst (fst o)) (snd (fst o)) (snd o) s)
                             reported st))
      = (List.map (fun msg => (CoordsReport.msg_lat msg, CoordsReport.msg_lon msg,
                               CoordsReport.msg_source msg))
                  (CoordsReport.outbox st)
         ++ SpecTerms.changes
              (fun o => SpecTerms.signatureWithSource (fst (fst o)) (snd (fst o)) (snd o))
              (CoordsReport.lastSentCoordsSignature st) reported)%list).
Proof.
  intros Htab Hrun Hfin. split; [ | split; [ | split ] ].
  - intros st m now Hsig.
    pose proof (emitGeoMetadata_step tabId m now st Htab) as Hstep. cbv zeta in Hstep.
    unfold Background.signature in Hstep.
    now rewrite bool_decide_eq_true_2 in Hstep.
  - now apply emit_sequence.
  - intros st lat lon context Hsig. unfold CoordsReport.notifyCoordsUpdate.
    destruct (negb (CoordsReport.runtimeAvailable page)); [ reflexivity | ].
    destruct (negb (JSNumber.isFinite lat) || negb (JSNumber.isFinite lon));
      [ reflexivity | ].
    change (CoordsReport.signature lat lon context)
      with (SpecTerms.signatureWithSource lat lon context).
    now rewrite bool_decide_eq_true_2.
  - now apply notify_sequence.
Qed.

(** Four observations on tab 7 of which the second repeats the first,
    and three reports of which the second repeats the first. *)
Lemma C3_one_delivery_per_change_of_key_witness :
  let a := Samples.observation 48.8566 2.3522 "debugger" in
  let b := Samples.observation 40.4168 (-3.7038) "debugger" in
  let page := CoordsReport.mkPage true
                (CoordsReport.mkOverlay (Some "chrome-session-1") (Some 1) (Some "round-1"))
                None None in
  let reported := [(48.8566%float, 2.3522%float, "geo_photo");
                   (48.8566%float, 2.3522%float, "geo_photo");
                   (48.8566%float, 2.3522%float, "debugger")] in
  7 <> 0 /\
  CoordsReport.runtimeAvailable page = true /\
  forallb (fun o => JSNumber.isFinite (fst (fst o)) && JSNumber.isFinite (snd (fst o)))
          reported = true /\
  Background.sentToTabs
    (fold_left (fun s o => Background.emitGeoMetadata 7 (fst o) (snd o) s)
               [(a, 1); (a, 2); (b, 3); (a, 4)] Background.initial)
  = [(7, a); (7, b); (7, a)] /\
  List.map (fun msg => (CoordsReport.msg_lat msg, CoordsReport.msg_lon msg,
                        CoordsReport.msg_source msg))
           (CoordsReport.outbox
              (fold_left (fun s o => CoordsReport.notifyCoordsUpdate
                                       page (fst (fst o)) (snd (fst o)) (snd o) s)
                         reported CoordsReport.initial))
  = [(48.8566%float, 2.3522%float, "geo_photo"); (48.8566%float, 2.3522%float, "debugger")].
Proof.
  cbv zeta.
  split; [ discriminate | ]. split; [ reflexivity | ]. split; [ reflexivity | ].
  destruct (C3_one_delivery_per_change_of_key 7
              (CoordsReport.mkPage true
                 (CoordsReport.mkOverlay (Some "chrome-session-1") (Some 1) (Some "round-1"))
                 None None)
              [(Samples.observation 48.8566 2.3522 "debugger", 1);
               (Samples.observation 48.8566 2.3522 "debugger", 2);
               (Samples.observation 40.4168 (-3.7038) "debugger", 3);
               (Samples.observation 48.8566 2.3522 "debugger", 4)]
              [(48.8566%float, 2.3522%float, "geo_photo");
               (48.8566%float, 2.3522%float, "geo_photo");
               (48.8566%float, 2.3522%float, "debugger")]
              ltac:(discriminate) eq_refl eq_refl) as (_ & Hemit & _ & Hnotify).
  split.
  - rewrite Hemit. vm_compute. reflexivity.
  - rewrite Hnotify. vm_compute. reflexivity.
Defined.

(** ** C4: the synthetic response *)

(** C4, as stated, fails on its first half: at the fixed position
    [data[1][0][5][0][1][0]] the synthetic response holds the pair
    [[null, [null, null, 48.8566, 2.3522]]], which has nothing at
    indices 2 and 3, so the standard path reads [undefined] twice. *)
Lemma C4_fixed_index_path_reads_undefined :
  let data := GeoBridge.parseBody Samples.syntheticBody in
  at_ (at_ (at_ (at_ (at_ (at_ (Some data) 1) 0) 5) 0) 1) 0
  = Some (JArr [JNull; JArr [JNull; JNull; JNum 48.8566; JNum 2.3522]]) /\
  Extraction.standardPath data = (None, None) /\
  Extraction.standardPath data <> (Some (JNum 48.8566), Some (JNum 2.3522)).
Proof. vm_compute. repeat split; try reflexivity. discriminate. Qed.

(** C4, amended: the page hook and the background script parse the
    synthetic response to the same array; the fixed-index path finds no
    numbers in it; [extractMetadataFromArray] falls back to the deep
    search and so still yields latitude 48.8566 and longitude 2.3522,
    the pair that [findCoordinatesDeep] and [findCoordinates] return. *)
Theorem C4_synthetic_response_is_read_by_deep_search
        (findAddress : json -> option string)
        (inferCountryFromAddress : string -> option string) :
  let data := GeoBridge.parseBody Samples.syntheticBody in
  Background.parseGeoPayload Samples.syntheticBody = data /\
  isNumber (fst (Extraction.standardPath data)) = false /\
  isNumber (snd (Extraction.standardPath data)) = false /\
  (exists meta,
      Extraction.extractMetadataFromArray findAddress inferCountryFromAddress data
      = Some meta
      /\ Extraction.sv_lat meta = Some 48.8566%float
      /\ Extraction.sv_lon meta = Some 2.3522%float) /\
  Extraction.findCoordinatesDeep data = Some (48.8566%float, 2.3522%float) /\
  Background.findCoordinates data = Some (48.8566%float, 2.3522%float).
Proof.
  assert (Hdata : GeoBridge.parseBody Samples.syntheticBody
                  = JArr [JNull; JArr [JArr [JNull; JNull; JNull; JNull; JNull;
                      JArr [JArr [JNull; JArr [JArr [JNull;
                        JArr [JNull; JNull; JNum 48.8566; JNum 2.3522]]]]]]]])
    by (vm_compute; reflexivity).
  cbv zeta. rewrite Hdata.
  split; [ vm_compute; reflexivity | ].
  split; [ reflexivity | ].
  split; [ reflexivity | ].
  split; [ eexists; split; [ reflexivity | split; reflexivity ] | ].
  split; vm_compute; reflexivity.
Qed.

(** ** C5: the body parser of the page hook *)

(** C5, as stated, fails: a raw JSON array is a body without the
    callback prefix that [JSON.parse] accepts, yet [parseBody] returns
    [null] for it and nothing is forwarded. *)
Lemma C5_parseBody_drops_raw_json :
  JSString.startsWith "[1,2]" GeoBridge.CALLBACK_PREFIX = false /\
  JSON.parse "[1,2]" = Some (JArr [JNum 1; JNum 2]) /\
  GeoBridge.parseBody "[1,2]" = JNull /\
  GeoBridge.handleBody "[1,2]" = None.
Proof. vm_compute. repeat split; reflexivity. Qed.

(** C5, amended: [parseBody] of the page hook returns [null] for every
    body that does not start with the callback prefix, and nothing is
    forwarded.  The fallbacks are in the content script: for such a
    body [parseGeoPhotoResponse] takes the raw JSON parse and, when that
    throws, the parse of the text from the first opening to the last
    closing bracket, and ends with [null] only if neither succeeds. *)
Theorem C5_parseBody_requires_the_callback_prefix (body : string) :
  JSString.startsWith body GeoBridge.CALLBACK_PREFIX = false ->
  GeoBridge.parseBody body = JNull /\
  GeoBridge.handleBody body = None /\
  Extraction.parseGeoPhotoData body
  = match JSON.parse body with
    | Some v => v
    | None =>
        match Extraction.bracketMatch body with
        | Some text => match JSON.parse text with
                       | Some v => v
                       | None => JNull
                       end
        | None => JNull
        end
    end.
Proof.
  intros H.
  assert (Hp : GeoBridge.parseBody body = JNull).
  { unfold GeoBridge.parseBody. rewrite H. now rewrite orb_true_r. }
  repeat split.
  - exact Hp.
  - unfold GeoBridge.handleBody. now rewrite Hp.
  - unfold Extraction.parseGeoPhotoData.
    change "/**/_callbacks____" with GeoBridge.CALLBACK_PREFIX.
    now rewrite H.
Qed.

(** A body with text around a JSON array: the page hook drops it, the
    content script reads the array. *)
Lemma C5_parseBody_requires_the_callback_prefix_witness :
  let body := "noise [48.8566, 2.3522] noise" in
  JSString.startsWith body GeoBridge.CALLBACK_PREFIX = false /\
  GeoBridge.parseBody body = JNull /\
  Extraction.parseGeoPhotoData body = JArr [JNum 48.8566; JNum 2.3522].
Proof.
  split; [ reflexivity | ].
  destruct (C5_parseBody_requires_the_callback_prefix "noise [48.8566, 2.3522] noise"
              eq_refl) as (Hp & _ & Hd).
  split; [ exact Hp | ].
  rewrite Hd. vm_compute. reflexivity.
Defined.

(** ** C6: the round counter *)

(** C6, as stated, fails in Auto Play: when the next-round control is
    not found after the second round, [handleResultTransition] falls
    back to [startNextGame] and the counter returns to 1 without having
    reached 5; the values after the five rounds are 2, 1, 2, 3, 1. *)
Lemma C6_auto_play_resets_before_the_limit :
  snd (fst (ContentScript.playAutomaticMatch
              [Samples.autoRound true; Samples.autoRound false; Samples.autoRound true;
               Samples.autoRound true; Samples.autoRound true]
              Samples.freshPage))
  = [2; 1; 2; 3; 1].
Proof. vm_compute. reflexivity. Qed.

Lemma finishScrapeRound_round (st : ContentScript.State) :
  ContentScript.currentRound (ContentScript.finishScrapeRound st)
  = if ContentScript.ROUND_LIMIT <? ContentScript.currentRound st + 1
    then 1 else ContentScript.currentRound st + 1.
Proof. reflexivity. Qed.

Lemma guessStep_keeps_round (env : ContentScript.RoundEnv) (st : ContentScript.State) :
  ContentScript.currentRound (fst (ContentScript.guessStep env st))
  = ContentScript.currentRound st.
Proof.
  unfold ContentScript.guessStep.
  destruct (ContentScript.previewImage env);
    (destruct (ContentScript.prediction env) as [ p | e ]; [ | reflexivity ]);
    destruct (ContentScript.getTargetCoordinates p _) as [lat lon];
    (destruct (ContentScript.placeGuess env); [ reflexivity | ]);
    (destruct (ContentScript.submit env); [ reflexivity | ]);
    destruct (ContentScript.afterSubmit env); reflexivity.
Qed.

Lemma playRound_smooth (roundIndex : Z) (env : ContentScript.RoundEnv)
      (st : ContentScript.State) :
  SpecTerms.smooth env = true ->
  exists st',
    fst (ContentScript.playRound roundIndex env st) = (true, st')
    /\ ContentScript.currentRound st'
       = if ContentScript.ROUND_LIMIT - 1 <=? roundIndex then 1
         else ContentScript.currentRound st + 1.
Proof.
  unfold SpecTerms.smooth, ContentScript.playRound.
  intros H. apply andb_prop in H as [H Hfound]. apply andb_prop in H as [H Hthrow].
  apply andb_prop in H as [Hrun Hscene].
  rewrite Hrun. cbn [negb].
  destruct (ContentScript.sceneReady env); [ discriminate | ].
  set (st0 := ContentScript.updateStatus _ _).
  pose proof (guessStep_keeps_round env st0) as Hg.
  destruct (ContentScript.guessStep env st0) as [st1 calls]. cbn [fst] in Hg.
  unfold ContentScript.handleResultTransition.
  destruct (ContentScript.transitionThrows (ContentScript.transition env));
    [ discriminate | ].
  rewrite Hfound, andb_true_r.
  destruct (ContentScript.ROUND_LIMIT - 1 <=? roundIndex); cbn [negb fst];
    eexists; (split; [ reflexivity | ]); [ reflexivity | cbn; now rewrite Hg ].
Qed.

Lemma playRounds_step (roundIndex : Z) (env : ContentScript.RoundEnv)
      (rest : list ContentScript.RoundEnv) (st : ContentScript.State) :
  ContentScript.playRounds roundIndex (env :: rest) st
  = if ContentScript.ROUND_LIMIT <=? roundIndex then (st, [], [])
    else match ContentScript.playRound roundIndex env st with
         | (false, st1, calls) => (st1, [], calls)
         | (true, st1, calls) =>
             let '(st2, rounds, calls') :=
               ContentScript.playRounds (roundIndex + 1) rest st1 in
             (st2, ContentScript.currentRound st1 :: rounds, (calls ++ calls')%list)
         end.
Proof. reflexivity. Qed.

(** An Auto Play iteration that is not stopped, sees the scene and
    whose transition does not throw runs to its end; the guess in
    between leaves the counter alone and the transition decides. *)
Lemma playRound_undisturbed (roundIndex : Z) (env : ContentScript.RoundEnv)
      (st : ContentScript.State) :
  ContentScript.running env = true ->
  ContentScript.sceneReady env = None ->
  ContentScript.transitionThrows (ContentScript.transition env) = None ->
  exists st1,
    ContentScript.currentRound st1 = ContentScript.currentRound st
    /\ fst (ContentScript.playRound roundIndex env st)
       = (true,
          if negb (ContentScript.ROUND_LIMIT - 1 <=? roundIndex)
             && ContentScript.nextRoundFound (ContentScript.transition env)
          then ContentScript.setRound (ContentScript.currentRound st1 + 1) st1
          else ContentScript.startNextGame (ContentScript.transition env) st1).
Proof.
  intros Hrun Hscene Hthrow. unfold ContentScript.playRound.
  rewrite Hrun, Hscene. cbn [negb].
  set (st0 := ContentScript.updateStatus _ _).
  pose proof (guessStep_keeps_round env st0) as Hg.
  destruct (ContentScript.guessStep env st0) as [st1 calls]. cbn [fst] in Hg.
  unfold ContentScript.handleResultTransition. rewrite Hthrow.
  exists st1. split; [ exact Hg | ].
  destruct (negb _ && _); reflexivity.
Qed.

(** C6, amended: the update that ends a completed Scrape round takes
    [currentRound] from r to r + 1 and from 5 back to 1, so from 1 the
    values after n completed rounds are those of the cycle 1, 2, 3, 4, 5
    (no new-game reset coming in between); in Auto Play, when no
    iteration stops or throws and the next-round control is found each
    time, the values after the five rounds are 2, 3, 4, 5, 1.  An Auto
    Play iteration that runs to its end adds 1 to the counter when it
    is not the fifth and the next-round control is found, and sets it
    to 1 otherwise: whenever the control is not found, in whatever
    round, the counter is back at 1 with a new session and no guess. *)
Theorem C6_round_counter_cycles :
  (forall st,
      1 <= ContentScript.currentRound st <= ContentScript.ROUND_LIMIT ->
      ContentScript.currentRound (ContentScript.finishScrapeRound st)
      = ContentScript.currentRound st mod ContentScript.ROUND_LIMIT + 1) /\
  (forall st n,
      ContentScript.currentRound st = 1 ->
      ContentScript.currentRound (Nat.iter n ContentScript.finishScrapeRound st)
      = Z.of_nat n mod ContentScript.ROUND_LIMIT + 1) /\
  (forall envs st,
      length envs = 5%nat ->
      forallb SpecTerms.smooth envs = true ->
      snd (fst (ContentScript.playAutomaticMatch envs st)) = [2; 3; 4; 5; 1]) /\
  (forall roundIndex env st,
      ContentScript.running env = true ->
      ContentScript.sceneReady env = None ->
      ContentScript.transitionThrows (ContentScript.transition env) = None ->
      fst (fst (ContentScript.playRound roundIndex env st)) = true
      /\ ContentScript.currentRound (snd (fst (ContentScript.playRound roundIndex env st)))
         = if ContentScript.ROUND_LIMIT - 1 <=? roundIndex then 1
           else if ContentScript.nextRoundFound (ContentScript.transition env)
                then ContentScript.currentRound st + 1
                else 1) /\
  (forall roundIndex env st,
      ContentScript.running env = true ->
      ContentScript.sceneReady env = None ->
      ContentScript.transitionThrows (ContentScript.transition env) = None ->
      ContentScript.nextRoundFound (ContentScript.transition env) = false ->
      let st' := snd (fst (ContentScript.playRound roundIndex env st)) in
      ContentScript.currentRound st' = 1
      /\ ContentScript.currentSessionId st'
         = ContentScript.newSessionId (ContentScript.transition env)
      /\ ContentScript.lastGuessCoordinates st' = None).
Proof.
  unfold ContentScript.ROUND_LIMIT. split; [ | split; [ | split; [ | split ] ] ].
  - intros st Hr. rewrite finishScrapeRound_round. unfold ContentScript.ROUND_LIMIT.
    destruct (Z.ltb_spec 5 (ContentScript.currentRound st + 1));
      Z.div_mod_to_equations; lia.
  - intros st n H1. induction n as [ | n IH ]; [ exact H1 | ].
    rewrite Nat.iter_succ, finishScrapeRound_round, IH. unfold ContentScript.ROUND_LIMIT.
    rewrite Nat2Z.inj_succ.
    destruct (Z.ltb_spec 5 (Z.of_nat n mod 5 + 1 + 1)); Z.div_mod_to_equations; lia.
  - intros envs st Hlen Hsmooth.
    destruct envs as [ | e1 [ | e2 [ | e3 [ | e4 [ | e5 [ | ] ] ] ] ] ]; try discriminate Hlen.
    cbn [forallb] in Hsmooth.
    repeat (apply andb_prop in Hsmooth as [? Hsmooth]).
    unfold ContentScript.playAutomaticMatch.
    repeat match goal with
    | |- context [ContentScript.playRounds ?i (?e :: ?rest) ?s] =>
        let st' := fresh "st" in
        let Hfst := fresh "Hfst" in
        let Hround := fresh "Hround" in
        destruct (playRound_smooth i e s ltac:(assumption)) as (st' & Hfst & Hround);
        rewrite (playRounds_step i e rest s);
        change (ContentScript.ROUND_LIMIT <=? i) with false; cbv iota;
        destruct (ContentScript.playRound i e s) as [ [? ?] ?]; cbn [fst] in Hfst;
        injection Hfst as -> ->
    end.
    cbn. rewrite Hround in *. rewrite Hround0 in *. rewrite Hround1 in *.
    rewrite Hround2 in *. rewrite Hround3. reflexivity.
  - intros roundIndex env st Hrun Hscene Hthrow.
    destruct (playRound_undisturbed roundIndex env st Hrun Hscene Hthrow)
      as (st1 & Hkept & Hplay).
    rewrite Hplay. cbn [fst snd]. split; [ reflexivity | ].
    unfold ContentScript.ROUND_LIMIT.
    destruct (5 - 1 <=? roundIndex); cbn [negb andb]; [ reflexivity | ].
    destruct (ContentScript.nextRoundFound _); [ | reflexivity ].
    cbn. now rewrite Hkept.
  - intros roundIndex env st Hrun Hscene Hthrow Hfound. cbv zeta.
    destruct (playRound_undisturbed roundIndex env st Hrun Hscene Hthrow)
      as (st1 & _ & Hplay).
    rewrite Hplay, Hfound, andb_false_r. cbn [fst snd].
    repeat split; reflexivity.
Qed.

(** Scrape after 4, 5 and 12 completed rounds, an Auto Play match in
    which every next-round control is found, and a second Auto Play
    round, entered with the counter at 2, after which the control is
    not found. *)
Lemma C6_round_counter_cycles_witness :
  let st := Samples.freshPage in
  let second := ContentScript.setRound 2 st in
  ContentScript.currentRound
    (snd (fst (ContentScript.playRound 1 (Samples.autoRound false) second))) = 1 /\
  ContentScript.currentRound
    (snd (fst (ContentScript.playRound 1 (Samples.autoRound true) second))) = 3 /\
  (1 <= ContentScript.currentRound
          (Nat.iter 4 ContentScript.finishScrapeRound st) <= ContentScript.ROUND_LIMIT) /\
  ContentScript.currentRound (Nat.iter 4 ContentScript.finishScrapeRound st) = 5 /\
  ContentScript.currentRound (Nat.iter 5 ContentScript.finishScrapeRound st) = 1 /\
  ContentScript.currentRound (Nat.iter 12 ContentScript.finishScrapeRound st) = 3 /\
  snd (fst (ContentScript.playAutomaticMatch
              (repeat (Samples.autoRound true) 5) st)) = [2; 3; 4; 5; 1].
Proof.
  destruct C6_round_counter_cycles as (Hstep & Hcycle & Hauto & Hround & Hfallback).
  cbv zeta.
  split; [ exact (proj1 (Hfallback 1 (Samples.autoRound false)
                                   (ContentScript.setRound 2 Samples.freshPage)
                                   eq_refl eq_refl eq_refl eq_refl)) | ].
  split; [ exact (proj2 (Hround 1 (Samples.autoRound true)
                                (ContentScript.setRound 2 Samples.freshPage)
                                eq_refl eq_refl eq_refl)) | ].
  split; [ rewrite (Hcycle Samples.freshPage 4%nat eq_refl); vm_compute; split; discriminate | ].
  split; [ exact (Hcycle Samples.freshPage 4%nat eq_refl) | ].
  split; [ rewrite Nat.iter_succ, Hstep;
           [ rewrite (Hcycle Samples.freshPage 4%nat eq_refl); reflexivity
           | rewrite (Hcycle Samples.freshPage 4%nat eq_refl); vm_compute; split; discriminate ]
         | ].
  split; [ exact (Hcycle Samples.freshPage 12%nat eq_refl) | ].
  apply Hauto; reflexivity.
Defined.

(** ** C7: starting a capture *)

(** C7: for a tab id (never zero), [startGeoCapture] resolves without a
    debugger call and without touching the state when the tab is in the
    active set; when the browser reports that another debugger is
    attached it records the tab and resolves; it rejects, with the
    browser's message, exactly when the tab is not yet captured and the
    browser refuses the attach for another reason or refuses
    [Network.enable]; and after a call that resolved, any further call
    for the tab resolves with no debugger call and no change. *)
Theorem C7_startGeoCapture_contract
        (tabId : Z) (dbg : Background.Debugger) (st : Background.State) :
  tabId <> 0 ->
  let outcome := fst (fst (Background.startGeoCapture tabId dbg st)) in
  let st' := snd (fst (Background.startGeoCapture tabId dbg st)) in
  let calls := snd (Background.startGeoCapture tabId dbg st) in
  ((tabId ∈ Background.activeCaptureTabs st) ->
   outcome = Background.Resolved /\ st' = st /\ calls = []) /\
  (forall message,
      (tabId ∉ Background.activeCaptureTabs st) ->
      Background.attachError dbg = Some message ->
      JSString.includes message "Another debugger" = true ->
      outcome = Background.Resolved /\ (tabId ∈ Background.activeCaptureTabs st')) /\
  (forall message,
      outcome = Background.Rejected message <->
      (tabId ∉ Background.activeCaptureTabs st) /\
      ((Background.attachError dbg = Some message
        /\ JSString.includes message "Another debugger" = false)
       \/ (Background.attachError dbg = None
           /\ Background.enableError dbg = Some message))) /\
  (outcome = Background.Resolved ->
   forall dbg', Background.startGeoCapture tabId dbg' st' = (Background.Resolved, st', [])).
Proof.
  intros Htab. cbv zeta. unfold Background.startGeoCapture.
  destruct (Z.eqb_spec tabId 0) as [ | _ ]; [ contradiction | ].
  destruct (bool_decide_reflect (tabId ∈ Background.activeCaptureTabs st)) as [Hin | Hout];
    cbn [fst snd].
  - split; [ | split; [ | split ] ].
    + intros _. repeat split.
    + intros message Hn. contradiction.
    + intros message. split; [ discriminate | intros [Hn _]; contradiction ].
    + intros _ dbg'. now rewrite bool_decide_eq_true_2.
  - assert (Hadd : tabId ∈ Background.activeCaptureTabs (Background.addTab tabId st))
      by (cbn; set_solver).
    destruct (Background.attachError dbg) as [m | ] eqn:Hattach;
      [ destruct (JSString.includes m "Another debugger") eqn:Hanother
      | destruct (Background.enableError dbg) as [m | ] eqn:Henable ];
      cbn [fst snd]; (split; [ | split; [ | split ] ]);
      try (intros Hin; contradiction).
    all: try (intros message _ Hm Hi; inversion Hm; subst; split; congruence).
    all: try (intros _ dbg'; rewrite bool_decide_eq_true_2; [ reflexivity | exact Hadd ]).
    all: try (intros Hr; discriminate Hr).
    all: intros message; split;
      [ intros Hr; inversion Hr; subst; (split; [ assumption | tauto ])
      | intros [_ [[Hm Hi] | [Hm He]]]; try discriminate;
        inversion Hm; subst; try congruence; inversion He; subst; reflexivity ].
Qed.


(** Tab 7 with another debugger attached: the start resolves, the tab
    is recorded, and a second start makes no call. *)
Lemma C7_startGeoCapture_contract_witness :
  let dbg := Background.mkDebugger (Some "Another debugger is already attached to the tab with id: 7.") None in
  let r := Background.startGeoCapture 7 dbg Background.initial in
  7 <> 0 /\
  fst (fst r) = Background.Resolved /\
  (7 ∈ Background.activeCaptureTabs (snd (fst r))) /\
  Background.startGeoCapture 7 (Background.mkDebugger (Some "Cannot access a chrome:// URL") None)
                             (snd (fst r))
  = (Background.Resolved, snd (fst r), []).
Proof.
  pose proof (C7_startGeoCapture_contract 7
                (Background.mkDebugger
                   (Some "Another debugger is already attached to the tab with id: 7.") None)
                Background.initial ltac:(discriminate)) as (_ & Hshared & _ & Hidem).
  cbv zeta in *.
  split; [ discriminate | ].
  destruct (Hshared "Another debugger is already attached to the tab with id: 7.")
    as [Hres Hin]; [ set_solver | reflexivity | reflexivity | ].
  split; [ exact Hres | ]. split; [ exact Hin | ].
  apply Hidem. exact Hres.
Defined.

(** ** C8: the screenshot endpoint *)

Lemma save_when_disabled (silent : bool) (env : ContentScript.ScreenshotEnv)
      (st : ContentScript.State) :
  ContentScript.screenshotApiAvailable st = false ->
  ContentScript.saveCurrentScreenshot silent env st = (ContentScript.Returned None, st, []).
Proof. intros H. unfold ContentScript.saveCurrentScreenshot. now rewrite H. Qed.

Lemma handleResultTransition_keeps_flag (final : bool) (env : ContentScript.TransitionEnv)
      (st : ContentScript.State) :
  ContentScript.screenshotApiAvailable (snd (ContentScript.handleResultTransition final env st))
  = ContentScript.screenshotApiAvailable st.
Proof.
  unfold ContentScript.handleResultTransition.
  destruct (ContentScript.transitionThrows env); [ reflexivity | ].
  destruct (negb final && ContentScript.nextRoundFound env); reflexivity.
Qed.

Lemma guessStep_keeps_flag (env : ContentScript.RoundEnv) (st : ContentScript.State) :
  ContentScript.screenshotApiAvailable (fst (ContentScript.guessStep env st))
  = ContentScript.screenshotApiAvailable st.
Proof.
  unfold ContentScript.guessStep.
  destruct (ContentScript.previewImage env);
    (destruct (ContentScript.prediction env) as [ p | e ]; [ | reflexivity ]);
    destruct (ContentScript.getTargetCoordinates p _) as [lat lon];
    (destruct (ContentScript.placeGuess env); [ reflexivity | ]);
    (destruct (ContentScript.submit env); [ reflexivity | ]);
    destruct (ContentScript.afterSubmit env); reflexivity.
Qed.

Lemma playRound_keeps_flag (roundIndex : Z) (env : ContentScript.RoundEnv)
      (st : ContentScript.State) :
  ContentScript.screenshotApiAvailable (snd (fst (ContentScript.playRound roundIndex env st)))
  = ContentScript.screenshotApiAvailable st.
Proof.
  unfold ContentScript.playRound.
  destruct (negb (ContentScript.running env)); [ reflexivity | ].
  destruct (ContentScript.sceneReady env); [ reflexivity | ].
  set (st0 := ContentScript.updateStatus _ _).
  pose proof (guessStep_keeps_flag env st0) as Hg.
  destruct (ContentScript.guessStep env st0) as [st1 calls].
  pose proof (handleResultTransition_keeps_flag
                (ContentScript.ROUND_LIMIT - 1 <=? roundIndex)
                (ContentScript.transition env) st1) as Ht.
  destruct (ContentScript.handleResultTransition _ _ st1) as [c st2].
  cbn [fst snd] in *. now rewrite Ht, Hg.
Qed.

Lemma playRounds_keeps_flag (envs : list ContentScript.RoundEnv) :
  forall (roundIndex : Z) (st : ContentScript.State),
    ContentScript.screenshotApiAvailable
      (fst (fst (ContentScript.playRounds roundIndex envs st)))
    = ContentScript.screenshotApiAvailable st.
Proof.
  induction envs as [ | env rest IH ]; intros roundIndex st; [ reflexivity | ].
  cbn [ContentScript.playRounds].
  destruct (ContentScript.ROUND_LIMIT <=? roundIndex); [ reflexivity | ].
  pose proof (playRound_keeps_flag roundIndex env st) as Hr.
  destruct (ContentScript.playRound roundIndex env st) as [ [ [ | ] st1 ] calls ];
    cbn [fst snd] in Hr; [ | exact Hr ].
  specialize (IH (roundIndex + 1) st1).
  destruct (ContentScript.playRounds (roundIndex + 1) rest st1) as [ [st2 rounds] calls' ].
  cbn [fst snd] in *. now rewrite IH.
Qed.

Lemma perform_keeps_disabled (findAddress : json -> option string)
      (inferCountryFromAddress : string -> option string)
      (op : ContentScript.Operation) (st : ContentScript.State) :
  ContentScript.screenshotApiAvailable st = false ->
  ContentScript.screenshotApiAvailable
    (ContentScript.perform findAddress inferCountryFromAddress op st) = false.
Proof.
  intros H. destruct op as [ payload now | body | silent env | | sid | envs ];
    cbn [ContentScript.perform].
  - unfold ContentScript.onGeoMetadata.
    destruct (JSValue.toNumber (ContentScript.pl_lat payload)); [ | exact H ].
    destruct (JSValue.toNumber (ContentScript.pl_lon payload)); [ | exact H ].
    destruct (JSNumber.isFinite _ && JSNumber.isFinite _); exact H.
  - exact H.
  - now rewrite save_when_disabled.
  - exact H.
  - exact H.
  - unfold ContentScript.playAutomaticMatch. now rewrite playRounds_keeps_flag.
Qed.

(** C8: a failed save whose response has status 404, or whose message
    contains "not found" in any letter case, returns [null] and sets
    [screenshotApiAvailable] to false; from then on every
    [saveCurrentScreenshot] returns [null] with no capture, no message
    and no change of state, and no sequence of operations of the content
    script brings the flag back to true. *)
Theorem C8_screenshot_saving_stays_disabled
        (findAddress : json -> option string)
        (inferCountryFromAddress : string -> option string) :
  (forall silent env st image response,
      ContentScript.screenshotApiAvailable st = true ->
      ContentScript.capture env = ContentScript.Returned image ->
      ContentScript.reply env = ContentScript.Returned (Some response) ->
      ContentScript.sr_success response = false ->
      ContentScript.sr_status response = Some 404
      \/ JSString.includes
           (JSString.toLowerCase (ContentScript.failureMessage (Some response)))
           "not found" = true ->
      fst (fst (ContentScript.saveCurrentScreenshot silent env st))
      = ContentScript.Returned None
      /\ ContentScript.screenshotApiAvailable
           (snd (fst (ContentScript.saveCurrentScreenshot silent env st))) = false) /\
  (forall silent env st,
      ContentScript.screenshotApiAvailable st = false ->
      ContentScript.saveCurrentScreenshot silent env st
      = (ContentScript.Returned None, st, [])) /\
  (forall ops st,
      ContentScript.screenshotApiAvailable st = false ->
      ContentScript.screenshotApiAvailable
        (ContentScript.performAll findAddress inferCountryFromAddress ops st) = false).
Proof.
  split; [ | split ].
  - intros silent env st image response Hflag Hcap Hreply Hfail Hmissing.
    unfold ContentScript.saveCurrentScreenshot.
    rewrite Hflag, Hcap, Hreply, Hfail. cbn [negb].
    assert (Hm : ContentScript.endpointMissing (Some response) = true).
    { unfold ContentScript.endpointMissing. destruct Hmissing as [Hs | Hi].
      - rewrite Hs. now rewrite bool_decide_eq_true_2.
      - rewrite Hi. apply orb_true_r. }
    rewrite Hm. destruct silent; split; reflexivity.
  - exact save_when_disabled.
  - intros ops. induction ops as [ | op rest IH ]; intros st H; [ exact H | ].
    cbn. apply IH. now apply perform_keeps_disabled.
Qed.

(** A save answered with "Not Found": the flag goes off and stays off
    through further operations. *)
Lemma C8_screenshot_saving_stays_disabled_witness :
  let st := Samples.freshPage in
  let env := ContentScript.mkScreenshotEnv
               (ContentScript.Returned "AAAA")
               (ContentScript.Returned
                  (Some (ContentScript.mkSaveResponse false (Some "Not Found")
                                                      None None))) in
  let st' := snd (fst (ContentScript.saveCurrentScreenshot true env st)) in
  ContentScript.screenshotApiAvailable st = true /\
  fst (fst (ContentScript.saveCurrentScreenshot true env st)) = ContentScript.Returned None /\
  ContentScript.screenshotApiAvailable st' = false /\
  ContentScript.saveCurrentScreenshot false env st' = (ContentScript.Returned None, st', []) /\
  ContentScript.screenshotApiAvailable
    (ContentScript.performAll Samples.noAddress Samples.noCountry
       [ContentScript.OpFinishScrapeRound;
        ContentScript.OpSaveScreenshot false env;
        ContentScript.OpGeoMetadata
          (ContentScript.delivered (Samples.observation 48.8566 2.3522 "debugger")) 5] st')
  = false.
Proof.
  cbv zeta.
  destruct (C8_screenshot_saving_stays_disabled Samples.noAddress Samples.noCountry)
    as (Htrigger & Hoff & Hstay).
  split; [ reflexivity | ].
  match goal with
  | |- context [ContentScript.saveCurrentScreenshot true ?e ?s] =>
      destruct (Htrigger true e s "AAAA"
                  (ContentScript.mkSaveResponse false (Some "Not Found")
                                                None None)
                  eq_refl eq_refl eq_refl eq_refl (or_intror eq_refl)) as [Hnull Hflag]
  end.
  split; [ exact Hnull | ]. split; [ exact Hflag | ].
  split; [ apply Hoff; exact Hflag | apply Hstay; exact Hflag ].
Defined.

(** ** C9: the image-validity check *)

Lemma range_all_spec (count : nat) (f : Z -> bool) :
  forall from, Range.all count from f = true ->
               forall z, from <= z < from + Z.of_nat count -> f z = true.
Proof.
  induction count as [ | k IH ]; intros from Hall z Hz; [ lia | ].
  cbn [Range.all] in Hall. apply andb_prop in Hall as [Hhere Hrest].
  destruct (Z.eq_dec z from) as [-> | Hne]; [ exact Hhere | ].
  apply (IH (from + 1) Hrest). lia.
Qed.

(** For the sample sizes that can occur (at most 750 bytes), the test
    [lowCount / totalChecked > 0.8] on binary64 numbers decides
    [5 * lowCount > 4 * totalChecked] on the integers: every case is
    evaluated. *)
Lemma ratio_test_table : Range.all 750 1 Range.ratioAgrees = true.
Proof. vm_compute. reflexivity. Qed.

Lemma ratio_test_exact (low total : Z) :
  0 < total <= 750 -> 0 <= low <= total ->
  (0.8 <? JSNumber.ofZ low / JSNumber.ofZ total)%float = (4 * total <? 5 * low).
Proof.
  intros Ht Hl.
  pose proof (range_all_spec 750 _ 1 ratio_test_table total ltac:(lia)) as Hrow.
  unfold Range.ratioAgrees in Hrow.
  pose proof (range_all_spec _ _ 0 Hrow low ltac:(lia)) as Hcell.
  now apply Bool.eqb_prop in Hcell.
Qed.

(** *** How many bytes are sampled *)

Lemma everyNthFrom_length {A : Type} (l : list A) :
  forall skip, (skip <= 9)%nat ->
               (10 * length (Image.everyNthFrom skip 10 l) + skip <= length l + 9)%nat.
Proof.
  induction l as [ | x t IH ]; intros skip Hskip; cbn [Image.everyNthFrom length].
  - lia.
  - destruct skip as [ | k ].
    + cbn [length]. specialize (IH 9%nat ltac:(lia)). cbn [Nat.sub] in *. lia.
    + specialize (IH k ltac:(lia)). lia.
Qed.

Lemma decodeSextets_length (l : list Z) :
  (4 * length (Base64.decodeSextets l) <= 3 * length l)%nat.
Proof.
  assert (H : forall n (l : list Z), (length l <= n)%nat ->
                (4 * length (Base64.decodeSextets l) <= 3 * length l)%nat).
  { induction n as [ | n IH ]; intros l' Hl.
    - destruct l'; [ cbn; lia | cbn in Hl; lia ].
    - destruct l' as [ | a [ | b [ | c [ | d rest ] ] ] ]; cbn [Base64.decodeSextets length];
        try lia.
      specialize (IH rest ltac:(cbn [length] in Hl; lia)). lia. }
  apply (H (length l)). lia.
Qed.

Lemma sextets_length (l : list ascii) :
  forall vs, Base64.sextets l = Some vs -> length vs = length l.
Proof.
  induction l as [ | c t IH ]; intros vs H; cbn [Base64.sextets] in H.
  - injection H as <-. reflexivity.
  - destruct (Base64.sextet c); [ | discriminate ].
    destruct (Base64.sextets t) as [ ws | ]; [ | discriminate ].
    injection H as <-. cbn [length]. f_equal. now apply IH.
Qed.

Lemma stripPadding_length (l : list ascii) :
  (length (Base64.stripPadding l) <= length l)%nat.
Proof.
  unfold Base64.stripPadding.
  destruct (length l mod 4 =? 0)%nat; [ | lia ].
  pose proof (length_rev l) as Hlen.
  destruct (rev l) as [ | c r ]; [ lia | ].
  destruct (Ascii.eqb c "="); [ | lia ].
  destruct r as [ | d r' ]; [ cbn; lia | ].
  destruct (Ascii.eqb d "="); rewrite length_rev; cbn [length] in *; lia.
Qed.

Lemma list_ascii_length (s : string) :
  length (list_ascii_of_string s) = String.length s.
Proof. induction s as [ | c t IH ]; cbn; [ reflexivity | now rewrite IH ]. Qed.

Lemma string_substring_length (s : string) :
  forall n m, (String.length (String.substring n m s) <= m)%nat.
Proof.
  induction s as [ | c t IH ]; intros n m.
  - destruct n, m; cbn; lia.
  - destruct n as [ | n ]; cbn [String.substring].
    + destruct m as [ | m ]; cbn [String.length]; [ lia | ].
      specialize (IH 0%nat m). lia.
    + apply IH.
Qed.

Lemma atob_length (s : string) (bytes : list Z) :
  Base64.atob s = Some bytes -> (4 * length bytes <= 3 * String.length s)%nat.
Proof.
  unfold Base64.atob. intros H.
  set (chars := Base64.stripPadding _) in H.
  destruct (length chars mod 4 =? 1)%nat; [ discriminate | ].
  destruct (Base64.sextets chars) as [ vs | ] eqn:Hvs; [ | discriminate ].
  injection H as <-.
  pose proof (decodeSextets_length vs) as Hd.
  rewrite (sextets_length _ _ Hvs) in Hd.
  assert (Hc : (length chars <= String.length s)%nat).
  { unfold chars. etransitivity; [ apply stripPadding_length | ].
    rewrite <- list_ascii_length. apply List.filter_length_le. }
  lia.
Qed.

Lemma sample_sizes (base64Data : string) (bytes : list Z) :
  Base64.atob (JSString.substring base64Data 0 10000) = Some bytes ->
  0 <= Image.lowCount (Image.darkSample bytes)
    <= Image.totalChecked (Image.darkSample bytes)
  /\ Image.totalChecked (Image.darkSample bytes) <= 750.
Proof.
  intros H. apply atob_length in H.
  assert (Hs : Z.of_nat (String.length (JSString.substring base64Data 0 10000)) <= 10000).
  { unfold JSString.substring. cbv zeta.
    match goal with
    | |- context [String.substring ?n ?m ?s] =>
        pose proof (string_substring_length s n m) as Hsub
    end.
    unfold JSString.len in *. lia. }
  unfold Image.lowCount, Image.totalChecked, Image.darkSample, Image.everyNth.
  pose proof (everyNthFrom_length bytes 0 ltac:(lia)) as He.
  pose proof (List.filter_length_le (fun b => b <? 30) (Image.everyNthFrom 0 10 bytes)) as Hf.
  lia.
Qed.

(** *** The base64 text of a black buffer *)

Lemma rev_repeat_same {A : Type} (x : A) (n : nat) : rev (repeat x n) = repeat x n.
Proof.
  induction n as [ | n IH ]; [ reflexivity | ].
  cbn [repeat rev]. rewrite IH. symmetry. apply repeat_cons.
Qed.

Lemma firstn_repeat_same {A : Type} (x : A) (n m : nat) :
  firstn m (repeat x n) = repeat x (Nat.min m n).
Proof.
  revert n. induction m as [ | m IH ]; intros [ | n ]; try reflexivity.
  cbn [repeat firstn Nat.min]. now rewrite IH.
Qed.

(** The text of [n] zero bytes: letters A, then at most two [=]. *)
Lemma encode_zeros (n : nat) :
  exists k pad q,
    Base64.encodeBytes (repeat 0 n) = (repeat "A"%char k ++ repeat "="%char pad)%list
    /\ (pad <= 2)%nat /\ (k + pad = 4 * q)%nat /\ (pad = 0%nat \/ 2 <= k)%nat.
Proof.
  assert (H : forall m n, (n <= m)%nat ->
    exists k pad q,
      Base64.encodeBytes (repeat 0 n) = (repeat "A"%char k ++ repeat "="%char pad)%list
      /\ (pad <= 2)%nat /\ (k + pad = 4 * q)%nat /\ (pad = 0%nat \/ 2 <= k)%nat).
  { induction m as [ | m IH ]; intros n' Hn.
    - exists 0%nat, 0%nat, 0%nat. assert (n' = 0)%nat as -> by lia.
      split; [ reflexivity | lia ].
    - destruct n' as [ | [ | [ | n'' ] ] ].
      + exists 0%nat, 0%nat, 0%nat. split; [ reflexivity | lia ].
      + exists 2%nat, 2%nat, 1%nat. split; [ reflexivity | lia ].
      + exists 3%nat, 1%nat, 1%nat. split; [ reflexivity | lia ].
      + destruct (IH n'' ltac:(lia)) as (k & pad & q & Henc & Hpad & Hsum & Hk).
        exists (4 + k)%nat, pad, (S q). cbn [repeat Base64.encodeBytes].
        rewrite Henc. split; [ reflexivity | lia ]. }
  apply (H n n). lia.
Qed.

Lemma sextets_letters_A (k : nat) :
  Base64.sextets (repeat "A"%char k) = Some (repeat 0 k).
Proof.
  induction k as [ | k IH ]; [ reflexivity | ].
  cbn [repeat Base64.sextets]. rewrite IH. reflexivity.
Qed.

Lemma filter_keeps_text (k pad : nat) :
  List.filter (fun c => negb (Base64.isAsciiWhitespace c))
              (repeat "A"%char k ++ repeat "="%char pad)
  = (repeat "A"%char k ++ repeat "="%char pad)%list.
Proof.
  rewrite List.filter_app. f_equal.
  - induction k as [ | k IH ]; [ reflexivity | ]. cbn [repeat List.filter].
    change (negb (Base64.isAsciiWhitespace "A")) with true. cbv iota. now rewrite IH.
  - induction pad as [ | p IH ]; [ reflexivity | ]. cbn [repeat List.filter].
    change (negb (Base64.isAsciiWhitespace "=")) with true. cbv iota. now rewrite IH.
Qed.

Lemma stripPadding_text (k pad q : nat) :
  (pad <= 2)%nat -> (k + pad = 4 * q)%nat -> (pad = 0%nat \/ 2 <= k)%nat ->
  Base64.stripPadding (repeat "A"%char k ++ repeat "="%char pad) = repeat "A"%char k.
Proof.
  intros Hpad Hsum Hk. unfold Base64.stripPadding.
  rewrite length_app, !repeat_length, Hsum.
  replace (4 * q)%nat with (q * 4)%nat by lia. rewrite Nat.Div0.mod_mul. cbn [Nat.eqb].
  rewrite rev_app_distr, !rev_repeat_same.
  destruct pad as [ | [ | [ | pad ] ] ]; [ | | | lia ].
  - cbn [repeat app]. rewrite app_nil_r.
    destruct k as [ | k ]; [ reflexivity | ]. cbn [repeat].
    change (Ascii.eqb "A" "=") with false. reflexivity.
  - destruct k as [ | k ]; [ lia | ]. cbn [repeat app].
    change (Ascii.eqb "=" "=") with true. change (Ascii.eqb "A" "=") with false. cbv iota.
    change ("A"%char :: repeat "A"%char k) with (repeat "A"%char (S k)).
    apply rev_repeat_same.
  - cbn [repeat app]. change (Ascii.eqb "=" "=") with true. cbv iota.
    apply rev_repeat_same.
Qed.

Lemma decode_zero_sextets (l : list Z) :
  Forall (fun v => v = 0) l -> Forall (fun b => b = 0) (Base64.decodeSextets l).
Proof.
  assert (H : forall n (l : list Z), (length l <= n)%nat ->
                Forall (fun v => v = 0) l ->
                Forall (fun b => b = 0) (Base64.decodeSextets l)).
  { induction n as [ | n IH ]; intros l' Hlen Hzero.
    - destruct l'; [ constructor | cbn in Hlen; lia ].
    - destruct l' as [ | a [ | b [ | c [ | d rest ] ] ] ]; cbn [Base64.decodeSextets];
        try constructor.
      + inversion Hzero as [ | ? ? -> Hz1 ]. inversion Hz1 as [ | ? ? -> _ ]. reflexivity.
      + constructor.
      + inversion Hzero as [ | ? ? -> Hz1 ]. inversion Hz1 as [ | ? ? -> Hz2 ].
        inversion Hz2 as [ | ? ? -> _ ]. reflexivity.
      + inversion Hzero as [ | ? ? -> Hz1 ]. inversion Hz1 as [ | ? ? -> Hz2 ].
        inversion Hz2 as [ | ? ? -> _ ]. repeat constructor.
      + inversion Hzero as [ | ? ? -> Hz1 ]. inversion Hz1 as [ | ? ? -> Hz2 ].
        inversion Hz2 as [ | ? ? -> Hz3 ]. inversion Hz3 as [ | ? ? -> _ ]. reflexivity.
      + inversion Hzero as [ | ? ? -> Hz1 ]. inversion Hz1 as [ | ? ? -> Hz2 ].
        inversion Hz2 as [ | ? ? -> Hz3 ]. inversion Hz3 as [ | ? ? -> Hz4 ].
        repeat constructor. apply IH; [ cbn [length] in Hlen; lia | exact Hz4 ]. }
  apply (H (length l)). lia.
Qed.

Lemma substring_chars (s : string) :
  forall m, list_ascii_of_string (String.substring 0 m s)
            = firstn m (list_ascii_of_string s).
Proof.
  induction s as [ | c t IH ]; intros [ | m ]; try reflexivity.
  cbn [String.substring list_ascii_of_string firstn]. now rewrite IH.
Qed.

Lemma js_substring_chars (s : string) :
  list_ascii_of_string (JSString.substring s 0 10000)
  = firstn (Z.to_nat (Z.min 10000 (JSString.len s))) (list_ascii_of_string s).
Proof.
  unfold JSString.substring. cbv zeta.
  assert (Hlen : 0 <= JSString.len s) by (unfold JSString.len; lia).
  replace (Z.min (Z.max 0 0) (JSString.len s)) with 0 by lia.
  replace (Z.min (Z.max 10000 0) (JSString.len s)) with (Z.min 10000 (JSString.len s)) by lia.
  replace (Z.min 0 (Z.min 10000 (JSString.len s))) with 0 by lia.
  replace (Z.max 0 (Z.min 10000 (JSString.len s)) - 0)
    with (Z.min 10000 (JSString.len s)) by lia.
  apply substring_chars.
Qed.

(** A text of letters A with its padding decodes to zero bytes, at
    least one of them. *)
Lemma atob_zero_text (data : string) (k pad q : nat) :
  list_ascii_of_string data = (repeat "A"%char k ++ repeat "="%char pad)%list ->
  (pad <= 2)%nat -> (k + pad = 4 * q)%nat -> (2 <= k)%nat ->
  exists b rest,
    Base64.atob data = Some (b :: rest) /\ Forall (fun x => x = 0) (b :: rest).
Proof.
  intros Hdata Hpad Hsum Hk. unfold Base64.atob.
  rewrite Hdata, filter_keeps_text, (stripPadding_text k pad q) by lia.
  rewrite repeat_length.
  assert (Hmod : (k mod 4 =? 1)%nat = false).
  { apply Nat.eqb_neq. intros Hone.
    pose proof (Nat.div_mod_eq k 4) as Hdiv. lia. }
  rewrite Hmod, sextets_letters_A.
  assert (Hz : Forall (fun x => x = 0) (Base64.decodeSextets (repeat 0 k))).
  { apply decode_zero_sextets. clear. induction k; constructor; auto. }
  destruct k as [ | [ | k ] ]; [ lia | lia | ].
  destruct (Base64.decodeSextets (repeat 0 (S (S k)))) as [ | b rest ] eqn:Hd.
  - exfalso. cbn [repeat Base64.decodeSextets] in Hd.
    destruct k as [ | [ | k ] ]; discriminate Hd.
  - exists b, rest. split; [ reflexivity | exact Hz ].
Qed.

Lemma everyNthFrom_Forall {A : Type} (P : A -> Prop) (step : nat) (l : list A) :
  Forall P l -> forall skip, Forall P (Image.everyNthFrom skip step l).
Proof.
  induction 1 as [ | x t Hx Ht IH ]; intros skip; cbn [Image.everyNthFrom].
  - constructor.
  - destruct skip; [ constructor; [ exact Hx | apply IH ] | apply IH ].
Qed.

Lemma lowCount_of_zeros (sample : list Z) :
  Forall (fun x => x = 0) sample -> Image.lowCount sample = Image.totalChecked sample.
Proof.
  unfold Image.lowCount, Image.totalChecked. intros H. f_equal. f_equal.
  induction H as [ | x t -> _ IH ]; [ reflexivity | ].
  cbn [List.filter]. change (0 <? 30) with true. cbv iota. now rewrite IH.
Qed.

Lemma not_short (base64Data : string) :
  1000 <= JSString.len base64Data ->
  String.eqb base64Data "" || (JSString.len base64Data <? 1000) = false.
Proof.
  intros H. destruct base64Data as [ | c t ]; [ exfalso; apply H; reflexivity | ].
  cbn [String.eqb orb]. apply Z.ltb_ge. exact H.
Qed.

(** *** Texts that decode to a black buffer *)

Lemma atob_of_chars (a b : string) :
  list_ascii_of_string a = list_ascii_of_string b -> Base64.atob a = Base64.atob b.
Proof. intros H. unfold Base64.atob. now rewrite H. Qed.

Lemma sextet_of_alphabet (c : ascii) (v : Z) :
  Base64.sextet c = Some v ->
  Base64.isAsciiWhitespace c = false /\ Ascii.eqb c "=" = false.
Proof.
  destruct c as [[] [] [] [] [] [] [] []]; vm_compute; intros H;
    first [ discriminate H | split; reflexivity ].
Qed.

Lemma sextets_cons (c : ascii) (t : list ascii) (vs : list Z) :
  Base64.sextets (c :: t) = Some vs ->
  exists v ws, vs = v :: ws /\ Base64.sextet c = Some v /\ Base64.sextets t = Some ws.
Proof.
  cbn [Base64.sextets]. destruct (Base64.sextet c) as [ v | ]; [ | discriminate ].
  destruct (Base64.sextets t) as [ ws | ]; [ | discriminate ].
  intros [= <-]. now exists v, ws.
Qed.

Lemma sextets_firstn (l : list ascii) :
  forall vs m, Base64.sextets l = Some vs ->
               Base64.sextets (firstn m l) = Some (firstn m vs).
Proof.
  induction l as [ | c t IH ]; intros vs m H.
  - injection H as <-. now destruct m.
  - apply sextets_cons in H as (v & ws & -> & Hc & Ht).
    destruct m as [ | m ]; [ reflexivity | ].
    cbn [firstn Base64.sextets]. now rewrite Hc, (IH ws m Ht).
Qed.

Lemma sextets_no_whitespace (l : list ascii) :
  forall vs, Base64.sextets l = Some vs ->
             List.filter (fun c => negb (Base64.isAsciiWhitespace c)) l = l.
Proof.
  induction l as [ | c t IH ]; intros vs H; [ reflexivity | ].
  apply sextets_cons in H as (v & ws & -> & Hc & Ht).
  cbn [List.filter]. destruct (sextet_of_alphabet c v Hc) as [-> _].
  cbn [negb]. now rewrite (IH ws Ht).
Qed.

Lemma sextets_last (l : list ascii) (c : ascii) :
  forall vs, Base64.sextets (l ++ [c]) = Some vs -> Ascii.eqb c "=" = false.
Proof.
  induction l as [ | d t IH ]; intros vs H.
  - apply sextets_cons in H as (v & ws & _ & Hc & _).
    now destruct (sextet_of_alphabet c v Hc).
  - cbn [app] in H. apply sextets_cons in H as (v & ws & _ & _ & Ht). now apply (IH ws).
Qed.

(** A text of alphabet characters only has no padding to lose. *)
Lemma stripPadding_alphabet (l : list ascii) (vs : list Z) :
  Base64.sextets l = Some vs -> Base64.stripPadding l = l.
Proof.
  intros H. unfold Base64.stripPadding.
  destruct (length l mod 4 =? 0)%nat; [ | reflexivity ].
  pose proof (rev_involutive l) as Hrev.
  destruct (rev l) as [ | c r ]; [ reflexivity | ].
  cbn [rev] in Hrev. rewrite <- Hrev in H.
  now rewrite (sextets_last _ _ _ H).
Qed.

(** What [stripPadding] removes is a tail of at most two characters,
    and only from a text whose length is a multiple of 4. *)
Lemma stripPadding_prefix (l : list ascii) :
  Base64.stripPadding l = l
  \/ exists pad q, l = (Base64.stripPadding l ++ pad)%list
                   /\ (1 <= length pad <= 2)%nat /\ length l = (4 * q)%nat.
Proof.
  unfold Base64.stripPadding.
  destruct (Nat.eqb_spec (length l mod 4) 0) as [Hmod | _]; [ | now left ].
  assert (Hq : length l = (4 * (length l / 4))%nat)
    by (pose proof (Nat.div_mod_eq (length l) 4); lia).
  pose proof (rev_involutive l) as Hrev.
  destruct (rev l) as [ | c r ]; [ now left | ].
  destruct (Ascii.eqb_spec c "=") as [-> | _]; [ | now left ].
  right. destruct r as [ | d r' ].
  - exfalso. cbn in Hrev. rewrite <- Hrev in Hmod. discriminate Hmod.
  - destruct (Ascii.eqb_spec d "=") as [-> | _].
    + exists ["="%char; "="%char], (length l / 4)%nat. cbn [rev] in Hrev.
      rewrite <- app_assoc in Hrev. cbn [app] in Hrev.
      split; [ now symmetry | split; [ cbn; lia | exact Hq ] ].
    + exists ["="%char], (length l / 4)%nat. cbn [rev] in Hrev.
      split; [ now symmetry | split; [ cbn; lia | exact Hq ] ].
Qed.

Lemma decodeSextets_firstn (j : nat) :
  forall l, (4 * j <= length l)%nat ->
            Base64.decodeSextets (firstn (4 * j) l)
            = firstn (3 * j) (Base64.decodeSextets l).
Proof.
  induction j as [ | j IH ]; intros l Hl; [ reflexivity | ].
  destruct l as [ | a [ | b [ | c [ | d rest ] ] ] ]; cbn [length] in Hl; try lia.
  replace (4 * S j)%nat with (S (S (S (S (4 * j))))) by lia.
  replace (3 * S j)%nat with (S (S (S (3 * j)))) by lia.
  cbn [firstn Base64.decodeSextets]. rewrite IH by lia. reflexivity.
Qed.

Lemma decodeSextets_not_nil (l : list Z) :
  (2 <= length l)%nat -> exists b rest, Base64.decodeSextets l = b :: rest.
Proof.
  destruct l as [ | a [ | b [ | c [ | d rest ] ] ] ]; cbn [length]; intros H; try lia;
    cbn [Base64.decodeSextets]; eauto.
Qed.

(** The prefix that [isInvalidImage] decodes, for a text without white
    space that [atob] accepts and turns into zero bytes only: zero
    bytes again, and at least one. *)
Lemma black_prefix (base64Data : string) (bytes : list Z) :
  1000 <= JSString.len base64Data ->
  SpecTerms.withoutWhitespace base64Data = true ->
  Base64.atob base64Data = Some bytes ->
  Forall (fun b => b = 0) bytes ->
  exists b rest,
    Base64.atob (JSString.substring base64Data 0 10000) = Some (b :: rest)
    /\ Forall (fun x => x = 0) (b :: rest).
Proof.
  intros Hlen Hws Hatob Hzero. unfold SpecTerms.withoutWhitespace in Hws.
  set (c := list_ascii_of_string base64Data) in *.
  assert (Hc : Z.of_nat (length c) = JSString.len base64Data)
    by (unfold c, JSString.len; now rewrite list_ascii_length).
  assert (Hfilter : List.filter (fun x => negb (Base64.isAsciiWhitespace x)) c = c).
  { clear - Hws. induction c as [ | x t IH ]; [ reflexivity | ].
    cbn [forallb] in Hws. apply andb_prop in Hws as [Hx Ht].
    cbn [List.filter]. rewrite Hx. now rewrite (IH Ht). }
  unfold Base64.atob in Hatob. fold c in Hatob. rewrite Hfilter in Hatob.
  destruct (length (Base64.stripPadding c) mod 4 =? 1)%nat eqn:Hmod; [ discriminate | ].
  destruct (Base64.sextets (Base64.stripPadding c)) as [ vs | ] eqn:Hvs; [ | discriminate ].
  injection Hatob as <-.
  pose proof (sextets_length _ _ Hvs) as Hvslen.
  destruct (Z.le_gt_cases (JSString.len base64Data) 10000) as [Hfits | Hlong].
  - (* the whole text is decoded *)
    assert (Hsame : list_ascii_of_string (JSString.substring base64Data 0 10000) = c).
    { rewrite js_substring_chars. apply firstn_all2. fold c. lia. }
    assert (Hagain : Base64.atob (JSString.substring base64Data 0 10000)
                     = Some (Base64.decodeSextets vs)).
    { unfold Base64.atob. now rewrite Hsame, Hfilter, Hmod, Hvs. }
    destruct (decodeSextets_not_nil vs) as (b & rest & Hd).
    { destruct (stripPadding_prefix c) as [Hid | (pad & q & Hsplit & Hpad & _)].
      - rewrite Hid in Hvslen. lia.
      - apply (f_equal (@length ascii)) in Hsplit. rewrite length_app in Hsplit. lia. }
    exists b, rest. rewrite Hagain, <- Hd. split; [ reflexivity | exact Hzero ].
  - (* only the first 10000 characters are decoded *)
    set (m := Z.to_nat 10000).
    assert (Hm : m = (4 * Z.to_nat 2500)%nat) by (unfold m; lia).
    assert (Henough : (m <= length (Base64.stripPadding c))%nat
                      /\ firstn m c = firstn m (Base64.stripPadding c)).
    { destruct (stripPadding_prefix c) as [Hid | (pad & q & Hsplit & Hpad & Hq)].
      - rewrite Hid. split; [ unfold m; lia | reflexivity ].
      - assert (Hl : length c = (length (Base64.stripPadding c) + length pad)%nat)
          by (rewrite Hsplit at 1; apply length_app).
        assert (Hge : (m <= length (Base64.stripPadding c))%nat) by (unfold m; lia).
        split; [ exact Hge | ].
        rewrite Hsplit at 1. rewrite firstn_app.
        replace (m - length (Base64.stripPadding c))%nat with 0%nat by lia.
        cbn [firstn]. apply app_nil_r. }
    destruct Henough as [Hge Hfirst].
    assert (Hsub : list_ascii_of_string (JSString.substring base64Data 0 10000)
                   = firstn m (Base64.stripPadding c)).
    { rewrite js_substring_chars. fold c.
      replace (Z.min 10000 (JSString.len base64Data)) with 10000 by lia. exact Hfirst. }
    pose proof (sextets_firstn _ _ m Hvs) as Hprefix.
    assert (Hagain : Base64.atob (JSString.substring base64Data 0 10000)
                     = Some (Base64.decodeSextets (firstn m vs))).
    { unfold Base64.atob. rewrite Hsub.
      rewrite (sextets_no_whitespace _ _ Hprefix), (stripPadding_alphabet _ _ Hprefix).
      rewrite length_firstn, Nat.min_l by exact Hge.
      rewrite Hm. replace (4 * Z.to_nat 2500)%nat with (Z.to_nat 2500 * 4)%nat by lia.
      rewrite Nat.Div0.mod_mul. cbn [Nat.eqb].
      replace (Z.to_nat 2500 * 4)%nat with m by lia. now rewrite Hprefix. }
    destruct (decodeSextets_not_nil (firstn m vs)) as (b & rest & Hd).
    { rewrite length_firstn. unfold m in *. lia. }
    exists b, rest. rewrite Hagain, <- Hd. split; [ reflexivity | ].
    rewrite Hm, decodeSextets_firstn by lia.
    now apply Forall_take.
Qed.

(** A decoded prefix of zero bytes fails the darkness test. *)
Lemma black_sample_is_invalid (base64Data : string) (b : Z) (rest : list Z) :
  1000 <= JSString.len base64Data ->
  Base64.atob (JSString.substring base64Data 0 10000) = Some (b :: rest) ->
  Forall (fun x => x = 0) (b :: rest) ->
  Image.isInvalidImage base64Data = true.
Proof.
  intros Hlen Hatob Hzero.
  unfold Image.isInvalidImage. rewrite (not_short _ Hlen), Hatob.
  pose proof (sample_sizes _ _ Hatob) as [Hlow Htotal].
  pose proof (lowCount_of_zeros (Image.darkSample (b :: rest))
                (everyNthFrom_Forall _ 10 _ Hzero 0%nat)) as Hall.
  assert (Hpos : 0 < Image.totalChecked (Image.darkSample (b :: rest)))
    by (unfold Image.totalChecked, Image.darkSample, Image.everyNth; cbn; lia).
  rewrite ratio_test_exact by lia.
  rewrite Hall.
  destruct (Z.ltb_spec 0 (Image.totalChecked (Image.darkSample (b :: rest)))); [ | lia ].
  destruct (Z.ltb_spec (4 * Image.totalChecked (Image.darkSample (b :: rest)))
                       (5 * Image.totalChecked (Image.darkSample (b :: rest))));
    [ reflexivity | lia ].
Qed.

(** C9: a base64 text of 1000 characters or more (free of white space,
    as the canvas writes it) that decodes to zero bytes only is
    classified invalid, and so is in particular the text [btoa] writes
    for any all-zero buffer; a text of 1000 characters or more whose
    decoded prefix has at least 5 distinct values of
    [Math.floor(byte / 10)] in the uniformity sample and fewer than 80%
    of bytes below 30 in the darkness sample is classified valid. *)
Theorem C9_image_validity :
  (forall (base64Data : string) (bytes : list Z),
      1000 <= JSString.len base64Data ->
      SpecTerms.withoutWhitespace base64Data = true ->
      Base64.atob base64Data = Some bytes ->
      Forall (fun b => b = 0) bytes ->
      Image.isInvalidImage base64Data = true) /\
  (forall n : nat,
      1000 <= JSString.len (Base64.btoa (repeat 0 n)) ->
      Image.isInvalidImage (Base64.btoa (repeat 0 n)) = true) /\
  (forall (base64Data : string) (bytes : list Z),
      1000 <= JSString.len base64Data ->
      Base64.atob (JSString.substring base64Data 0 10000) = Some bytes ->
      (5 <= size (Image.uniqueValues (Image.uniformSample bytes)))%nat ->
      5 * Image.lowCount (Image.darkSample bytes)
      < 4 * Image.totalChecked (Image.darkSample bytes) ->
      Image.isInvalidImage base64Data = false).
Proof.
  split; [ | split ].
  - intros base64Data bytes Hlen Hws Hatob Hzero.
    destruct (black_prefix base64Data bytes Hlen Hws Hatob Hzero)
      as (b & rest & Hprefix & Hblack).
    exact (black_sample_is_invalid base64Data b rest Hlen Hprefix Hblack).
  - intros n Hlen.
    destruct (encode_zeros n) as (k & pad & q & Henc & Hpad & Hsum & Hk).
    assert (Hchars : list_ascii_of_string (Base64.btoa (repeat 0 n))
                     = (repeat "A"%char k ++ repeat "="%char pad)%list).
    { unfold Base64.btoa. now rewrite list_ascii_of_string_of_list_ascii, Henc. }
    assert (Hsize : JSString.len (Base64.btoa (repeat 0 n)) = Z.of_nat (k + pad)).
    { unfold JSString.len. now rewrite <- list_ascii_length, Hchars, length_app,
        !repeat_length. }
    assert (Hprefix : exists k' pad' q',
               list_ascii_of_string (JSString.substring (Base64.btoa (repeat 0 n)) 0 10000)
               = (repeat "A"%char k' ++ repeat "="%char pad')%list
               /\ (pad' <= 2)%nat /\ (k' + pad' = 4 * q')%nat /\ (2 <= k')%nat).
    { rewrite js_substring_chars, Hchars, Hsize.
      destruct (Z.le_gt_cases (Z.of_nat (k + pad)) 10000) as [Hfits | Hlong].
      - exists k, pad, q. split; [ | lia ].
        apply firstn_all2. rewrite length_app, !repeat_length. lia.
      - exists (Z.to_nat 10000), 0%nat, (Z.to_nat 2500). split; [ | lia ].
        replace (Z.min 10000 (Z.of_nat (k + pad))) with 10000 by lia.
        rewrite firstn_app, firstn_repeat_same, repeat_length.
        replace (Z.to_nat 10000 - k)%nat with 0%nat by lia.
        cbn [firstn repeat]. f_equal. f_equal. lia. }
    destruct Hprefix as (k' & pad' & q' & Hsub & Hpad' & Hsum' & Hk').
    destruct (atob_zero_text _ k' pad' q' Hsub Hpad' Hsum' Hk')
      as (b & rest & Hatob & Hzero).
    exact (black_sample_is_invalid _ b rest Hlen Hatob Hzero).
  - intros base64Data bytes Hlen Hatob Hunique Hdark.
    unfold Image.isInvalidImage. rewrite (not_short _ Hlen), Hatob.
    pose proof (sample_sizes _ _ Hatob) as [Hlow Htotal].
    destruct (Z.ltb_spec 0 (Image.totalChecked (Image.darkSample bytes))) as [Hpos | Hzero];
      cbn [andb].
    + rewrite ratio_test_exact by lia.
      destruct (Z.ltb_spec (4 * Image.totalChecked (Image.darkSample bytes))
                           (5 * Image.lowCount (Image.darkSample bytes))); [ lia | ].
      destruct (Nat.ltb_spec (size (Image.uniqueValues (Image.uniformSample bytes))) 5);
        [ lia | reflexivity ].
    + destruct (Nat.ltb_spec (size (Image.uniqueValues (Image.uniformSample bytes))) 5);
        [ lia | reflexivity ].
Qed.

(** 750 zero bytes are invalid, by their text and by what it decodes
    to; the varied sample is valid. *)
Lemma C9_image_validity_witness :
  1000 <= JSString.len (Base64.btoa (repeat 0 750)) /\
  SpecTerms.withoutWhitespace (Base64.btoa (repeat 0 750)) = true /\
  Base64.atob (Base64.btoa (repeat 0 750)) = Some (repeat 0 750) /\
  Image.isInvalidImage (Base64.btoa (repeat 0 750)) = true /\
  1000 <= JSString.len Samples.variedText /\
  Base64.atob (JSString.substring Samples.variedText 0 10000) = Some Samples.variedBytes /\
  (5 <= size (Image.uniqueValues (Image.uniformSample Samples.variedBytes)))%nat /\
  5 * Image.lowCount (Image.darkSample Samples.variedBytes)
  < 4 * Image.totalChecked (Image.darkSample Samples.variedBytes) /\
  Image.isInvalidImage Samples.variedText = false.
Proof.
  destruct C9_image_validity as (Hblack & _ & Hvalid).
  assert (H1 : 1000 <= JSString.len (Base64.btoa (repeat 0 750)))
    by (vm_compute; discriminate).
  assert (Hws : SpecTerms.withoutWhitespace (Base64.btoa (repeat 0 750)) = true)
    by (vm_compute; reflexivity).
  assert (Hdec : Base64.atob (Base64.btoa (repeat 0 750)) = Some (repeat 0 750))
    by (vm_compute; reflexivity).
  assert (Hzero : Forall (fun b => b = 0) (repeat 0 750))
    by (generalize 750%nat; intros k; induction k; constructor; auto).
  assert (H2 : 1000 <= JSString.len Samples.variedText) by (vm_compute; discriminate).
  assert (H3 : Base64.atob (JSString.substring Samples.variedText 0 10000)
               = Some Samples.variedBytes) by (vm_compute; reflexivity).
  assert (H4 : (5 <= size (Image.uniqueValues (Image.uniformSample Samples.variedBytes)))%nat)
    by (vm_compute; lia).
  assert (H5 : 5 * Image.lowCount (Image.darkSample Samples.variedBytes)
               < 4 * Image.totalChecked (Image.darkSample Samples.variedBytes))
    by (vm_compute; reflexivity).
  exact (conj H1 (conj Hws (conj Hdec
           (conj (Hblack _ _ H1 Hws Hdec Hzero)
              (conj H2 (conj H3 (conj H4 (conj H5
                 (Hvalid Samples.variedText Samples.variedBytes H2 H3 H4 H5))))))))).
Defined.

(** ** C10: the guess when nothing is known *)




(** * Further properties *)

(** ** The background process: ending a capture *)

Lemma removeTab_active (t u : Z) (st : Background.State) :
  u ∈ Background.activeCaptureTabs (Capture.removeTab t st)
  <-> u ∈ Background.activeCaptureTabs st /\ u <> t.
Proof. cbn. now rewrite elem_of_difference, elem_of_singleton. Qed.

Lemma stopGeoCapture_not_active (t : Z) (st : Background.State) :
  t ∉ Background.activeCaptureTabs (fst (Capture.stopGeoCapture (Some t) st)).
Proof.
  unfold Capture.stopGeoCapture.
  destruct (decide (t ∈ Background.activeCaptureTabs st)) as [Hin | Hout].
  - rewrite (bool_decide_eq_true_2 _ Hin). cbn [fst].
    rewrite removeTab_active. tauto.
  - now rewrite (bool_decide_eq_false_2 _ Hout).
Qed.

Lemma addTab_active (t u : Z) (st : Background.State) :
  u ∈ Background.activeCaptureTabs (Background.addTab t st)
  <-> u = t \/ u ∈ Background.activeCaptureTabs st.
Proof. cbn. now rewrite elem_of_union, elem_of_singleton. Qed.

(** X1.  Stopping the capture of a captured tab detaches the debugger
    from it once and forgets the tab: it is no longer captured and has
    no stored key and no cached metadata.  Every other tab keeps its
    capture, its key and its cache, and no message is sent. *)
Theorem stopGeoCapture_forgets_this_tab_only (t : Z) (st : Background.State) :
  t ∈ Background.activeCaptureTabs st ->
  let st' := fst (Capture.stopGeoCapture (Some t) st) in
  snd (Capture.stopGeoCapture (Some t) st) = [Capture.Detach t] /\
  (t ∉ Background.activeCaptureTabs st') /\
  Background.tabCoordinateSignatures st' !! t = None /\
  Background.tabMetadataCache st' !! t = None /\
  Background.sentToTabs st' = Background.sentToTabs st /\
  forall u, u <> t ->
    (u ∈ Background.activeCaptureTabs st' <-> u ∈ Background.activeCaptureTabs st) /\
    Background.tabCoordinateSignatures st' !! u = Background.tabCoordinateSignatures st !! u /\
    Background.tabMetadataCache st' !! u = Background.tabMetadataCache st !! u.
Proof.
  intros Hin. unfold Capture.stopGeoCapture.
  rewrite bool_decide_eq_true_2 by exact Hin. cbn [fst snd].
  split; [ reflexivity | ].
  split; [ rewrite removeTab_active; tauto | ].
  split; [ apply lookup_delete_eq | ].
  split; [ apply lookup_delete_eq | ].
  split; [ reflexivity | ].
  intros u Hu.
  split; [ rewrite removeTab_active; tauto | ].
  split; apply lookup_delete_ne; congruence.
Qed.

Lemma stopGeoCapture_forgets_this_tab_only_witness :
  let st := Background.emitGeoMetadata 7 (Samples.observation 48.8566 2.3522 "debugger")
              1700000000001 (Background.addTab 7 Background.initial) in
  7 ∈ Background.activeCaptureTabs st /\
  snd (Capture.stopGeoCapture (Some 7) st) = [Capture.Detach 7] /\
  Background.tabCoordinateSignatures (fst (Capture.stopGeoCapture (Some 7) st)) !! 7 = None.
Proof.
  split; [ apply (bool_decide_eq_true_1 _); vm_compute; reflexivity | ].
  pose proof (stopGeoCapture_forgets_this_tab_only 7
                (Background.emitGeoMetadata 7 (Samples.observation 48.8566 2.3522 "debugger")
                   1700000000001 (Background.addTab 7 Background.initial))) as H.
  destruct H as (H1 & _ & H3 & _).
  - apply (bool_decide_eq_true_1 _); vm_compute; reflexivity.
  - exact (conj H1 H3).
Defined.

(** Stopping is idempotent: after [stopGeoCapture], whatever its
    argument, a second call with the same argument changes nothing and
    does not touch the debugger. *)
Lemma stopGeoCapture_twice (tabId : option Z) (st : Background.State) :
  let st1 := fst (Capture.stopGeoCapture tabId st) in
  Capture.stopGeoCapture tabId st1 = (st1, []).
Proof.
  destruct tabId as [ t | ]; [ | reflexivity ].
  cbn zeta. unfold Capture.stopGeoCapture at 2.
  destruct (decide (t ∈ Background.activeCaptureTabs st)) as [Hin | Hout].
  - unfold Capture.stopGeoCapture. rewrite (bool_decide_eq_true_2 _ Hin). cbn [fst].
    rewrite bool_decide_eq_false_2; [ reflexivity | ].
    rewrite removeTab_active. tauto.
  - unfold Capture.stopGeoCapture. rewrite (bool_decide_eq_false_2 _ Hout). cbn [fst].
    now rewrite (bool_decide_eq_false_2 _ Hout).
Qed.

(** The events of a tab whose capture was stopped, or that was
    closed, ask for no response body, whatever the event. *)
Lemma stopped_tab_is_not_listened_to (t : Z) (method : string) (url : option string)
        (requestId : string) (st : Background.State) :
  Capture.onDebuggerEvent t method url requestId
    (fst (Capture.stopGeoCapture (Some t) st)) = [] /\
  Capture.onDebuggerEvent t method url requestId
    (fst (Capture.onTabRemoved t st)) = [].
Proof.
  pose proof (stopGeoCapture_not_active t st) as Hstop.
  split.
  - unfold Capture.onDebuggerEvent. now rewrite (bool_decide_eq_false_2 _ Hstop).
  - unfold Capture.onTabRemoved.
    destruct (decide (t ∈ Background.activeCaptureTabs st)) as [Hin | Hout].
    + rewrite (bool_decide_eq_true_2 _ Hin).
      unfold Capture.onDebuggerEvent. now rewrite (bool_decide_eq_false_2 _ Hstop).
    + rewrite (bool_decide_eq_false_2 _ Hout). cbn [fst].
      unfold Capture.onDebuggerEvent. now rewrite (bool_decide_eq_false_2 _ Hout).
Qed.

(** ** The background process: tabs do not see each other *)

(** X2.  An observation emitted for tab [a] leaves every other tab [b]
    as it was: the stored key and the cached metadata of [b] are
    unchanged, the set of captured tabs is unchanged, and no message is
    added for [b]. *)
Theorem emitGeoMetadata_touches_one_tab (a b : Z) (m : Background.GeoMetadata) (now : Z)
        (st : Background.State) :
  a <> b ->
  let st' := Background.emitGeoMetadata a m now st in
  Background.tabCoordinateSignatures st' !! b = Background.tabCoordinateSignatures st !! b /\
  Background.tabMetadataCache st' !! b = Background.tabMetadataCache st !! b /\
  Background.activeCaptureTabs st' = Background.activeCaptureTabs st /\
  List.filter (fun tm => fst tm =? b) (Background.sentToTabs st')
  = List.filter (fun tm => fst tm =? b) (Background.sentToTabs st).
Proof.
  intros Hab. unfold Background.emitGeoMetadata.
  destruct (negb (String.eqb (Background.signature m) "")
            && bool_decide (Background.tabCoordinateSignatures st !! a
                            = Some (Background.signature m))).
  - repeat split; reflexivity.
  - cbn. split; [ now apply lookup_insert_ne | ].
    split; [ now apply lookup_insert_ne | ].
    split; [ reflexivity | ].
    unfold Background.sendGeoMetadataToTab.
    destruct (a =? 0); [ reflexivity | ].
    rewrite List.filter_app. cbn.
    destruct (a =? b) eqn:E; [ apply Z.eqb_eq in E; contradiction | ].
    now rewrite app_nil_r.
Qed.

Lemma emitGeoMetadata_touches_one_tab_witness :
  let m := Samples.observation 48.8566 2.3522 "debugger" in
  let st := Background.emitGeoMetadata 8 m 1700000000001 Background.initial in
  7 <> 8 /\
  Background.tabCoordinateSignatures (Background.emitGeoMetadata 7 m 1700000000002 st) !! 8
  = Background.tabCoordinateSignatures st !! 8.
Proof.
  split; [ lia | ].
  apply (emitGeoMetadata_touches_one_tab 7 8). lia.
Defined.

(** X3.  A capture that is stopped and started afresh delivers again:
    when the debugger attaches and enables without error, the first
    observation after the restart is sent to the tab even if its
    coordinates are those delivered before the stop. *)
Theorem restart_delivers_again (t : Z) (dbg : Background.Debugger)
        (m : Background.GeoMetadata) (now : Z) (st : Background.State) :
  t <> 0 ->
  Background.attachError dbg = None ->
  Background.enableError dbg = None ->
  let st1 := fst (Capture.stopGeoCapture (Some t) st) in
  let st2 := snd (fst (Background.startGeoCapture t dbg st1)) in
  t ∈ Background.activeCaptureTabs st2 /\
  Background.sentToTabs (Background.emitGeoMetadata t m now st2)
  = (Background.sentToTabs st ++ [(t, m)])%list.
Proof.
  intros Ht Hattach Henable. cbn zeta.
  assert (Hstop : (t ∉ Background.activeCaptureTabs (fst (Capture.stopGeoCapture (Some t) st)))
                  /\ Background.sentToTabs (fst (Capture.stopGeoCapture (Some t) st))
                     = Background.sentToTabs st).
  { split; [ apply stopGeoCapture_not_active | ].
    unfold Capture.stopGeoCapture.
    now destruct (bool_decide (t ∈ Background.activeCaptureTabs st)). }
  destruct Hstop as [Hout Hsent].
  set (st1 := fst (Capture.stopGeoCapture (Some t) st)) in *.
  unfold Background.startGeoCapture.
  apply Z.eqb_neq in Ht. rewrite Ht.
  rewrite (bool_decide_eq_false_2 _ Hout), Hattach, Henable. cbn [fst snd].
  split; [ change (t ∈ Background.activeCaptureTabs (Background.addTab t st1));
           rewrite addTab_active; now left | ].
  unfold Background.emitGeoMetadata.
  replace (Background.tabCoordinateSignatures
             (Background.resetSignature t (Background.addTab t st1)) !! t)
    with (@None string) by (cbn; now rewrite lookup_delete_eq).
  rewrite (bool_decide_eq_false_2 (None = Some _)) by discriminate.
  rewrite andb_false_r. cbn.
  unfold Background.sendGeoMetadataToTab. now rewrite Ht, Hsent.
Qed.

Lemma restart_delivers_again_witness :
  let m := Samples.observation 48.8566 2.3522 "debugger" in
  let dbg := Background.mkDebugger None None in
  let st := Background.emitGeoMetadata 7 m 1700000000001
              (Background.addTab 7 Background.initial) in
  Background.emitGeoMetadata 7 m 1700000000002 st = st /\
  Background.sentToTabs
    (Background.emitGeoMetadata 7 m 1700000000003
       (snd (fst (Background.startGeoCapture 7 dbg
                    (fst (Capture.stopGeoCapture (Some 7) st))))))
  = [(7, m); (7, m)].
Proof.
  split; [ vm_compute; reflexivity | ].
  refine (eq_trans (proj2 (restart_delivers_again 7 (Background.mkDebugger None None)
                             (Samples.observation 48.8566 2.3522 "debugger") 1700000000003
                             (Background.emitGeoMetadata 7
                                (Samples.observation 48.8566 2.3522 "debugger")
                                1700000000001 (Background.addTab 7 Background.initial))
                             _ _ _)) _).
  - lia.
  - reflexivity.
  - reflexivity.
  - vm_compute. reflexivity.
Defined.
Lemma stopNext_captured (t : Z) (st : Background.State) (acc : list Capture.Request) :
  t ∈ Background.activeCaptureTabs st ->
  Capture.stopNext (st, acc) t = (Capture.removeTab t st, (acc ++ [Capture.Detach t])%list).
Proof.
  intros Ht. unfold Capture.stopNext, Capture.stopGeoCapture. cbn [fst snd].
  now rewrite (bool_decide_eq_true_2 _ Ht).
Qed.

Lemma stopAll_fold (l : list Z) (st : Background.State) (acc : list Capture.Request) :
  NoDup l ->
  (forall t, t ∈ l -> t ∈ Background.activeCaptureTabs st) ->
  let r := fold_left Capture.stopNext l (st, acc) in
  snd r = (acc ++ List.map Capture.Detach l)%list /\
  (forall u, u ∈ Background.activeCaptureTabs (fst r)
             <-> u ∈ Background.activeCaptureTabs st /\ u ∉ l) /\
  (forall u, Background.tabCoordinateSignatures (fst r) !! u
             = if decide (u ∈ l) then None else Background.tabCoordinateSignatures st !! u) /\
  (forall u, Background.tabMetadataCache (fst r) !! u
             = if decide (u ∈ l) then None else Background.tabMetadataCache st !! u) /\
  Background.sentToTabs (fst r) = Background.sentToTabs st /\
  Background.geovizLastMetadata (fst r) = Background.geovizLastMetadata st.
Proof.
  revert st acc. induction l as [ | t rest IH ]; intros st acc Hnodup Hin.
  - cbn. rewrite app_nil_r.
    split; [ reflexivity | ].
    split; [ | now repeat split ].
    intros u. pose proof (not_elem_of_nil u). tauto.
  - apply NoDup_cons in Hnodup as [Hnotin Hnodup].
    assert (Ht : t ∈ Background.activeCaptureTabs st) by (apply Hin; left).
    cbn [fold_left]. rewrite (stopNext_captured t st acc Ht).
    specialize (IH (Capture.removeTab t st) (acc ++ [Capture.Detach t])%list Hnodup).
    destruct IH as (Hreqs & Hact & Hsig & Hcache & Hsent & Hlast).
    { intros u Hu. rewrite removeTab_active. split; [ apply Hin; now right | ].
      intros ->. contradiction. }
    cbn zeta in *.
    split; [ rewrite Hreqs, <- app_assoc; reflexivity | ].
    split.
    { intros u. rewrite Hact, removeTab_active, elem_of_cons. tauto. }
    split.
    { intros u. rewrite Hsig. cbn [Capture.removeTab Background.tabCoordinateSignatures].
      destruct (decide (u ∈ rest)) as [Hu | Hu].
      - rewrite decide_True; [ reflexivity | now right ].
      - destruct (decide (u = t)) as [-> | Hne].
        + rewrite decide_True by (now left). apply lookup_delete_eq.
        + rewrite decide_False by (rewrite elem_of_cons; tauto).
          apply lookup_delete_ne; congruence. }
    split.
    { intros u. rewrite Hcache. cbn [Capture.removeTab Background.tabMetadataCache].
      destruct (decide (u ∈ rest)) as [Hu | Hu].
      - rewrite decide_True; [ reflexivity | now right ].
      - destruct (decide (u = t)) as [-> | Hne].
        + rewrite decide_True by (now left). apply lookup_delete_eq.
        + rewrite decide_False by (rewrite elem_of_cons; tauto).
          apply lookup_delete_ne; congruence. }
    split; [ now rewrite Hsent | now rewrite Hlast ].
Qed.

(** X4.  [stopAllGeoCaptures] detaches the debugger once from every
    captured tab and leaves no tab captured; the tabs that were
    captured lose their key and their cache, every other entry of the
    two maps stays. *)
Theorem stopAllGeoCaptures_stops_every_capture (st : Background.State) :
  let st' := fst (Capture.stopAllGeoCaptures st) in
  Background.activeCaptureTabs st' = ∅ /\
  snd (Capture.stopAllGeoCaptures st)
  = List.map Capture.Detach (elements (Background.activeCaptureTabs st)) /\
  forall u,
    Background.tabCoordinateSignatures st' !! u
    = (if decide (u ∈ Background.activeCaptureTabs st) then None
       else Background.tabCoordinateSignatures st !! u) /\
    Background.tabMetadataCache st' !! u
    = (if decide (u ∈ Background.activeCaptureTabs st) then None
       else Background.tabMetadataCache st !! u).
Proof.
  cbn zeta. unfold Capture.stopAllGeoCaptures.
  destruct (stopAll_fold (elements (Background.activeCaptureTabs st)) st [])
    as (Hreqs & Hact & Hsig & Hcache & _).
  { apply NoDup_elements. }
  { intros t. now rewrite elem_of_elements. }
  cbn zeta in *.
  split.
  { apply elem_of_equiv_empty_L. intros u. rewrite Hact, elem_of_elements. tauto. }
  split; [ exact Hreqs | ].
  intros u. rewrite Hsig, Hcache.
  destruct (decide (u ∈ elements (Background.activeCaptureTabs st))) as [Hu | Hu];
    rewrite elem_of_elements in Hu.
  - rewrite !decide_True by exact Hu. now split.
  - rewrite !decide_False by exact Hu. now split.
Qed.

(** ** The background process: what every reachable state satisfies *)

Lemma signature_withTabId (m : Background.GeoMetadata) (t : Z) :
  Background.signature (Background.withTabId m t) = Background.signature m.
Proof. reflexivity. Qed.

Lemma emitGeoMetadata_wellFormed (t : Z) (m : Background.GeoMetadata) (now : Z)
      (st : Background.State) :
  Background.md_tabId m = t ->
  Background.md_source m = "debugger" ->
  Invariants.wellFormed st ->
  Invariants.wellFormed (Background.emitGeoMetadata t m now st).
Proof.
  intros Htab Hsource (Hzero & Hsig & Hcache & Hsent).
  unfold Background.emitGeoMetadata.
  destruct (negb (String.eqb (Background.signature m) "")
            && bool_decide (Background.tabCoordinateSignatures st !! t
                            = Some (Background.signature m))).
  { now repeat split. }
  split; [ exact Hzero | ].
  split.
  { intros u sig. cbn [Background.tabCoordinateSignatures Background.tabMetadataCache].
    destruct (decide (u = t)) as [-> | Hne].
    - rewrite !lookup_insert_eq. intros [= <-]. eexists. split; [ reflexivity | ].
      reflexivity.
    - rewrite !lookup_insert_ne by congruence. apply Hsig. }
  split.
  { intros u c. cbn [Background.tabMetadataCache].
    destruct (decide (u = t)) as [-> | Hne].
    - rewrite lookup_insert_eq. intros [= <-]. reflexivity.
    - rewrite lookup_insert_ne by congruence. apply Hcache. }
  unfold Invariants.deliveriesArePerTab. cbn [Background.sentToTabs].
  unfold Background.sendGeoMetadataToTab.
  destruct (t =? 0) eqn:Ht; [ exact Hsent | ].
  apply Forall_app. split; [ exact Hsent | ].
  constructor; [ | constructor ].
  cbn [fst snd]. apply Z.eqb_neq in Ht. now repeat split.
Qed.

Lemma removeTab_wellFormed (t : Z) (st : Background.State) :
  Invariants.wellFormed st -> Invariants.wellFormed (Capture.removeTab t st).
Proof.
  intros (Hzero & Hsig & Hcache & Hsent).
  split; [ rewrite removeTab_active; tauto | ].
  split.
  { intros u sig. cbn [Capture.removeTab Background.tabCoordinateSignatures
                         Background.tabMetadataCache].
    destruct (decide (u = t)) as [-> | Hne].
    - now rewrite lookup_delete_eq.
    - rewrite !lookup_delete_ne by congruence. apply Hsig. }
  split; [ | exact Hsent ].
  intros u c. cbn [Capture.removeTab Background.tabMetadataCache].
  destruct (decide (u = t)) as [-> | Hne].
  - now rewrite lookup_delete_eq.
  - rewrite lookup_delete_ne by congruence. apply Hcache.
Qed.

Lemma stopGeoCapture_wellFormed (tabId : option Z) (st : Background.State) :
  Invariants.wellFormed st ->
  Invariants.wellFormed (fst (Capture.stopGeoCapture tabId st)).
Proof.
  intros H. destruct tabId as [ t | ]; [ | exact H ].
  unfold Capture.stopGeoCapture.
  destruct (bool_decide (t ∈ Background.activeCaptureTabs st)); [ | exact H ].
  now apply removeTab_wellFormed.
Qed.

Lemma stopAll_wellFormed (l : list Z) (st : Background.State) (acc : list Capture.Request) :
  Invariants.wellFormed st ->
  Invariants.wellFormed (fst (fold_left Capture.stopNext l (st, acc))).
Proof.
  revert st acc. induction l as [ | t rest IH ]; intros st acc H; [ exact H | ].
  cbn [fold_left]. unfold Capture.stopNext at 2. cbn [fst snd].
  pose proof (stopGeoCapture_wellFormed (Some t) st H) as H1.
  destruct (Capture.stopGeoCapture (Some t) st) as [s reqs]. now apply IH.
Qed.

Lemma startGeoCapture_wellFormed (t : Z) (dbg : Background.Debugger) (st : Background.State) :
  Invariants.wellFormed st ->
  Invariants.wellFormed (snd (fst (Background.startGeoCapture t dbg st))).
Proof.
  intros H. unfold Background.startGeoCapture.
  destruct (t =? 0) eqn:Ht; [ exact H | ].
  apply Z.eqb_neq in Ht.
  destruct (bool_decide (t ∈ Background.activeCaptureTabs st)); [ exact H | ].
  assert (Hadd : Invariants.wellFormed (Background.addTab t st)).
  { destruct H as (Hzero & Hsig & Hcache & Hsent).
    split; [ rewrite addTab_active; intros [ E | E ]; [ congruence | contradiction ] | ].
    now repeat split. }
  destruct (Background.attachError dbg) as [ message | ].
  { destruct (JSString.includes message "Another debugger"); [ exact Hadd | exact H ]. }
  destruct (Background.enableError dbg) as [ message | ]; [ exact H | ].
  cbn [fst snd]. destruct Hadd as (Hzero & Hsig & Hcache & Hsent).
  split; [ exact Hzero | ].
  split; [ | now split ].
  intros u sig. cbn [Background.resetSignature Background.tabCoordinateSignatures
                       Background.tabMetadataCache].
  destruct (decide (u = t)) as [-> | Hne].
  - now rewrite lookup_delete_eq.
  - rewrite lookup_delete_ne by congruence. apply Hsig.
Qed.

Lemma perform_wellFormed (op : Capture.Operation) (st : Background.State) :
  Invariants.wellFormed st -> Invariants.wellFormed (Capture.perform op st).
Proof.
  intros H. destruct op as [ t dbg | tabId | | t | t url text timestamp now ];
    cbn [Capture.perform].
  - now apply startGeoCapture_wellFormed.
  - now apply stopGeoCapture_wellFormed.
  - now apply stopAll_wellFormed.
  - unfold Capture.onTabRemoved.
    destruct (bool_decide (t ∈ Background.activeCaptureTabs st)); [ | exact H ].
    now apply stopGeoCapture_wellFormed.
  - unfold Capture.onResponseText.
    destruct (negb (truthy (Some (Background.parseGeoPayload text)))); [ exact H | ].
    destruct (Background.findCoordinates (Background.parseGeoPayload text))
      as [ [lat lon] | ]; [ | exact H ].
    now apply emitGeoMetadata_wellFormed.
Qed.

(** X5.  In every state the background process can reach from its
    start by captures being started and stopped, tabs being closed and
    responses being read: tab 0 is never captured; the key stored for
    a tab is the key of the metadata cached for that tab; cached
    metadata carries the id of its tab; and every [GEO_METADATA]
    message went to the tab it was captured in, with the debugger as
    its source. *)
Theorem background_state_is_well_formed (ops : list Capture.Operation) :
  Invariants.wellFormed (Capture.performAll ops Background.initial).
Proof.
  assert (Hinit : Invariants.wellFormed Background.initial).
  { split; [ apply not_elem_of_empty | ].
    split; [ intros t sig; cbn; now rewrite lookup_empty | ].
    split; [ intros t c; cbn; now rewrite lookup_empty | constructor ]. }
  unfold Capture.performAll. revert Hinit. generalize Background.initial.
  induction ops as [ | op rest IH ]; intros st H; [ exact H | ].
  cbn [fold_left]. apply IH. now apply perform_wellFormed.
Qed.
(** ** The background process, variant for one tab *)



(** ** Configuration *)

Lemma storageGet_defaults (storage : gmap string json) :
  Config.storageGet Config.DEFAULT_CONFIG storage
  = [("backendUrl", default (JStr Config.DEFAULT_backendUrl) (storage !! "backendUrl"));
     ("sessionPrefix", default (JStr Config.DEFAULT_sessionPrefix) (storage !! "sessionPrefix"));
     ("autoPlayEnabled", default (JBool Config.DEFAULT_autoPlayEnabled)
                                 (storage !! "autoPlayEnabled"))].
Proof. reflexivity. Qed.

(** X7.  [ensureDefaults] never writes: the read it starts from fills
    in the default of every key that is not stored, so no key is found
    undefined and the storage is left as it is. *)
Theorem ensureDefaults_writes_nothing (storage : gmap string json) :
  Config.missingDefaults storage = [] /\ Config.ensureDefaults storage = storage.
Proof.
  assert (H : Config.missingDefaults storage = []).
  { unfold Config.missingDefaults. rewrite storageGet_defaults. reflexivity. }
  split; [ exact H | ]. unfold Config.ensureDefaults. now rewrite H.
Qed.

Lemma orDefault_not_empty (input fallback : string) :
  fallback <> "" -> String.eqb (Popup.orDefault input fallback) "" = false.
Proof.
  intros H. unfold Popup.orDefault.
  destruct (String.eqb (JSString.trim input) "") eqn:E; [ | exact E ].
  now apply String.eqb_neq.
Qed.

(** X8.  What the settings form saves is what the background process
    reads back: after [saveConfig] with the payload of the popup, on
    any storage, [getConfig] returns the trimmed backend address and
    session prefix (their defaults where the field was left blank) and
    the state of the Auto Play box. *)
Theorem saved_settings_are_read_back (backendInput sessionInput : string) (autoPlay : bool)
        (storage : gmap string json) :
  Config.getConfig
    (Config.saveConfig (Popup.savePayload backendInput sessionInput autoPlay) storage)
  = Config.mkConfiguration
      (JStr (Popup.orDefault backendInput Config.DEFAULT_backendUrl))
      (JStr (Popup.orDefault sessionInput Config.DEFAULT_sessionPrefix))
      autoPlay.
Proof.
  unfold Config.getConfig, Config.saveConfig. rewrite !storageGet_defaults.
  unfold Popup.savePayload, Config.spread, Config.storageSet. cbn [fold_left fst snd setMember String.eqb Ascii.eqb Bool.eqb].
  rewrite lookup_insert_ne by discriminate.
  rewrite lookup_insert_ne by discriminate.
  rewrite lookup_insert_eq.
  rewrite lookup_insert_ne by discriminate.
  rewrite !lookup_insert_eq.
  cbn [default assoc String.eqb Ascii.eqb Bool.eqb].
  unfold Config.orElse. cbn [truthy default from_option]. cbv [id].
  change "http://localhost:8000" with Config.DEFAULT_backendUrl.
  change "chrome-session" with Config.DEFAULT_sessionPrefix.
  rewrite !orDefault_not_empty by discriminate. reflexivity.
Qed.

(** Switching Auto Play on or off saves that flag only: after
    [saveConfig({ autoPlayEnabled })], [getConfig] returns the new flag
    with the backend address and the session prefix it returned
    before. *)
Lemma saving_auto_play_keeps_the_rest (autoPlay : bool) (storage : gmap string json) :
  Config.getConfig (Config.saveConfig [("autoPlayEnabled", JBool autoPlay)] storage)
  = Config.mkConfiguration (Config.backendUrl (Config.getConfig storage))
                           (Config.sessionPrefix (Config.getConfig storage))
                           autoPlay.
Proof.
  unfold Config.getConfig, Config.saveConfig. rewrite !storageGet_defaults.
  unfold Config.spread, Config.storageSet.
  cbn [fold_left fst snd setMember String.eqb Ascii.eqb Bool.eqb].
  rewrite lookup_insert_ne by discriminate.
  rewrite lookup_insert_ne by discriminate.
  rewrite lookup_insert_eq.
  rewrite lookup_insert_ne by discriminate.
  rewrite !lookup_insert_eq.
  reflexivity.
Qed.

Lemma append_cons (c : ascii) (s t : string) : String c s ++ t = String c (s ++ t).
Proof. reflexivity. Qed.

Lemma append_empty (t : string) : "" ++ t = t.
Proof. reflexivity. Qed.






(** ** Strings: searching and cutting *)

Lemma len_nonneg (s : string) : 0 <= JSString.len s.
Proof. unfold JSString.len. lia. Qed.

Lemma len_cons (c : ascii) (s : string) : JSString.len (String c s) = JSString.len s + 1.
Proof. unfold JSString.len. cbn [String.length]. lia. Qed.

Lemma len_app (a b : string) : JSString.len (a ++ b) = JSString.len a + JSString.len b.
Proof.
  induction a as [ | c a IH ]; [ rewrite append_empty; reflexivity | ].
  rewrite append_cons, !len_cons, IH. lia.
Qed.

Lemma append_assoc (a b c : string) : (a ++ b) ++ c = a ++ b ++ c.
Proof.
  induction a as [ | x a IH ]; [ now rewrite !append_empty | ].
  now rewrite !append_cons, IH.
Qed.

Lemma indexOf_from_range (p s : string) (i : Z) :
  JSString.indexOf_from p s i = -1 \/ i <= JSString.indexOf_from p s i.
Proof.
  revert i. induction s as [ | c t IH ]; intros i; cbn [JSString.indexOf_from].
  - destruct (String.prefix p ""); [ right; lia | now left ].
  - destruct (String.prefix p (String c t)); [ right; lia | ].
    destruct (IH (i + 1)) as [ H | H ]; [ now left | right; lia ].
Qed.

Lemma indexOf_from_shift (p s : string) (i : Z) :
  JSString.indexOf_from p s i
  = if JSString.indexOf_from p s 0 =? -1 then -1 else JSString.indexOf_from p s 0 + i.
Proof.
  revert i. induction s as [ | c t IH ]; intros i; cbn [JSString.indexOf_from].
  - destruct (String.prefix p ""); cbn; lia.
  - destruct (String.prefix p (String c t)); [ cbn; lia | ].
    rewrite (IH (i + 1)), (IH (0 + 1)).
    destruct (indexOf_from_range p t 0) as [ H | H ].
    + rewrite H. reflexivity.
    + destruct (JSString.indexOf_from p t 0 =? -1) eqn:E; [ reflexivity | ].
      destruct (JSString.indexOf_from p t 0 + (0 + 1) =? -1) eqn:E'; lia.
Qed.

Lemma prefix_one (c d : ascii) (t : string) :
  String.prefix (String c EmptyString) (String d t) = Ascii.eqb c d.
Proof.
  cbn. destruct (Ascii.eqb_spec c d) as [ -> | Hne ].
  - destruct (ascii_dec d d); [ destruct t; reflexivity | contradiction ].
  - destruct (ascii_dec c d); [ contradiction | reflexivity ].
Qed.

(** The first occurrence of a character that [name] does not contain
    is found past [name]. *)
Lemma indexOf_from_past (c : ascii) (name rest : string) (i : Z) :
  JSString.includes name (String c EmptyString) = false ->
  JSString.indexOf_from (String c EmptyString) (name ++ rest) i
  = JSString.indexOf_from (String c EmptyString) rest (i + JSString.len name).
Proof.
  revert i. induction name as [ | d t IH ]; intros i Hno.
  - rewrite append_empty. f_equal. unfold JSString.len. cbn. lia.
  - unfold JSString.includes, JSString.indexOf in Hno.
    cbn [JSString.indexOf_from] in Hno. rewrite prefix_one in Hno.
    rewrite append_cons. cbn [JSString.indexOf_from]. rewrite prefix_one.
    destruct (Ascii.eqb c d); [ discriminate Hno | ].
    rewrite IH.
    + f_equal. rewrite len_cons. lia.
    + unfold JSString.includes, JSString.indexOf.
      rewrite indexOf_from_shift in Hno.
      destruct (JSString.indexOf_from (String c EmptyString) t 0 =? -1) eqn:E.
      * apply Z.eqb_eq in E. rewrite E. reflexivity.
      * destruct (indexOf_from_range (String c EmptyString) t 0) as [ H | H ];
          [ rewrite H in E; discriminate E | ].
        apply Z.leb_gt in Hno. lia.
Qed.

Lemma indexOf_at_start (c : ascii) (rest : string) (i : Z) :
  JSString.indexOf_from (String c EmptyString) (String c rest) i = i.
Proof. cbn [JSString.indexOf_from]. now rewrite prefix_one, Ascii.eqb_refl. Qed.

(** The last occurrence of a character in a text that ends with it *)
Lemma lastIndexOf_from_end (c : ascii) (s : string) (i : Z) :
  0 <= i ->
  JSString.lastIndexOf_from (String c EmptyString) (s ++ String c EmptyString) i
  = i + JSString.len s.
Proof.
  revert i. induction s as [ | d t IH ]; intros i Hi.
  - rewrite append_empty. cbn [JSString.lastIndexOf_from].
    change (String.prefix (String c EmptyString) EmptyString) with false.
    cbn match. rewrite prefix_one, Ascii.eqb_refl.
    replace (0 <=? -1) with false by reflexivity. unfold JSString.len. cbn. lia.
  - rewrite append_cons. cbn [JSString.lastIndexOf_from]. rewrite IH by lia.
    rewrite len_cons.
    pose proof (len_nonneg t).
    destruct (0 <=? i + 1 + JSString.len t) eqn:E; [ lia | apply Z.leb_gt in E; lia ].
Qed.

Lemma substring_middle (a b c : string) :
  String.substring (String.length a) (String.length b) (a ++ b ++ c) = b.
Proof.
  induction a as [ | x a IH ].
  - rewrite append_empty. cbn [String.length].
    induction b as [ | y b IHb ].
    + destruct c; reflexivity.
    + rewrite append_cons. cbn [String.length String.substring]. now rewrite IHb.
  - rewrite append_cons. cbn [String.length String.substring]. exact IH.
Qed.

Lemma slice_middle (a b c : string) :
  JSString.slice (a ++ b ++ c) (JSString.len a) (JSString.len a + JSString.len b) = b.
Proof.
  unfold JSString.slice. rewrite !len_app.
  pose proof (len_nonneg a). pose proof (len_nonneg b). pose proof (len_nonneg c).
  replace (JSString.len a <? 0) with false by (symmetry; apply Z.ltb_ge; lia).
  replace (JSString.len a + JSString.len b <? 0) with false
    by (symmetry; apply Z.ltb_ge; lia).
  rewrite !Z.min_l by lia.
  replace (Z.max (JSString.len a + JSString.len b - JSString.len a) 0)
    with (JSString.len b) by lia.
  unfold JSString.len. rewrite !Nat2Z.id. apply substring_middle.
Qed.

Lemma prefix_app (p s : string) : String.prefix p (p ++ s) = true.
Proof.
  induction p as [ | c p IH ]; [ destruct s; reflexivity | ].
  rewrite append_cons. cbn [String.prefix].
  destruct (ascii_dec c c); [ exact IH | contradiction ].
Qed.

Lemma trimEnd_keeps (s : string) (c : ascii) :
  JSString.isWhiteSpace c = false ->
  JSString.trimEnd (s ++ String c EmptyString) = s ++ String c EmptyString.
Proof.
  intros Hc. induction s as [ | d t IH ].
  - rewrite append_empty. cbn [JSString.trimEnd]. now rewrite Hc.
  - rewrite append_cons. cbn [JSString.trimEnd]. rewrite IH.
    destruct t; reflexivity.
Qed.

(** What the three parsers cut out of a JSONP body: with no opening
    bracket in [name], the text between the first opening and the last
    closing bracket of [name(payload)] is [payload]. *)
Lemma jsonp_positions (name payload : string) :
  JSString.includes name "(" = false ->
  let body := name ++ "(" ++ payload ++ ")" in
  JSString.indexOf body "(" = JSString.len name /\
  JSString.lastIndexOf body ")" = JSString.len name + 1 + JSString.len payload /\
  JSString.slice body (JSString.len name + 1) (JSString.len name + 1 + JSString.len payload)
  = payload.
Proof.
  intros Hno body.
  split; [ | split ].
  - unfold JSString.indexOf, body. rewrite indexOf_from_past by exact Hno.
    change ("(" ++ payload ++ ")") with (String "(" (payload ++ ")")).
    now rewrite indexOf_at_start.
  - unfold JSString.lastIndexOf, body.
    replace (name ++ "(" ++ payload ++ ")") with ((name ++ "(" ++ payload) ++ ")").
    + rewrite lastIndexOf_from_end by lia. rewrite !len_app.
      change (JSString.len "(") with 1. lia.
    + now rewrite !append_assoc.
  - unfold body.
    replace (name ++ "(" ++ payload ++ ")") with ((name ++ "(") ++ payload ++ ")")
      by (now rewrite !append_assoc).
    replace (JSString.len name + 1) with (JSString.len (name ++ "("))
      by (rewrite len_app; reflexivity).
    apply slice_middle.
Qed.

(** ** Reading a JSONP body *)

Lemma stripJSONPWrapper_payload (name payload : string) :
  JSString.includes name "(" = false ->
  Background.stripJSONPWrapper (name ++ "(" ++ payload ++ ")") = payload.
Proof.
  intros Hno. destruct (jsonp_positions name payload Hno) as (Hfirst & Hlast & Hslice).
  unfold Background.stripJSONPWrapper. cbn zeta in *. rewrite Hfirst, Hlast.
  pose proof (len_nonneg name). pose proof (len_nonneg payload).
  replace (JSString.len name =? -1) with false by (symmetry; apply Z.eqb_neq; lia).
  replace (JSString.len name + 1 + JSString.len payload =? -1) with false
    by (symmetry; apply Z.eqb_neq; lia).
  replace (JSString.len name <? JSString.len name + 1 + JSString.len payload) with true
    by (symmetry; apply Z.ltb_lt; lia).
  exact Hslice.
Qed.

(** X10.  [stripJSONPWrapper] takes the payload out of a JSONP body:
    for a callback name without an opening bracket, the text
    [name(payload)] gives [payload], whatever brackets the payload has
    of its own; and a text without an opening bracket, such as the
    name alone, is returned as it is. *)
Theorem stripJSONPWrapper_unwraps (name payload : string) :
  JSString.includes name "(" = false ->
  Background.stripJSONPWrapper (name ++ "(" ++ payload ++ ")") = payload
  /\ Background.stripJSONPWrapper name = name.
Proof.
  intros Hno. split; [ now apply stripJSONPWrapper_payload | ].
  unfold Background.stripJSONPWrapper.
  unfold JSString.includes in Hno. apply Z.leb_gt in Hno.
  destruct (indexOf_from_range "(" name 0) as [ H | H ].
  - unfold JSString.indexOf. now rewrite H.
  - unfold JSString.indexOf in Hno. lia.
Qed.

Lemma stripJSONPWrapper_unwraps_witness :
  JSString.includes "/**/_callbacks____foo" "(" = false /\
  Background.stripJSONPWrapper "/**/_callbacks____foo([1,[2,(3)]])" = "[1,[2,(3)]]".
Proof.
  split; [ reflexivity | ].
  exact (proj1 (stripJSONPWrapper_unwraps "/**/_callbacks____foo" "[1,[2,(3)]]" eq_refl)).
Defined.
Lemma prefix_app_r (p a b : string) :
  String.prefix p a = true -> String.prefix p (a ++ b) = true.
Proof.
  revert a. induction p as [ | c p IH ]; intros a H.
  - destruct (a ++ b); reflexivity.
  - destruct a as [ | d a ]; [ discriminate H | ].
    rewrite append_cons. cbn [String.prefix] in *.
    destruct (ascii_dec c d); [ now apply IH | discriminate H ].
Qed.

Lemma callback_body (callback payload : string) :
  JSString.startsWith callback GeoBridge.CALLBACK_PREFIX = true ->
  let body := callback ++ "(" ++ payload ++ ")" in
  String.eqb body "" = false /\
  JSString.startsWith body GeoBridge.CALLBACK_PREFIX = true /\
  JSString.trim body = body.
Proof.
  intros Hstart body.
  destruct callback as [ | c rest ]; [ discriminate Hstart | ].
  assert (Hc : c = "/"%char).
  { unfold JSString.startsWith, GeoBridge.CALLBACK_PREFIX in Hstart.
    cbn [String.prefix] in Hstart. destruct (ascii_dec "/" c); [ now subst | discriminate ]. }
  split; [ reflexivity | ].
  split; [ now apply prefix_app_r | ].
  unfold JSString.trim, body. rewrite append_cons.
  cbn [JSString.trimStart]. subst c.
  change (JSString.isWhiteSpace "/") with false. cbn match.
  rewrite <- append_cons.
  replace (String "/" rest ++ "(" ++ payload ++ ")")
    with ((String "/" rest ++ "(" ++ payload) ++ ")") by (now rewrite !append_assoc).
  now apply trimEnd_keeps.
Qed.

(** X11.  The page hook, the background process and the content script
    read a JSONP body alike: for a body [callback(payload)] whose
    callback name starts with the callback prefix and has no opening
    bracket, and whose payload is JSON for a truthy value, [parseBody],
    [parseGeoPayload] and the parsing steps of [parseGeoPhotoResponse]
    all give that value. *)
Theorem jsonp_body_is_read_alike (callback payload : string) (v : json) :
  JSString.startsWith callback GeoBridge.CALLBACK_PREFIX = true ->
  JSString.includes callback "(" = false ->
  JSON.parse payload = Some v ->
  truthy (Some v) = true ->
  let body := callback ++ "(" ++ payload ++ ")" in
  GeoBridge.parseBody body = v /\
  Background.parseGeoPayload body = v /\
  Extraction.parseGeoPhotoData body = v.
Proof.
  intros Hstart Hno Hparse Htruthy body.
  destruct (callback_body callback payload Hstart) as (Hne & Hpre & Htrim).
  destruct (jsonp_positions callback payload Hno) as (Hfirst & Hlast & Hslice).
  fold body in Hne, Hpre, Htrim, Hfirst, Hlast, Hslice.
  pose proof (len_nonneg callback). pose proof (len_nonneg payload).
  assert (E1 : (JSString.len callback =? -1) = false) by (apply Z.eqb_neq; lia).
  assert (E2 : (JSString.len callback + 1 + JSString.len payload =? -1) = false)
    by (apply Z.eqb_neq; lia).
  split; [ | split ].
  - unfold GeoBridge.parseBody. rewrite Hne, Hpre, Hfirst, Hlast, E1, E2.
    cbn [negb orb]. now rewrite Hslice, Hparse.
  - unfold Background.parseGeoPayload. rewrite Hne, Htrim.
    unfold body. rewrite stripJSONPWrapper_payload by exact Hno. now rewrite Hparse.
  - unfold Extraction.parseGeoPhotoData.
    change "/**/_callbacks____" with GeoBridge.CALLBACK_PREFIX.
    rewrite Hpre, Hfirst, Hlast, E1, E2. cbn [negb andb].
    rewrite Hslice, Hparse. now rewrite Htruthy.
Qed.

Lemma jsonp_body_is_read_alike_witness :
  GeoBridge.parseBody Samples.syntheticBody
  = Background.parseGeoPayload Samples.syntheticBody.
Proof.
  destruct (jsonp_body_is_read_alike
              "/**/_callbacks____foo"
              "[null,[[null,null,null,null,null,[[null,[[null,[null,null,48.8566,2.3522]]]]]]]]"
              (JArr [JNull; JArr [JArr [JNull; JNull; JNull; JNull; JNull;
                 JArr [JArr [JNull; JArr [JArr [JNull;
                   JArr [JNull; JNull; JNum 48.8566; JNum 2.3522]]]]]]]])
              eq_refl eq_refl) as (H1 & H2 & _).
  - vm_compute. reflexivity.
  - reflexivity.
  - exact (eq_trans H1 (eq_sym H2)).
Defined.

Lemma extract_of_null (findAddress : json -> option string)
      (inferCountryFromAddress : string -> option string) :
  Extraction.extractMetadataFromArray findAddress inferCountryFromAddress JNull = None.
Proof. reflexivity. Qed.

(** The steps of the older [parseGeoPhotoResponse], one after another. *)
Lemma simple_parse_steps
        (findAddress : json -> option string)
        (inferCountryFromAddress : string -> option string)
        (body : string) (latest : option Extraction.StreetViewMetadata) :
  SimpleContentScript.parseGeoPhotoResponse findAddress inferCountryFromAddress body latest
  = match Extraction.extractMetadataFromArray findAddress inferCountryFromAddress
            (GeoBridge.parseBody body) with
    | Some meta => Some meta
    | None => latest
    end.
Proof.
  unfold SimpleContentScript.parseGeoPhotoResponse, GeoBridge.parseBody.
  change "/**/_callbacks____" with GeoBridge.CALLBACK_PREFIX.
  destruct (String.eqb body "" || negb (JSString.startsWith body GeoBridge.CALLBACK_PREFIX));
    [ now rewrite extract_of_null | ].
  destruct ((JSString.indexOf body "(" =? -1) || (JSString.lastIndexOf body ")" =? -1));
    [ now rewrite extract_of_null | ].
  destruct (JSON.parse _); [ reflexivity | now rewrite extract_of_null ].
Qed.

(** X12.  The content script for one tab reads a response exactly as
    the page hook followed by the extraction would: for every body,
    [parseGeoPhotoResponse] stores what [extractMetadataFromArray]
    makes of [parseBody(body)], and keeps the metadata it had when that
    is nothing. *)
Theorem simple_parse_is_hook_then_extract
        (findAddress : json -> option string)
        (inferCountryFromAddress : string -> option string)
        (body : string) (latest : option Extraction.StreetViewMetadata) :
  SimpleContentScript.parseGeoPhotoResponse findAddress inferCountryFromAddress body latest
  = match Extraction.extractMetadataFromArray findAddress inferCountryFromAddress
            (GeoBridge.parseBody body) with
    | Some meta => Some meta
    | None => latest
    end.
Proof. exact (simple_parse_steps findAddress inferCountryFromAddress body latest). Qed.

(** X13.  The content script for several tabs reads every response the
    page hook forwards as the content script for one tab does: when
    [parseBody(body)] is truthy, both versions of
    [parseGeoPhotoResponse] leave the same metadata. *)
Theorem multi_tab_parse_extends_simple
        (findAddress : json -> option string)
        (inferCountryFromAddress : string -> option string)
        (body : string) (latest : option Extraction.StreetViewMetadata) :
  truthy (Some (GeoBridge.parseBody body)) = true ->
  Extraction.parseGeoPhotoResponse findAddress inferCountryFromAddress body latest
  = SimpleContentScript.parseGeoPhotoResponse findAddress inferCountryFromAddress body latest.
Proof.
  intros Htruthy. rewrite simple_parse_steps.
  unfold Extraction.parseGeoPhotoResponse.
  assert (Hdata : Extraction.parseGeoPhotoData body = GeoBridge.parseBody body).
  { unfold Extraction.parseGeoPhotoData, GeoBridge.parseBody in *.
    change "/**/_callbacks____" with GeoBridge.CALLBACK_PREFIX.
    destruct (String.eqb body "") eqn:Hempty; [ discriminate Htruthy | ].
    cbn [orb] in *.
    destruct (JSString.startsWith body GeoBridge.CALLBACK_PREFIX); [ | discriminate Htruthy ].
    cbn [negb] in *.
    destruct (JSString.indexOf body "(" =? -1); [ discriminate Htruthy | ].
    destruct (JSString.lastIndexOf body ")" =? -1); [ discriminate Htruthy | ].
    cbn [negb andb orb] in *.
    destruct (JSON.parse _) as [ v | ]; [ | discriminate Htruthy ].
    now rewrite Htruthy. }
  destruct (String.eqb body "") eqn:Hempty.
  { unfold GeoBridge.parseBody in Htruthy. rewrite Hempty in Htruthy. discriminate Htruthy. }
  now rewrite Hdata, Htruthy.
Qed.

Lemma multi_tab_parse_extends_simple_witness :
  truthy (Some (GeoBridge.parseBody Samples.syntheticBody)) = true /\
  Extraction.parseGeoPhotoResponse Samples.noAddress Samples.noCountry
    Samples.syntheticBody None
  = SimpleContentScript.parseGeoPhotoResponse Samples.noAddress Samples.noCountry
      Samples.syntheticBody None.
Proof.
  split; [ vm_compute; reflexivity | ].
  apply multi_tab_parse_extends_simple. vm_compute. reflexivity.
Defined.
(** ** The deep searches *)

Lemma firstSome_In {A B : Type} (f : A -> option B) (l : list A) (b : B) :
  DeepSearchSpec.firstSome f l = Some b -> exists x, In x l /\ f x = Some b.
Proof.
  induction l as [ | x rest IH ]; cbn [DeepSearchSpec.firstSome]; [ discriminate | ].
  destruct (f x) as [ b' | ] eqn:E.
  - intros [= <-]. exists x. split; [ now left | exact E ].
  - intros H. destruct (IH H) as (y & Hy & Hf). exists y. split; [ now right | exact Hf ].
Qed.

Lemma numberPair_spec (xs : list json) (a b : float) :
  Background.numberPair xs = Some (a, b) ->
  (4 <= length xs)%nat /\ nth_error xs 2 = Some (JNum a) /\ nth_error xs 3 = Some (JNum b).
Proof.
  unfold Background.numberPair.
  destruct (4 <=? length xs)%nat eqn:Hlen; [ | discriminate ].
  apply Nat.leb_le in Hlen.
  destruct (nth_error xs 2) as [ [ | | x | | | ] | ]; try discriminate.
  destruct (nth_error xs 3) as [ [ | | y | | | ] | ]; try discriminate.
  intros [= <- <-]. auto.
Qed.

Lemma coordinatePair_spec (xs : list json) (c : float * float) :
  Extraction.coordinatePair xs = Some c <->
  Background.numberPair xs = Some c /\ Extraction.inRange (fst c) (snd c) = true.
Proof.
  unfold Extraction.coordinatePair.
  destruct (Background.numberPair xs) as [ [a b] | ].
  - destruct (Extraction.inRange a b) eqn:E.
    + split; [ intros [= <-]; auto | intros [[= <-] _]; reflexivity ].
    + split; [ discriminate | ].
      intros [[= <-] H]. cbn in H. congruence.
  - split; [ discriminate | intros [H _]; discriminate H ].
Qed.

Lemma validCoordinateArray_is_coordinatePair (xs : list json) :
  DeepSearchSpec.validCoordinateArray xs = Extraction.coordinatePair xs.
Proof.
  unfold Extraction.coordinatePair, Background.numberPair,
    DeepSearchSpec.validCoordinateArray, Extraction.inRange.
  destruct (4 <=? length xs)%nat; [ | reflexivity ].
  destruct (nth_error xs 2) as [ [ | | a | | | ] | ]; try reflexivity.
  destruct (nth_error xs 3) as [ [ | | b | | | ] | ]; reflexivity.
Qed.

(** A pair that [findCoordinatesDeep] returns passed its range test. *)
Lemma findCoordinatesDeep_in_range (node : json) (lat lon : float) :
  Extraction.findCoordinatesDeep node = Some (lat, lon) ->
  Extraction.inRange lat lon = true.
Proof.
  rewrite findCoordinatesDeep_is_first_valid. unfold DeepSearchSpec.firstCoordinates.
  intros H. apply firstSome_In in H as (xs & Hin & Hvalid).
  rewrite validCoordinateArray_is_coordinatePair in Hvalid.
  now apply coordinatePair_spec in Hvalid as [Hpair Hrange].
Qed.

(** X14.  What [findCoordinatesDeep] returns is always a pair in
    range, latitude within -90 and 90, longitude within -180 and 180,
    and it stands at indices 2 and 3 of an array of at least four
    elements somewhere in the searched value. *)
Theorem findCoordinatesDeep_returns_coordinates (node : json) (lat lon : float) :
  Extraction.findCoordinatesDeep node = Some (lat, lon) ->
  Extraction.inRange lat lon = true /\
  exists xs, In xs (DeepSearchSpec.arrays node) /\ (4 <= length xs)%nat /\
             nth_error xs 2 = Some (JNum lat) /\ nth_error xs 3 = Some (JNum lon).
Proof.
  rewrite findCoordinatesDeep_is_first_valid. unfold DeepSearchSpec.firstCoordinates.
  intros H. apply firstSome_In in H as (xs & Hin & Hvalid).
  rewrite validCoordinateArray_is_coordinatePair in Hvalid.
  apply coordinatePair_spec in Hvalid as [Hpair Hrange].
  split; [ exact Hrange | ].
  exists xs. split; [ exact Hin | ]. now apply numberPair_spec.
Qed.

Lemma findCoordinatesDeep_returns_coordinates_witness :
  let data := Background.parseGeoPayload Samples.tileSizesFirst in
  Extraction.findCoordinatesDeep data = Some (48.8566%float, 2.3522%float) /\
  Extraction.inRange 48.8566 2.3522 = true.
Proof.
  split; [ vm_compute; reflexivity | ].
  apply (findCoordinatesDeep_returns_coordinates
           (Background.parseGeoPayload Samples.tileSizesFirst)).
  vm_compute. reflexivity.
Defined.

Lemma first_pair_in_range (l : list (list json)) :
  match DeepSearchSpec.firstSome Background.numberPair l with
  | None => DeepSearchSpec.firstSome Extraction.coordinatePair l = None
  | Some (a, b) =>
      if Extraction.inRange a b
      then DeepSearchSpec.firstSome Extraction.coordinatePair l = Some (a, b)
      else DeepSearchSpec.firstSome Extraction.coordinatePair l <> Some (a, b)
  end.
Proof.
  induction l as [ | xs rest IH ]; cbn [DeepSearchSpec.firstSome]; [ reflexivity | ].
  unfold Extraction.coordinatePair at 1 3 5.
  destruct (Background.numberPair xs) as [ [a b] | ]; [ | exact IH ].
  destruct (Extraction.inRange a b) eqn:E; [ reflexivity | ].
  intros H. apply firstSome_In in H as (ys & _ & Hys).
  apply coordinatePair_spec in Hys as [_ Hrange]. cbn in Hrange. congruence.
Qed.

(** X15.  How the two deep searches relate, on every value: where the
    search of the background process finds nothing, the search of the
    content script finds nothing; where it finds a pair in range, the
    content script finds the same pair; and where it finds a pair out
    of range, the content script does not return that pair. *)
Theorem the_two_deep_searches (node : json) :
  match Background.findCoordinates node with
  | None => Extraction.findCoordinatesDeep node = None
  | Some (a, b) =>
      if Extraction.inRange a b
      then Extraction.findCoordinatesDeep node = Some (a, b)
      else Extraction.findCoordinatesDeep node <> Some (a, b)
  end.
Proof.
  rewrite findCoordinates_is_first_number_pair, findCoordinatesDeep_is_first_valid.
  unfold DeepSearchSpec.firstCoordinates.
  replace (DeepSearchSpec.firstSome DeepSearchSpec.validCoordinateArray
             (DeepSearchSpec.arrays node))
    with (DeepSearchSpec.firstSome Extraction.coordinatePair (DeepSearchSpec.arrays node)).
  - apply first_pair_in_range.
  - induction (DeepSearchSpec.arrays node) as [ | xs rest IH ]; [ reflexivity | ].
    cbn [DeepSearchSpec.firstSome].
    now rewrite validCoordinateArray_is_coordinatePair, IH.
Qed.

(** X16.  Where the coordinates of extracted metadata come from:
    either they are the two numbers at the fixed position of the
    response, taken as they are, or they are what the deep search
    returned, and then they are in range. *)
Theorem extracted_coordinates_origin
        (findAddress : json -> option string)
        (inferCountryFromAddress : string -> option string)
        (data : json) (meta : Extraction.StreetViewMetadata) :
  Extraction.extractMetadataFromArray findAddress inferCountryFromAddress data = Some meta ->
  exists lat lon,
    Extraction.sv_lat meta = Some lat /\ Extraction.sv_lon meta = Some lon /\
    (Extraction.standardPath data = (Some (JNum lat), Some (JNum lon)) \/
     (Extraction.findCoordinatesDeep data = Some (lat, lon)
      /\ Extraction.inRange lat lon = true)).
Proof.
  unfold Extraction.extractMetadataFromArray.
  destruct (Extraction.standardPath data) as [lat1 lon1] eqn:Hpath.
  destruct (negb (isNumber lat1) || negb (isNumber lon1)) eqn:Hnum.
  - destruct (Extraction.findCoordinatesDeep data) as [ [a b] | ] eqn:Hdeep.
    + intros [= <-]. exists a, b. cbn. repeat split. right.
      split; [ reflexivity | ].
      now apply (findCoordinatesDeep_in_range data a b).
    + destruct lat1 as [ [ | | x | | | ] | ]; try discriminate.
      destruct lon1 as [ [ | | y | | | ] | ]; try discriminate.
  - destruct lat1 as [ [ | | x | | | ] | ]; try discriminate.
    destruct lon1 as [ [ | | y | | | ] | ]; try discriminate.
    intros [= <-]. exists x, y. cbn. repeat split. now left.
Qed.

Lemma extracted_coordinates_origin_witness :
  exists lat lon,
    Extraction.findCoordinatesDeep (GeoBridge.parseBody Samples.syntheticBody)
    = Some (lat, lon) /\ Extraction.inRange lat lon = true.
Proof.
  destruct (extracted_coordinates_origin Samples.noAddress Samples.noCountry
              (GeoBridge.parseBody Samples.syntheticBody)
              (Extraction.mkMeta (Some 48.8566%float) (Some 2.3522%float) None None None None))
    as (lat & lon & _ & _ & [ Hpath | Hdeep ]).
  - vm_compute. reflexivity.
  - vm_compute in Hpath. discriminate Hpath.
  - exists lat, lon. exact Hdeep.
Defined.
(** ** The content script: what the automation keeps true *)

Lemma handleResultTransition_keeps_metadata (final : bool) (env : ContentScript.TransitionEnv)
      (st : ContentScript.State) :
  ContentScript.latestStreetViewMetadata
    (snd (ContentScript.handleResultTransition final env st))
  = ContentScript.latestStreetViewMetadata st.
Proof.
  unfold ContentScript.handleResultTransition.
  destruct (ContentScript.transitionThrows env); [ reflexivity | ].
  destruct (negb final && ContentScript.nextRoundFound env); reflexivity.
Qed.

Lemma guessStep_keeps_metadata (env : ContentScript.RoundEnv) (st : ContentScript.State) :
  ContentScript.latestStreetViewMetadata (fst (ContentScript.guessStep env st))
  = ContentScript.latestStreetViewMetadata st.
Proof.
  unfold ContentScript.guessStep.
  destruct (ContentScript.previewImage env);
    (destruct (ContentScript.prediction env) as [ p | e ]; [ | reflexivity ]);
    destruct (ContentScript.getTargetCoordinates p _) as [lat lon];
    (destruct (ContentScript.placeGuess env); [ reflexivity | ]);
    (destruct (ContentScript.submit env); [ reflexivity | ]);
    destruct (ContentScript.afterSubmit env); reflexivity.
Qed.

Lemma playRound_keeps_metadata (roundIndex : Z) (env : ContentScript.RoundEnv)
      (st : ContentScript.State) :
  ContentScript.latestStreetViewMetadata
    (snd (fst (ContentScript.playRound roundIndex env st)))
  = ContentScript.latestStreetViewMetadata st.
Proof.
  unfold ContentScript.playRound.
  destruct (negb (ContentScript.running env)); [ reflexivity | ].
  destruct (ContentScript.sceneReady env); [ reflexivity | ].
  set (st0 := ContentScript.updateStatus _ _).
  pose proof (guessStep_keeps_metadata env st0) as Hg.
  destruct (ContentScript.guessStep env st0) as [st1 calls].
  pose proof (handleResultTransition_keeps_metadata
                (ContentScript.ROUND_LIMIT - 1 <=? roundIndex)
                (ContentScript.transition env) st1) as Ht.
  destruct (ContentScript.handleResultTransition _ _ st1) as [c st2].
  cbn [fst snd] in *. now rewrite Ht, Hg.
Qed.

Lemma playRounds_keeps_metadata (envs : list ContentScript.RoundEnv) :
  forall (roundIndex : Z) (st : ContentScript.State),
    ContentScript.latestStreetViewMetadata
      (fst (fst (ContentScript.playRounds roundIndex envs st)))
    = ContentScript.latestStreetViewMetadata st.
Proof.
  induction envs as [ | env rest IH ]; intros roundIndex st; [ reflexivity | ].
  cbn [ContentScript.playRounds].
  destruct (ContentScript.ROUND_LIMIT <=? roundIndex); [ reflexivity | ].
  pose proof (playRound_keeps_metadata roundIndex env st) as Hr.
  destruct (ContentScript.playRound roundIndex env st) as [ [ [ | ] st1 ] calls ];
    cbn [fst snd] in Hr; [ | exact Hr ].
  specialize (IH (roundIndex + 1) st1).
  destruct (ContentScript.playRounds (roundIndex + 1) rest st1) as [ [st2 rounds] calls' ].
  cbn [fst snd] in *. now rewrite IH.
Qed.

Lemma saveCurrentScreenshot_keeps_metadata (silent : bool) (env : ContentScript.ScreenshotEnv)
      (st : ContentScript.State) :
  ContentScript.latestStreetViewMetadata
    (snd (fst (ContentScript.saveCurrentScreenshot silent env st)))
  = ContentScript.latestStreetViewMetadata st.
Proof.
  unfold ContentScript.saveCurrentScreenshot.
  destruct (negb (ContentScript.screenshotApiAvailable st)); [ reflexivity | ].
  destruct (ContentScript.capture env) as [ image | message ];
    [ | destruct silent; reflexivity ].
  destruct (ContentScript.reply env) as [ response | message ];
    [ | destruct silent; reflexivity ].
  destruct (match response with
            | Some r => ContentScript.sr_success r
            | None => false
            end); [ reflexivity | ].
  destruct (ContentScript.endpointMissing response); [ | reflexivity ].
  destruct silent; reflexivity.
Qed.

Lemma extract_is_captured (findAddress : json -> option string)
      (inferCountryFromAddress : string -> option string)
      (data : json) (meta : Extraction.StreetViewMetadata) :
  Extraction.extractMetadataFromArray findAddress inferCountryFromAddress data = Some meta ->
  SpecTerms.captured (Some meta) = true.
Proof.
  unfold Extraction.extractMetadataFromArray.
  destruct (Extraction.standardPath data) as [lat1 lon1].
  destruct (if negb (isNumber lat1) || negb (isNumber lon1)
            then match Extraction.findCoordinatesDeep data with
                 | Some (a, b) => (Some (JNum a), Some (JNum b))
                 | None => (lat1, lon1)
                 end
            else (lat1, lon1)) as [lat lon].
  destruct lat as [ [ | | x | | | ] | ]; try discriminate.
  destruct lon as [ [ | | y | | | ] | ]; try discriminate.
  now intros [= <-].
Qed.

Lemma perform_keeps_complete (findAddress : json -> option string)
      (inferCountryFromAddress : string -> option string)
      (op : ContentScript.Operation) (st : ContentScript.State) :
  ContentScript.latestStreetViewMetadata st = None
  \/ SpecTerms.captured (ContentScript.latestStreetViewMetadata st) = true ->
  ContentScript.latestStreetViewMetadata
    (ContentScript.perform findAddress inferCountryFromAddress op st) = None
  \/ SpecTerms.captured
       (ContentScript.latestStreetViewMetadata
          (ContentScript.perform findAddress inferCountryFromAddress op st)) = true.
Proof.
  intros H. destruct op as [ payload now | body | silent env | | sid | envs ];
    cbn [ContentScript.perform].
  - unfold ContentScript.onGeoMetadata.
    destruct (JSValue.toNumber (ContentScript.pl_lat payload)); [ | exact H ].
    destruct (JSValue.toNumber (ContentScript.pl_lon payload)); [ | exact H ].
    destruct (JSNumber.isFinite _ && JSNumber.isFinite _); [ now right | exact H ].
  - unfold ContentScript.onGeoPhotoResponse, Extraction.parseGeoPhotoResponse.
    cbn [ContentScript.setMetadata ContentScript.latestStreetViewMetadata].
    destruct (String.eqb body ""); [ exact H | ].
    destruct (truthy (Some (Extraction.parseGeoPhotoData body))); [ | exact H ].
    destruct (Extraction.extractMetadataFromArray _ _ _) as [ meta | ] eqn:E; [ | exact H ].
    right. exact (extract_is_captured findAddress inferCountryFromAddress _ meta E).
  - now rewrite saveCurrentScreenshot_keeps_metadata.
  - exact H.
  - now left.
  - unfold ContentScript.playAutomaticMatch. now rewrite playRounds_keeps_metadata.
Qed.

(** X17.  The ground truth is never half-filled: whatever the content
    script has done since it was loaded (observations received,
    responses read, screenshots saved, rounds finished, games
    restarted, matches played), [latestStreetViewMetadata] is either
    [null] or holds both a latitude and a longitude. *)
Theorem ground_truth_is_never_half_filled
        (findAddress : json -> option string)
        (inferCountryFromAddress : string -> option string)
        (ops : list ContentScript.Operation) (now : Z) (idle : string) :
  let st := ContentScript.performAll findAddress inferCountryFromAddress ops
              (ContentScript.initial now idle) in
  ContentScript.latestStreetViewMetadata st = None
  \/ SpecTerms.captured (ContentScript.latestStreetViewMetadata st) = true.
Proof.
  cbn zeta. unfold ContentScript.performAll.
  assert (Hinit : ContentScript.latestStreetViewMetadata (ContentScript.initial now idle) = None
                  \/ SpecTerms.captured
                       (ContentScript.latestStreetViewMetadata
                          (ContentScript.initial now idle)) = true) by (now left).
  revert Hinit. generalize (ContentScript.initial now idle).
  induction ops as [ | op rest IH ]; intros st H; [ exact H | ].
  cbn [fold_left]. apply IH. now apply perform_keeps_complete.
Qed.

Lemma handleResultTransition_round (final : bool) (env : ContentScript.TransitionEnv)
      (st : ContentScript.State) :
  let r := ContentScript.currentRound (snd (ContentScript.handleResultTransition final env st)) in
  r = ContentScript.currentRound st \/ r = 1
  \/ (final = false /\ r = ContentScript.currentRound st + 1).
Proof.
  unfold ContentScript.handleResultTransition.
  destruct (ContentScript.transitionThrows env); [ now left | ].
  destruct final; cbn [negb andb]; [ right; now left | ].
  destruct (ContentScript.nextRoundFound env); cbn; [ right; right; now split | right; now left ].
Qed.

Lemma playRound_round (roundIndex : Z) (env : ContentScript.RoundEnv)
      (st : ContentScript.State) :
  let r := ContentScript.currentRound (snd (fst (ContentScript.playRound roundIndex env st))) in
  r = ContentScript.currentRound st \/ r = 1
  \/ (roundIndex < ContentScript.ROUND_LIMIT - 1 /\ r = ContentScript.currentRound st + 1).
Proof.
  unfold ContentScript.playRound.
  destruct (negb (ContentScript.running env)); [ now left | ].
  destruct (ContentScript.sceneReady env); [ now left | ].
  set (st0 := ContentScript.updateStatus _ _).
  pose proof (guessStep_keeps_round env st0) as Hg.
  destruct (ContentScript.guessStep env st0) as [st1 calls].
  pose proof (handleResultTransition_round
                (ContentScript.ROUND_LIMIT - 1 <=? roundIndex)
                (ContentScript.transition env) st1) as Ht.
  destruct (ContentScript.handleResultTransition _ _ st1) as [c st2].
  cbn [fst snd] in *. cbn zeta in Ht. rewrite Hg in Ht.
  destruct Ht as [ Ht | [ Ht | [Hfinal Ht] ] ]; [ now left | right; now left | ].
  right; right. split; [ now apply Z.leb_gt in Hfinal | exact Ht ].
Qed.

Lemma playRounds_round (envs : list ContentScript.RoundEnv) :
  forall (roundIndex : Z) (st : ContentScript.State),
    0 <= roundIndex ->
    1 <= ContentScript.currentRound st <= Z.min (roundIndex + 1) ContentScript.ROUND_LIMIT ->
    1 <= ContentScript.currentRound (fst (fst (ContentScript.playRounds roundIndex envs st)))
      <= ContentScript.ROUND_LIMIT
    /\ Forall (fun r => 1 <= r <= ContentScript.ROUND_LIMIT)
              (snd (fst (ContentScript.playRounds roundIndex envs st))).
Proof.
  induction envs as [ | env rest IH ]; intros roundIndex st Hindex Hround.
  - cbn. split; [ lia | constructor ].
  - cbn [ContentScript.playRounds].
    destruct (ContentScript.ROUND_LIMIT <=? roundIndex) eqn:Hlimit.
    { cbn. split; [ lia | constructor ]. }
    apply Z.leb_gt in Hlimit.
    pose proof (playRound_round roundIndex env st) as Hr.
    destruct (ContentScript.playRound roundIndex env st) as [ [ [ | ] st1 ] calls ];
      cbn [fst snd] in Hr; cbn zeta in Hr.
    + assert (H1 : 1 <= ContentScript.currentRound st1
                   <= Z.min (roundIndex + 1 + 1) ContentScript.ROUND_LIMIT).
      { unfold ContentScript.ROUND_LIMIT in *. lia. }
      destruct (IH (roundIndex + 1) st1 ltac:(lia) H1) as [Hfinal Hlist].
      destruct (ContentScript.playRounds (roundIndex + 1) rest st1) as [ [st2 rounds] calls' ].
      cbn [fst snd] in *. split; [ exact Hfinal | ].
      constructor; [ unfold ContentScript.ROUND_LIMIT in *; lia | exact Hlist ].
    + cbn [fst snd]. split; [ unfold ContentScript.ROUND_LIMIT in *; lia | constructor ].
Qed.

Lemma perform_keeps_round_range (findAddress : json -> option string)
      (inferCountryFromAddress : string -> option string)
      (op : ContentScript.Operation) (st : ContentScript.State) :
  1 <= ContentScript.currentRound st <= ContentScript.ROUND_LIMIT ->
  1 <= ContentScript.currentRound
         (ContentScript.perform findAddress inferCountryFromAddress op st)
    <= ContentScript.ROUND_LIMIT.
Proof.
  intros H. destruct op as [ payload now | body | silent env | | sid | envs ];
    cbn [ContentScript.perform].
  - unfold ContentScript.onGeoMetadata.
    destruct (JSValue.toNumber (ContentScript.pl_lat payload)); [ | exact H ].
    destruct (JSValue.toNumber (ContentScript.pl_lon payload)); [ | exact H ].
    destruct (JSNumber.isFinite _ && JSNumber.isFinite _); exact H.
  - exact H.
  - unfold ContentScript.saveCurrentScreenshot.
    destruct (negb (ContentScript.screenshotApiAvailable st)); [ exact H | ].
    destruct (ContentScript.capture env) as [ image | message ];
      [ | destruct silent; exact H ].
    destruct (ContentScript.reply env) as [ response | message ];
      [ | destruct silent; exact H ].
    destruct (match response with
              | Some r => ContentScript.sr_success r
              | None => false
              end); [ exact H | ].
    destruct (ContentScript.endpointMissing response); [ | exact H ].
    destruct silent; exact H.
  - rewrite finishScrapeRound_round.
    unfold ContentScript.ROUND_LIMIT in *.
    destruct (5 <? ContentScript.currentRound st + 1) eqn:E;
      [ lia | apply Z.ltb_ge in E; lia ].
  - cbn. unfold ContentScript.ROUND_LIMIT. lia.
  - unfold ContentScript.playAutomaticMatch.
    apply playRounds_round; [ lia | cbn; unfold ContentScript.ROUND_LIMIT; lia ].
Qed.

(** X18.  Under the operations of the automation (observations,
    responses, screenshots, completed Scrape rounds, detected new
    games, Auto Play matches) the round counter never leaves the range
    from 1 to [ROUND_LIMIT], and every value it takes after a round of
    an Auto Play match is in that range. *)
Theorem round_counter_stays_in_range
        (findAddress : json -> option string)
        (inferCountryFromAddress : string -> option string)
        (ops : list ContentScript.Operation) (envs : list ContentScript.RoundEnv)
        (now : Z) (idle : string) :
  let st := ContentScript.performAll findAddress inferCountryFromAddress ops
              (ContentScript.initial now idle) in
  1 <= ContentScript.currentRound st <= ContentScript.ROUND_LIMIT /\
  Forall (fun r => 1 <= r <= ContentScript.ROUND_LIMIT)
         (snd (fst (ContentScript.playAutomaticMatch envs st))).
Proof.
  cbn zeta.
  assert (Hrange : 1 <= ContentScript.currentRound
                          (ContentScript.performAll findAddress inferCountryFromAddress ops
                             (ContentScript.initial now idle))
                   <= ContentScript.ROUND_LIMIT).
  { unfold ContentScript.performAll.
    assert (Hinit : 1 <= ContentScript.currentRound (ContentScript.initial now idle)
                    <= ContentScript.ROUND_LIMIT)
      by (cbn; unfold ContentScript.ROUND_LIMIT; lia).
    revert Hinit. generalize (ContentScript.initial now idle).
    induction ops as [ | op rest IH ]; intros st H; [ exact H | ].
    cbn [fold_left]. apply IH. now apply perform_keeps_round_range. }
  split; [ exact Hrange | ].
  unfold ContentScript.playAutomaticMatch.
  apply playRounds_round; [ lia | cbn; unfold ContentScript.ROUND_LIMIT; lia ].
Qed.
(** ** Address and place of a response *)

Lemma address_scan_is_fold (v : json) :
  forall best, Address.scan v best
               = fold_left Address.consider (DeepSearchSpec.arrays v) best.
Proof.
  induction v as [ | b | x | s | xs IH | kvs IH ] using json_nested_ind;
    intros best; try reflexivity.
  - cbn [Address.scan DeepSearchSpec.arrays fold_left].
    generalize (Address.consider best xs). clear best.
    induction IH as [ | e rest He _ IHrest ]; intros b; [ reflexivity | ].
    cbn [List.flat_map]. now rewrite fold_left_app, <- He, IHrest.
  - cbn [Address.scan DeepSearchSpec.arrays].
    revert best. induction IH as [ | [k e] rest He _ IHrest ]; intros b; [ reflexivity | ].
    cbn [List.flat_map snd]. cbn [snd] in He. now rewrite fold_left_app, <- He, IHrest.
Qed.

Lemma place_scan_is_fold (v : json) :
  forall best, Place.scan v best
               = fold_left Place.consider (DeepSearchSpec.arrays v) best.
Proof.
  induction v as [ | b | x | s | xs IH | kvs IH ] using json_nested_ind;
    intros best; try reflexivity.
  - cbn [Place.scan DeepSearchSpec.arrays fold_left].
    generalize (Place.consider best xs). clear best.
    induction IH as [ | e rest He _ IHrest ]; intros b; [ reflexivity | ].
    cbn [List.flat_map]. now rewrite fold_left_app, <- He, IHrest.
  - cbn [Place.scan DeepSearchSpec.arrays].
    revert best. induction IH as [ | [k e] rest He _ IHrest ]; intros b; [ reflexivity | ].
    cbn [List.flat_map snd]. cbn [snd] in He. now rewrite fold_left_app, <- He, IHrest.
Qed.

Lemma addressCandidate_spec (xs : list json) (text : string) :
  Address.addressCandidate xs = Some text ->
  JSString.includes text "," = true /\ 5 <= JSString.len text <= 200.
Proof.
  unfold Address.addressCandidate.
  destruct xs as [ | [ | | | s0 | | ] [ | [ | | | s1 | | ] rest ] ]; try discriminate.
  destruct (JSString.includes (JSString.trim s0) ",") eqn:Hc; [ | discriminate ].
  destruct (5 <=? JSString.len (JSString.trim s0)) eqn:H5; [ | discriminate ].
  destruct (JSString.len (JSString.trim s0) <=? 200) eqn:H200; [ | discriminate ].
  intros [= <-]. apply Z.leb_le in H5, H200. auto.
Qed.

Lemma not_empty_of_len (s : string) : 0 < JSString.len s -> String.eqb s "" = false.
Proof.
  intros H. destruct s; [ unfold JSString.len in H; cbn in H; lia | reflexivity ].
Qed.

(** Folding [consider] over arrays, from a [best] that is not the
    empty string: the result is [best] or a candidate of the list, and
    is as long as [best] and as every candidate. *)
Lemma address_fold (l : list (list json)) :
  forall best,
    match best with Some b => 0 < JSString.len b | None => True end ->
    match fold_left Address.consider l best with
    | None => best = None /\ forall xs, In xs l -> Address.addressCandidate xs = None
    | Some r =>
        0 < JSString.len r /\
        (best = Some r \/ exists xs, In xs l /\ Address.addressCandidate xs = Some r) /\
        (forall b, best = Some b -> JSString.len b <= JSString.len r) /\
        (forall xs text, In xs l -> Address.addressCandidate xs = Some text ->
                         JSString.len text <= JSString.len r)
    end.
Proof.
  induction l as [ | xs rest IH ]; intros best Hbest.
  - cbn [fold_left]. destruct best as [ b | ].
    + split; [ exact Hbest | ]. split; [ now left | ].
      split; [ intros b' [= <-]; lia | intros xs text [] ].
    + split; [ reflexivity | intros xs [] ].
  - cbn [fold_left].
    assert (Hnext : match Address.consider best xs with
                    | Some b => 0 < JSString.len b
                    | None => True
                    end).
    { unfold Address.consider.
      destruct (Address.addressCandidate xs) as [ text | ] eqn:E; [ | exact Hbest ].
      apply addressCandidate_spec in E as [_ Hlen].
      unfold Address.longer. destruct best as [ b | ]; [ | lia ].
      destruct (String.eqb b "" || (JSString.len b <? JSString.len text)); [ lia | exact Hbest ]. }
    specialize (IH (Address.consider best xs) Hnext).
    destruct (fold_left Address.consider rest (Address.consider best xs)) as [ r | ].
    + destruct IH as (Hr & Horigin & Hmono & Hmax).
      split; [ exact Hr | ].
      unfold Address.consider in Horigin, Hmono.
      destruct (Address.addressCandidate xs) as [ text | ] eqn:E.
      * pose proof (addressCandidate_spec xs text E) as [_ Htext].
        unfold Address.longer in Horigin, Hmono.
        destruct best as [ b | ].
        -- rewrite (not_empty_of_len b Hbest) in Horigin, Hmono. cbn [orb] in *.
           destruct (JSString.len b <? JSString.len text) eqn:Hlt.
           ++ apply Z.ltb_lt in Hlt. specialize (Hmono text eq_refl).
              split.
              { right. destruct Horigin as [ [= <-] | (ys & Hys & Hc) ].
                - exists xs. split; [ now left | exact E ].
                - exists ys. split; [ now right | exact Hc ]. }
              split; [ intros b' [= <-]; lia | ].
              intros ys t [ <- | Hin ] Hc; [ | now apply (Hmax ys) ].
              rewrite E in Hc. injection Hc as <-. exact Hmono.
           ++ apply Z.ltb_ge in Hlt. specialize (Hmono b eq_refl).
              split.
              { destruct Horigin as [ H | (ys & Hys & Hc) ]; [ now left | ].
                right. exists ys. split; [ now right | exact Hc ]. }
              split; [ intros b' [= <-]; exact Hmono | ].
              intros ys t [ <- | Hin ] Hc; [ | now apply (Hmax ys) ].
              rewrite E in Hc. injection Hc as <-. lia.
        -- specialize (Hmono text eq_refl).
           split.
           { right. destruct Horigin as [ [= <-] | (ys & Hys & Hc) ].
             - exists xs. split; [ now left | exact E ].
             - exists ys. split; [ now right | exact Hc ]. }
           split; [ discriminate | ].
           intros ys t [ <- | Hin ] Hc; [ | now apply (Hmax ys) ].
           rewrite E in Hc. injection Hc as <-. exact Hmono.
      * split.
        { destruct Horigin as [ H | (ys & Hys & Hc) ]; [ now left | ].
          right. exists ys. split; [ now right | exact Hc ]. }
        split; [ exact Hmono | ].
        intros ys t [ <- | Hin ] Hc; [ congruence | now apply (Hmax ys) ].
    + destruct IH as (Hnone & Hall).
      unfold Address.consider in Hnone.
      destruct (Address.addressCandidate xs) as [ text | ] eqn:E.
      * unfold Address.longer in Hnone. destruct best as [ b | ];
          [ destruct (String.eqb b "" || (JSString.len b <? JSString.len text)) | ];
          discriminate Hnone.
      * split; [ exact Hnone | ].
        intros ys [ <- | Hin ]; [ exact E | now apply Hall ].
Qed.

(** X19.  [findAddressDeep] returns the longest address-like text of
    the response: its result is the trimmed first string of an array
    that starts with two strings, has a comma and 5 to 200 code units,
    and no other such text in the response is longer; it returns
    [null] exactly when the response holds no such text. *)
Theorem findAddressDeep_is_the_longest_candidate (node : json) :
  match Address.findAddressDeep node with
  | None => forall xs, In xs (DeepSearchSpec.arrays node) ->
                       Address.addressCandidate xs = None
  | Some best =>
      JSString.includes best "," = true /\
      5 <= JSString.len best <= 200 /\
      (exists xs, In xs (DeepSearchSpec.arrays node)
                  /\ Address.addressCandidate xs = Some best) /\
      forall xs text, In xs (DeepSearchSpec.arrays node) ->
                      Address.addressCandidate xs = Some text ->
                      JSString.len text <= JSString.len best
  end.
Proof.
  unfold Address.findAddressDeep. rewrite address_scan_is_fold.
  pose proof (address_fold (DeepSearchSpec.arrays node) None I) as H.
  destruct (fold_left Address.consider (DeepSearchSpec.arrays node) None) as [ best | ].
  - destruct H as (_ & [ Hbest | (xs & Hin & Hc) ] & _ & Hmax); [ discriminate Hbest | ].
    destruct (addressCandidate_spec xs best Hc) as [Hcomma Hlen].
    split; [ exact Hcomma | ]. split; [ exact Hlen | ].
    split; [ now exists xs | exact Hmax ].
  - exact (proj2 H).
Qed.

Lemma place_fold (l : list (list json)) :
  forall best,
    match fold_left Place.consider l best with
    | None => best = None /\ forall xs, In xs l -> Place.candidate xs = None
    | Some r => best = Some r \/ exists xs, In xs l /\ Place.candidate xs = Some r
    end.
Proof.
  induction l as [ | xs rest IH ]; intros best.
  - cbn [fold_left]. destruct best; [ now left | split; [ reflexivity | intros xs [] ] ].
  - cbn [fold_left]. specialize (IH (Place.consider best xs)).
    destruct (fold_left Place.consider rest (Place.consider best xs)) as [ r | ].
    + destruct IH as [ H | (ys & Hys & Hc) ];
        [ | right; exists ys; split; [ now right | exact Hc ] ].
      unfold Place.consider in H.
      destruct (Place.candidate xs) as [ c | ] eqn:E; [ | now left ].
      unfold Place.better in H. destruct best as [ b | ].
      * destruct (Place.score c <? Place.score b)%float; [ | now left ].
        right. exists xs. split; [ now left | congruence ].
      * right. exists xs. split; [ now left | congruence ].
    + destruct IH as (Hnone & Hall).
      unfold Place.consider in Hnone.
      destruct (Place.candidate xs) as [ c | ] eqn:E.
      * unfold Place.better in Hnone.
        destruct best as [ b | ]; [ destruct (Place.score c <? Place.score b)%float | ];
          discriminate Hnone.
      * split; [ exact Hnone | ].
        intros ys [ <- | Hin ]; [ exact E | now apply Hall ].
Qed.

Lemma candidate_spec (xs : list json) (c : Place.Candidate) :
  Place.candidate xs = Some c ->
  Place.looksLikePlace (Place.place c) = true /\
  exists s0 s1 rest, xs = JStr s0 :: JStr s1 :: rest /\ JSString.len s1 <= 5 /\
                     Place.place c = JSString.trim s0 /\
                     Place.lang c = JSString.toLowerCase s1.
Proof.
  unfold Place.candidate.
  destruct xs as [ | [ | | | s0 | | ] [ | [ | | | s1 | | ] rest ] ]; try discriminate.
  destruct (JSString.len s1 <=? 5) eqn:H5; [ | discriminate ].
  destruct (Place.looksLikePlace (JSString.trim s0)) eqn:Hp; [ | discriminate ].
  intros [= <-]. cbn. split; [ exact Hp | ].
  exists s0, s1, rest. apply Z.leb_le in H5. auto.
Qed.

(** X20.  What [findPlaceCandidate] returns is taken from the
    response and looks like a place: place and language are the
    trimmed first and the lower-cased second string of an array that
    starts with two strings, the second of at most 5 code units, and
    the place has a comma or white space, at least 3 code units and no
    copyright mark.  It returns [null] exactly when the response holds
    no such array. *)
Theorem findPlaceCandidate_returns_a_place (node : json) :
  match Place.findPlaceCandidate node with
  | None => forall xs, In xs (DeepSearchSpec.arrays node) -> Place.candidate xs = None
  | Some (place, lang) =>
      Place.looksLikePlace place = true /\
      exists s0 s1 rest,
        In (JStr s0 :: JStr s1 :: rest) (DeepSearchSpec.arrays node) /\
        JSString.len s1 <= 5 /\
        place = JSString.trim s0 /\ lang = JSString.toLowerCase s1
  end.
Proof.
  unfold Place.findPlaceCandidate. rewrite place_scan_is_fold.
  pose proof (place_fold (DeepSearchSpec.arrays node) None) as H.
  destruct (fold_left Place.consider (DeepSearchSpec.arrays node) None) as [ best | ].
  - destruct H as [ H | (xs & Hin & Hc) ]; [ discriminate H | ].
    destruct (candidate_spec xs best Hc) as (Hlooks & s0 & s1 & rest & -> & Hlen & Hp & Hl).
    split; [ exact Hlooks | ]. exists s0, s1, rest. auto.
  - exact (proj2 H).
Qed.
(** ** The country of an address *)

Lemma last_In {A : Type} (l : list A) (x : A) : last l = Some x -> In x l.
Proof.
  induction l as [ | y rest IH ]; [ discriminate | ].
  destruct rest as [ | z rest ].
  - intros [= <-]. now left.
  - intros H. right. now apply IH.
Qed.

Lemma trimStart_starts (s : string) :
  match JSString.trimStart s with
  | String c _ => JSString.isWhiteSpace c = false
  | EmptyString => True
  end.
Proof.
  induction s as [ | c t IH ]; [ exact I | ].
  cbn [JSString.trimStart]. destruct (JSString.isWhiteSpace c) eqn:E; [ exact IH | exact E ].
Qed.

Lemma trimStart_id (s : string) :
  match s with
  | String c _ => JSString.isWhiteSpace c = false
  | EmptyString => True
  end ->
  JSString.trimStart s = s.
Proof. destruct s as [ | c t ]; [ reflexivity | ]. cbn. now intros ->. Qed.

Lemma trimEnd_starts (s : string) :
  match s with
  | String c _ => JSString.isWhiteSpace c = false
  | EmptyString => True
  end ->
  match JSString.trimEnd s with
  | String c _ => JSString.isWhiteSpace c = false
  | EmptyString => True
  end.
Proof.
  destruct s as [ | c t ]; [ intros _; exact I | ].
  intros Hc. cbn [JSString.trimEnd].
  destruct (JSString.trimEnd t); [ now rewrite Hc | exact Hc ].
Qed.

Lemma trimEnd_cons (c : ascii) (t : string) :
  JSString.trimEnd (String c t)
  = match JSString.trimEnd t with
    | EmptyString => if JSString.isWhiteSpace c then EmptyString else String c EmptyString
    | t' => String c t'
    end.
Proof. reflexivity. Qed.

Lemma trimEnd_idempotent (s : string) :
  JSString.trimEnd (JSString.trimEnd s) = JSString.trimEnd s.
Proof.
  induction s as [ | c t IH ]; [ reflexivity | ].
  rewrite (trimEnd_cons c t).
  destruct (JSString.trimEnd t) as [ | d u ] eqn:E.
  - destruct (JSString.isWhiteSpace c) eqn:Hc; [ reflexivity | ].
    rewrite trimEnd_cons. cbn [JSString.trimEnd]. now rewrite Hc.
  - rewrite (trimEnd_cons c (String d u)). now rewrite IH.
Qed.

Lemma trim_idempotent (s : string) : JSString.trim (JSString.trim s) = JSString.trim s.
Proof.
  unfold JSString.trim.
  rewrite (trimStart_id (JSString.trimEnd (JSString.trimStart s))).
  - apply trimEnd_idempotent.
  - apply trimEnd_starts, trimStart_starts.
Qed.

Lemma trimStart_chars (P : ascii -> bool) (s : string) :
  forallb P (list_ascii_of_string s) = true ->
  forallb P (list_ascii_of_string (JSString.trimStart s)) = true.
Proof.
  induction s as [ | c t IH ]; [ reflexivity | ].
  cbn [JSString.trimStart list_ascii_of_string forallb].
  intros H. apply andb_true_iff in H as [Hc Ht].
  destruct (JSString.isWhiteSpace c); [ now apply IH | ].
  cbn [list_ascii_of_string forallb]. now rewrite Hc, Ht.
Qed.

Lemma trimEnd_chars (P : ascii -> bool) (s : string) :
  forallb P (list_ascii_of_string s) = true ->
  forallb P (list_ascii_of_string (JSString.trimEnd s)) = true.
Proof.
  induction s as [ | c t IH ]; [ reflexivity | ].
  cbn [JSString.trimEnd list_ascii_of_string forallb].
  intros H. apply andb_true_iff in H as [Hc Ht]. specialize (IH Ht).
  destruct (JSString.trimEnd t) as [ | d u ].
  - destruct (JSString.isWhiteSpace c); [ reflexivity | ].
    cbn [list_ascii_of_string forallb]. now rewrite Hc.
  - cbn [list_ascii_of_string forallb] in *. now rewrite Hc, IH.
Qed.

Lemma trim_chars (P : ascii -> bool) (s : string) :
  forallb P (list_ascii_of_string s) = true ->
  forallb P (list_ascii_of_string (JSString.trim s)) = true.
Proof. intros H. now apply trimEnd_chars, trimStart_chars. Qed.

Lemma split_not_nil (s : string) : Address.split s <> [].
Proof.
  destruct s as [ | c t ]; [ discriminate | ].
  cbn [Address.split]. destruct (Ascii.eqb c ","); [ discriminate | ].
  destruct (Address.split t); discriminate.
Qed.

Lemma split_no_comma (s : string) :
  Forall (fun p => forallb (fun c => negb (Ascii.eqb c ",")) (list_ascii_of_string p) = true)
         (Address.split s).
Proof.
  induction s as [ | c t IH ]; [ repeat constructor | ].
  cbn [Address.split]. destruct (Ascii.eqb c ",") eqn:E.
  - constructor; [ reflexivity | exact IH ].
  - destruct (Address.split t) as [ | p rest ]; [ repeat constructor; cbn; now rewrite E | ].
    inversion IH as [ | ? ? Hp Hrest ]; subst.
    constructor; [ | exact Hrest ].
    cbn [list_ascii_of_string forallb]. now rewrite E, Hp.
Qed.

Lemma split_one (s : string) :
  forallb (fun c => negb (Ascii.eqb c ",")) (list_ascii_of_string s) = true ->
  Address.split s = [s].
Proof.
  induction s as [ | c t IH ]; [ reflexivity | ].
  cbn [list_ascii_of_string forallb]. intros H.
  apply andb_true_iff in H as [Hc Ht]. apply negb_true_iff in Hc.
  cbn [Address.split]. now rewrite Hc, (IH Ht).
Qed.

(** A part of an address: not empty, without comma, trimmed. *)
Lemma parts_spec (address part : string) :
  In part (Address.parts address) ->
  String.eqb part "" = false /\
  forallb (fun c => negb (Ascii.eqb c ",")) (list_ascii_of_string part) = true /\
  JSString.trim part = part.
Proof.
  unfold Address.parts. intros H.
  apply List.filter_In in H as [Hin Hne]. apply negb_true_iff in Hne.
  apply List.in_map_iff in Hin as (p & <- & Hp).
  split; [ exact Hne | ].
  split; [ | apply trim_idempotent ].
  apply trim_chars.
  pose proof (split_no_comma address) as Hall.
  rewrite List.Forall_forall in Hall. now apply Hall.
Qed.

Lemma parts_of_part (part : string) :
  String.eqb part "" = false ->
  forallb (fun c => negb (Ascii.eqb c ",")) (list_ascii_of_string part) = true ->
  JSString.trim part = part ->
  Address.parts part = [part].
Proof.
  intros Hne Hcomma Htrim. unfold Address.parts.
  rewrite (split_one part Hcomma). cbn [List.map List.filter].
  now rewrite Htrim, Hne.
Qed.

(** On a text that is a single part, the function decides on the
    text itself. *)
Lemma infer_of_part (part : string) :
  String.eqb part "" = false ->
  forallb (fun c => negb (Ascii.eqb c ",")) (list_ascii_of_string part) = true ->
  JSString.trim part = part ->
  Address.inferCountryFromAddress part
  = if Address.isTwoLetterCode part then Some (Address.Text (Address.toUpperCase part))
    else match Address.lookupCountry (JSString.trim (JSString.toLowerCase part))
                                     Address.countryMappings with
         | Some code => Some (Address.Text code)
         | None =>
             if Address.inherited (JSString.trim (JSString.toLowerCase part))
             then Some (Address.Inherited (JSString.trim (JSString.toLowerCase part)))
             else Some (Address.Text part)
         end.
Proof.
  intros Hne Hcomma Htrim. unfold Address.inferCountryFromAddress.
  now rewrite Hne, (parts_of_part part Hne Hcomma Htrim).
Qed.

Lemma upper_letter (c : ascii) :
  Address.isAsciiLetter c = true ->
  Address.isAsciiLetter (Address.upperChar c) = true /\
  Address.upperChar (Address.upperChar c) = Address.upperChar c /\
  JSString.isWhiteSpace (Address.upperChar c) = false /\
  Ascii.eqb (Address.upperChar c) "," = false.
Proof.
  destruct c as [b0 b1 b2 b3 b4 b5 b6 b7].
  destruct b0, b1, b2, b3, b4, b5, b6, b7; vm_compute; intros H;
    solve [ discriminate H | repeat split ].
Qed.

Lemma two_letter_code_is_fixed (part : string) :
  Address.isTwoLetterCode part = true ->
  Address.inferCountryFromAddress (Address.toUpperCase part)
  = Some (Address.Text (Address.toUpperCase part)).
Proof.
  unfold Address.isTwoLetterCode. intros H. apply andb_true_iff in H as [Hlen Hletters].
  destruct part as [ | a [ | b [ | c rest ] ] ];
    try (unfold JSString.len in Hlen; cbn in Hlen; apply Z.eqb_eq in Hlen; lia).
  cbn [list_ascii_of_string forallb] in Hletters.
  apply andb_true_iff in Hletters as [Ha Hb]. apply andb_true_iff in Hb as [Hb _].
  destruct (upper_letter a Ha) as (Ha1 & Ha2 & Ha3 & Ha4).
  destruct (upper_letter b Hb) as (Hb1 & Hb2 & Hb3 & Hb4).
  cbn [Address.toUpperCase].
  rewrite infer_of_part.
  - unfold Address.isTwoLetterCode. cbn [list_ascii_of_string forallb].
    rewrite Ha1, Hb1. cbn [Address.toUpperCase]. now rewrite Ha2, Hb2.
  - reflexivity.
  - cbn [list_ascii_of_string forallb]. now rewrite Ha4, Hb4.
  - unfold JSString.trim. cbn [JSString.trimStart]. rewrite Ha3.
    cbn [JSString.trimEnd]. now rewrite Hb3.
Qed.

Lemma lookupCountry_In (key code : string) (table : list (string * string)) :
  Address.lookupCountry key table = Some code -> In code (List.map snd table).
Proof.
  induction table as [ | [k v] rest IH ]; [ discriminate | ].
  cbn [Address.lookupCountry List.map snd].
  destruct (String.eqb key k); [ intros [= <-]; now left | intros H; right; now apply IH ].
Qed.

Lemma codes_are_fixed :
  Forall (fun code => Address.inferCountryFromAddress code = Some (Address.Text code))
         (List.map snd Address.countryMappings).
Proof.
  unfold Address.countryMappings. cbn [List.map snd].
  repeat (constructor; [ vm_compute; reflexivity | ]). constructor.
Qed.

(** X21.  [inferCountryFromAddress] is idempotent: a text it returns
    (the upper-cased two-letter code, the code of the table, or the
    last part of the address handed on for the backend to resolve) is
    returned unchanged when it is given to the function again. *)
Theorem inferCountryFromAddress_is_idempotent (address country : string) :
  Address.inferCountryFromAddress address = Some (Address.Text country) ->
  Address.inferCountryFromAddress country = Some (Address.Text country).
Proof.
  unfold Address.inferCountryFromAddress at 1.
  destruct (String.eqb address ""); [ discriminate | ].
  destruct (last (Address.parts address)) as [ lastPart | ] eqn:Hlast; [ | discriminate ].
  destruct (Address.isTwoLetterCode lastPart) eqn:Htwo.
  { intros [= <-]. now apply two_letter_code_is_fixed. }
  destruct (Address.lookupCountry _ Address.countryMappings) as [ code | ] eqn:Hlook.
  { intros [= <-]. apply lookupCountry_In in Hlook.
    pose proof codes_are_fixed as Hall. rewrite List.Forall_forall in Hall.
    now apply Hall. }
  destruct (Address.inherited _) eqn:Hinh; [ discriminate | ].
  intros [= <-].
  destruct (parts_spec address lastPart (last_In _ _ Hlast)) as (Hne & Hcomma & Htrim).
  rewrite (infer_of_part lastPart Hne Hcomma Htrim).
  now rewrite Htwo, Hlook, Hinh.
Qed.

Lemma inferCountryFromAddress_is_idempotent_witness :
  Address.inferCountryFromAddress "221B Baker Street, London, England"
  = Some (Address.Text "GB") /\
  Address.inferCountryFromAddress "GB" = Some (Address.Text "GB").
Proof.
  split; [ vm_compute; reflexivity | ].
  apply (inferCountryFromAddress_is_idempotent "221B Baker Street, London, England").
  vm_compute. reflexivity.
Defined.




(** ** Duplicate frames *)

(** X23.  [simpleImageHash] reads the sampled characters only: two
    texts of the same length that agree at the positions 0, step,
    2 step, ... (step being a hundredth of the length, rounded down)
    have the same hash, whatever they hold in between. *)
Theorem simpleImageHash_reads_the_samples_only (a b : string) :
  JSString.len a = JSString.len b ->
  Dedup.sampled a = Dedup.sampled b ->
  Dedup.simpleImageHash a = Dedup.simpleImageHash b.
Proof.
  intros Hlen Hsampled. unfold Dedup.simpleImageHash.
  rewrite Hlen, Hsampled.
  destruct (JSString.len b <? 100) eqn:Hshort; [ now rewrite !orb_true_r | ].
  apply Z.ltb_ge in Hshort.
  rewrite !not_empty_of_len by lia. reflexivity.
Qed.

Lemma simpleImageHash_reads_the_samples_only_witness :
  Cases.retouched <> Samples.variedText /\
  Dedup.simpleImageHash Cases.retouched = Dedup.simpleImageHash Samples.variedText.
Proof.
  split.
  - intros H. apply String.eqb_eq in H. vm_compute in H. discriminate H.
  - apply simpleImageHash_reads_the_samples_only; vm_compute; reflexivity.
Defined.

Lemma shouldSaveImage_invalid (frame : string) (st : Dedup.State) :
  Image.isInvalidImage frame = true -> Dedup.shouldSaveImage frame st = (false, st).
Proof. intros H. unfold Dedup.shouldSaveImage. now rewrite H. Qed.

Lemma shouldSaveImage_duplicate (frame : string) (st : Dedup.State) :
  Image.isInvalidImage frame = false ->
  Dedup.lastImageHash st = Dedup.simpleImageHash frame ->
  Dedup.shouldSaveImage frame st
  = (false, Dedup.mkState (Dedup.lastImageHash st) (Dedup.consecutiveDuplicates st + 1)).
Proof.
  intros Hvalid Hlast. unfold Dedup.shouldSaveImage. rewrite Hvalid.
  now rewrite bool_decide_eq_true_2.
Qed.

(** X24.  While the frame does not change, nothing is saved and the
    repetitions are counted: after a frame was accepted, a sequence of
    captures each of which is that frame again or an invalid picture
    is rejected throughout, the stored hash stays, and
    [consecutiveDuplicates] grows by the number of valid captures;
    invalid pictures do not count. *)
Theorem unchanged_frames_are_counted (frame : string) (frames : list string)
        (st : Dedup.State) :
  Image.isInvalidImage frame = false ->
  Dedup.lastImageHash st = Dedup.simpleImageHash frame ->
  Forall (fun f => f = frame \/ Image.isInvalidImage f = true) frames ->
  Dedup.shouldSaveImages frames st
  = (List.map (fun _ => false) frames,
     Dedup.mkState (Dedup.lastImageHash st)
       (Dedup.consecutiveDuplicates st
        + Z.of_nat (length (List.filter (fun f => negb (Image.isInvalidImage f)) frames)))).
Proof.
  intros Hvalid Hlast Hall. revert st Hlast.
  induction Hall as [ | f rest Hf _ IH ]; intros st Hlast.
  - cbn. rewrite Z.add_0_r. now destruct st.
  - cbn [Dedup.shouldSaveImages List.map List.filter].
    destruct (Image.isInvalidImage f) eqn:Hinvalid.
    + rewrite (shouldSaveImage_invalid f st Hinvalid). cbn [negb].
      now rewrite (IH st Hlast).
    + destruct Hf as [ -> | Hf ]; [ | congruence ].
      rewrite (shouldSaveImage_duplicate frame st Hvalid Hlast). cbn [negb].
      rewrite IH by exact Hlast. cbn [Dedup.lastImageHash Dedup.consecutiveDuplicates length].
      do 2 f_equal. lia.
Qed.

Lemma unchanged_frames_are_counted_witness :
  let st := snd (Dedup.shouldSaveImage Samples.variedText Dedup.initial) in
  Dedup.shouldSaveImages [Samples.variedText; "AAAA"; Samples.variedText] st
  = ([false; false; false], Dedup.mkState (Some "4e996035") 2).
Proof.
  refine (eq_trans (unchanged_frames_are_counted Samples.variedText
                      [Samples.variedText; "AAAA"; Samples.variedText]
                      (snd (Dedup.shouldSaveImage Samples.variedText Dedup.initial))
                      _ _ _) _).
  - vm_compute. reflexivity.
  - vm_compute. reflexivity.
  - repeat constructor; solve [ now left | right; vm_compute; reflexivity ].
  - vm_compute. reflexivity.
Defined.

(** X25.  The same frame is never saved twice in a row: whatever the
    state, when a valid frame is offered twice the second answer is
    no, the stored hash is that of the frame, and if the first answer
    was yes the counter stands at 1. *)
Theorem same_frame_is_not_saved_twice (frame : string) (st : Dedup.State) :
  Image.isInvalidImage frame = false ->
  let first := Dedup.shouldSaveImage frame st in
  let second := Dedup.shouldSaveImage frame (snd first) in
  fst second = false /\
  Dedup.lastImageHash (snd second) = Dedup.simpleImageHash frame /\
  (fst first = true -> Dedup.consecutiveDuplicates (snd second) = 1).
Proof.
  intros Hvalid. cbn zeta.
  assert (H1 : Dedup.lastImageHash (snd (Dedup.shouldSaveImage frame st))
               = Dedup.simpleImageHash frame
               /\ (fst (Dedup.shouldSaveImage frame st) = true ->
                   Dedup.consecutiveDuplicates (snd (Dedup.shouldSaveImage frame st)) = 0)).
  { unfold Dedup.shouldSaveImage. rewrite Hvalid.
    destruct (decide (Dedup.simpleImageHash frame = Dedup.lastImageHash st)) as [ Heq | Hne ].
    - rewrite (bool_decide_eq_true_2 _ Heq). cbn. split; [ congruence | discriminate ].
    - rewrite (bool_decide_eq_false_2 _ Hne). cbn. now split. }
  destruct H1 as [Hhash Hzero].
  rewrite (shouldSaveImage_duplicate frame (snd (Dedup.shouldSaveImage frame st)) Hvalid Hhash).
  cbn [fst snd Dedup.lastImageHash Dedup.consecutiveDuplicates].
  split; [ reflexivity | ]. split; [ exact Hhash | ].
  intros Hfirst. now rewrite (Hzero Hfirst).
Qed.

Lemma same_frame_is_not_saved_twice_witness :
  fst (Dedup.shouldSaveImage Samples.variedText Dedup.initial) = true /\
  fst (Dedup.shouldSaveImage Samples.variedText
         (snd (Dedup.shouldSaveImage Samples.variedText Dedup.initial))) = false.
Proof.
  split; [ vm_compute; reflexivity | ].
  apply (same_frame_is_not_saved_twice Samples.variedText Dedup.initial).
  vm_compute. reflexivity.
Defined.
(** ** The Scrape loop *)




Lemma captureAndGuess_submitted (env : Scrape.CycleEnv) (p : ContentScript.State)
      (w : Scrape.Watch) (done : list Scrape.Action) :
  fst (fst (Scrape.captureAndGuess env p w done)) = Scrape.Completed ->
  In Scrape.SubmitGuess (snd (Scrape.captureAndGuess env p w done)).
Proof.
  unfold Scrape.captureAndGuess.
  destruct (Scrape.frame env) as [ image | message ]; [ | discriminate ].
  destruct (Dedup.shouldSaveImage image (Scrape.frames w)) as [save counted].
  destruct (if save then _ else _) as [ [p1 w2] saved ].
  destruct (Scrape.submitError env); [ discriminate | ].
  intros _. cbn [snd].
  apply List.in_or_app; right. apply List.in_or_app; right.
  apply List.in_or_app; right. right. now left.
Qed.

Lemma completed_pass_submitted (env : Scrape.CycleEnv) (st : Scrape.State) :
  fst (fst (Scrape.cycle env st)) = Scrape.Completed ->
  In Scrape.SubmitGuess (snd (Scrape.cycle env st)).
Proof.
  unfold Scrape.cycle.
  destruct (Scrape.isPageStuck _ _); [ discriminate | ].
  destruct (Scrape.MAX_CONSECUTIVE_DUPLICATES <=? _); [ discriminate | ].
  destruct (Scrape.sceneReadyAt env) as [ ready | ]; [ | discriminate ].
  destruct (if Scrape.areCoordinatesStale _ _ && _ then _ else _) as [p1 asked].
  destruct (ContentScript.latestStreetViewMetadata p1)
    as [ [ [ lat | ] [ lon | ] country address code photo ] | ];
    try apply captureAndGuess_submitted;
    (destruct (Scrape.MAX_NULL_COORDS_BEFORE_RECONNECT <=? _);
     [ discriminate | apply captureAndGuess_submitted ]).
Qed.

Lemma saveCurrentScreenshot_keeps_round (silent : bool) (env : ContentScript.ScreenshotEnv)
      (st : ContentScript.State) :
  ContentScript.currentRound (snd (fst (ContentScript.saveCurrentScreenshot silent env st)))
  = ContentScript.currentRound st.
Proof.
  unfold ContentScript.saveCurrentScreenshot.
  destruct (negb (ContentScript.screenshotApiAvailable st)); [ reflexivity | ].
  destruct (ContentScript.capture env) as [ image | message ];
    [ | destruct silent; reflexivity ].
  destruct (ContentScript.reply env) as [ response | message ];
    [ | destruct silent; reflexivity ].
  destruct (match response with
            | Some r => ContentScript.sr_success r
            | None => false
            end); [ reflexivity | ].
  destruct (ContentScript.endpointMissing response); [ | reflexivity ].
  destruct silent; reflexivity.
Qed.

Lemma requestDebuggerReconnect_keeps_round (reply : ContentScript.Completion (option bool))
      (now : Z) (p : ContentScript.State) :
  ContentScript.currentRound (snd (Scrape.requestDebuggerReconnect reply now p))
  = ContentScript.currentRound p.
Proof. destruct reply as [ [ [ | ] | ] | message ]; reflexivity. Qed.

Lemma captureAndGuess_round (env : Scrape.CycleEnv) (p : ContentScript.State)
      (w : Scrape.Watch) (done : list Scrape.Action) :
  let r := Scrape.captureAndGuess env p w done in
  ContentScript.currentRound (Scrape.page (snd (fst r)))
  = match fst (fst r) with
    | Scrape.Completed =>
        if ContentScript.ROUND_LIMIT <? ContentScript.currentRound p + 1 then 1
        else ContentScript.currentRound p + 1
    | _ => ContentScript.currentRound p
    end.
Proof.
  cbn zeta. unfold Scrape.captureAndGuess.
  destruct (Scrape.frame env) as [ image | message ]; [ | reflexivity ].
  destruct (Dedup.shouldSaveImage image (Scrape.frames w)) as [save counted].
  assert (Hsaved : forall r : ContentScript.State * Scrape.Watch * list Scrape.Action,
             r = (if save
                  then match ContentScript.saveCurrentScreenshot true (Scrape.screenshot env) p with
                       | (ContentScript.Returned _, p', effects) =>
                           (p', Scrape.markStreetViewChanged (Scrape.nowSaved env)
                                  (Scrape.setFrames counted w),
                            List.map Scrape.Save effects)
                       | (ContentScript.Threw _, p', effects) =>
                           (p', Scrape.setFrames counted w, List.map Scrape.Save effects)
                       end
                  else (p, Scrape.setFrames counted w, [])) ->
             ContentScript.currentRound (fst (fst r)) = ContentScript.currentRound p).
  { intros r ->. destruct save; [ | reflexivity ].
    pose proof (saveCurrentScreenshot_keeps_round true (Scrape.screenshot env) p) as H.
    destruct (ContentScript.saveCurrentScreenshot true (Scrape.screenshot env) p)
      as [ [ [ result | message ] p' ] effects ]; exact H. }
  specialize (Hsaved _ eq_refl).
  destruct (if save then _ else _) as [ [p1 w2] saved ]. cbn [fst snd] in Hsaved.
  assert (Hp2 : ContentScript.currentRound
                  (match Scrape.centerMarker env with
                   | ContentScript.Returned position => ContentScript.setGuess position p1
                   | ContentScript.Threw _ => p1
                   end) = ContentScript.currentRound p).
  { destruct (Scrape.centerMarker env); exact Hsaved. }
  destruct (Scrape.submitError env); cbn [fst snd Scrape.page]; [ exact Hp2 | ].
  now rewrite finishScrapeRound_round, Hp2.
Qed.

Lemma round_counter_of_pass (env : Scrape.CycleEnv) (st : Scrape.State) :
  let before := ContentScript.currentRound (Scrape.page st) in
  ContentScript.currentRound (Scrape.page (snd (fst (Scrape.cycle env st))))
  = match fst (fst (Scrape.cycle env st)) with
    | Scrape.Completed => if ContentScript.ROUND_LIMIT <? before + 1 then 1 else before + 1
    | _ => before
    end.
Proof.
  cbn zeta. unfold Scrape.cycle.
  destruct (Scrape.isPageStuck _ _); [ reflexivity | ].
  destruct (Scrape.MAX_CONSECUTIVE_DUPLICATES <=? _); [ reflexivity | ].
  destruct (Scrape.sceneReadyAt env) as [ ready | ]; [ | reflexivity ].
  assert (Hp1 : forall r : ContentScript.State * list Scrape.Action,
             r = (if Scrape.areCoordinatesStale (Scrape.nowAfterSettle env) (Scrape.page st)
                     && (Scrape.scrapeActive (Scrape.markStreetViewChanged ready (Scrape.watch st))
                         || Scrape.autoPlayActive
                              (Scrape.markStreetViewChanged ready (Scrape.watch st)))
                  then (snd (Scrape.requestDebuggerReconnect
                               (Scrape.staleReconnect env) (Scrape.nowStaleReconnected env)
                               (ContentScript.updateStatus Scrape.staleMessage (Scrape.page st))),
                        [Scrape.ReconnectDebugger])
                  else (Scrape.page st, [])) ->
             ContentScript.currentRound (fst r) = ContentScript.currentRound (Scrape.page st)).
  { intros r ->. destruct (_ && _); [ | reflexivity ].
    cbn [fst]. now rewrite requestDebuggerReconnect_keeps_round. }
  specialize (Hp1 _ eq_refl).
  destruct (if Scrape.areCoordinatesStale _ _ && _ then _ else _) as [p1 asked].
  cbn [fst] in Hp1. rewrite <- Hp1.
  destruct (ContentScript.latestStreetViewMetadata p1)
    as [ [ [ lat | ] [ lon | ] country address code photo ] | ];
    try apply captureAndGuess_round;
    (destruct (Scrape.MAX_NULL_COORDS_BEFORE_RECONNECT <=? _);
     [ cbn [fst snd Scrape.page]; now rewrite requestDebuggerReconnect_keeps_round
     | apply captureAndGuess_round ]).
Qed.

(** X27.  The round counter of the Scrape loop moves only when a guess
    was submitted: after every pass it is what it was, except after a
    pass that ran to its end, where it went one up, or from
    [ROUND_LIMIT] back to 1.  A reload, a scene that does not appear, a
    reconnection, a failed capture or a failed submission leave it
    alone. *)
Theorem round_moves_only_on_a_completed_pass (env : Scrape.CycleEnv) (st : Scrape.State) :
  let before := ContentScript.currentRound (Scrape.page st) in
  let after := ContentScript.currentRound (Scrape.page (snd (fst (Scrape.cycle env st)))) in
  match fst (fst (Scrape.cycle env st)) with
  | Scrape.Completed =>
      after = (if ContentScript.ROUND_LIMIT <? before + 1 then 1 else before + 1)
      /\ In Scrape.SubmitGuess (snd (Scrape.cycle env st))
  | _ => after = before
  end.
Proof.
  cbn zeta. pose proof (round_counter_of_pass env st) as Hround. cbn zeta in Hround.
  destruct (fst (fst (Scrape.cycle env st))) eqn:Houtcome; try exact Hround.
  split; [ exact Hround | ].
  now apply completed_pass_submitted.
Qed.
(** X28.  A healthy pass.  When the page is not stalled, the scene
    appears, the coordinates are fresh and at hand, the captured frame
    is valid and new, the screenshot is saved and the guess is
    submitted, the pass makes exactly these calls, in this order: one
    [SEND_COORDS] with the latest coordinates, the session and the
    round; the capture of the frame; one capture and one
    [SAVE_SCREENSHOT] by [saveCurrentScreenshot]; the marker at the
    centre of the map; the submission.  It runs to its end, the round
    counter goes one up (or from 5 to 1), the status line reports the
    round as completed, and the watchdogs are reset: no unchanged
    frame counted, no missing coordinates counted, scene changed at the
    time the screenshot was saved. *)
Theorem healthy_pass (env : Scrape.CycleEnv) (st : Scrape.State) (ready : Z)
        (meta : Extraction.StreetViewMetadata) (lat lon : float)
        (image saved : string) (response : ContentScript.SaveResponse) :
  Scrape.isPageStuck (Scrape.nowAtStart env) (Scrape.watch st) = false ->
  Dedup.consecutiveDuplicates (Scrape.frames (Scrape.watch st))
  < Scrape.MAX_CONSECUTIVE_DUPLICATES ->
  Scrape.sceneReadyAt env = Some ready ->
  Scrape.areCoordinatesStale (Scrape.nowAfterSettle env) (Scrape.page st) = false ->
  ContentScript.latestStreetViewMetadata (Scrape.page st) = Some meta ->
  Extraction.sv_lat meta = Some lat ->
  Extraction.sv_lon meta = Some lon ->
  Scrape.frame env = ContentScript.Returned image ->
  Image.isInvalidImage image = false ->
  Dedup.simpleImageHash image <> Dedup.lastImageHash (Scrape.frames (Scrape.watch st)) ->
  ContentScript.screenshotApiAvailable (Scrape.page st) = true ->
  ContentScript.capture (Scrape.screenshot env) = ContentScript.Returned saved ->
  ContentScript.reply (Scrape.screenshot env) = ContentScript.Returned (Some response) ->
  ContentScript.sr_success response = true ->
  Scrape.submitError env = None ->
  let round := ContentScript.currentRound (Scrape.page st) in
  let session := ContentScript.currentSessionId (Scrape.page st) in
  let st' := snd (fst (Scrape.cycle env st)) in
  fst (fst (Scrape.cycle env st)) = Scrape.Completed /\
  snd (Scrape.cycle env st)
  = [Scrape.SendCoords lat lon session (ContentScript.roundId round) round;
     Scrape.CaptureFrame;
     Scrape.Save ContentScript.CaptureImage;
     Scrape.Save (ContentScript.SendSaveScreenshot saved session
                                                   (ContentScript.roundId round));
     Scrape.PlaceMarkerAtMapCenter;
     Scrape.SubmitGuess] /\
  ContentScript.currentRound (Scrape.page st')
  = (if ContentScript.ROUND_LIMIT <? round + 1 then 1 else round + 1) /\
  ContentScript.statusText (Scrape.page st')
  = "Scrape: Runde "
    ++ ContentScript.showZ
         ((if ContentScript.ROUND_LIMIT <? round + 1 then 1 else round + 1) - 1)
    ++ " abgeschlossen." /\
  Scrape.frames (Scrape.watch st') = Dedup.mkState (Dedup.simpleImageHash image) 0 /\
  Scrape.consecutiveNullCoords (Scrape.watch st') = 0 /\
  Scrape.lastStreetViewChangeTime (Scrape.watch st') = Scrape.nowSaved env.
Proof.
  intros Hstuck Hdup Hscene Hstale Hmeta Hlat Hlon Hframe Hvalid Hnew Hflag Hcapture Hreply
         Hsuccess Hsubmit.
  cbn zeta. unfold Scrape.cycle.
  rewrite Hstuck.
  replace (Scrape.MAX_CONSECUTIVE_DUPLICATES
           <=? Dedup.consecutiveDuplicates (Scrape.frames (Scrape.watch st)))
    with false by (symmetry; apply Z.leb_gt; exact Hdup).
  rewrite Hscene, Hstale. cbn [andb]. rewrite Hmeta.
  destruct meta as [mlat mlon country address code photo]. cbn in Hlat, Hlon. subst mlat mlon.
  unfold Scrape.captureAndGuess. rewrite Hframe.
  unfold Dedup.shouldSaveImage. rewrite Hvalid.
  cbn [Scrape.frames Scrape.setNullCoords Scrape.markStreetViewChanged].
  rewrite (bool_decide_eq_false_2 _ Hnew).
  unfold ContentScript.saveCurrentScreenshot.
  rewrite Hflag, Hcapture, Hreply, Hsuccess, Hsubmit. cbn [negb].
  destruct (Scrape.centerMarker env) as [ position | message ];
    cbn; repeat split; reflexivity.
Qed.

Lemma healthy_pass_witness :
  let st := Scrape.mkState Cases.located Cases.watching in
  fst (fst (Scrape.cycle Cases.healthy st)) = Scrape.Completed /\
  ContentScript.currentRound (Scrape.page (snd (fst (Scrape.cycle Cases.healthy st)))) = 2 /\
  ContentScript.statusText (Scrape.page (snd (fst (Scrape.cycle Cases.healthy st))))
  = "Scrape: Runde 1 abgeschlossen.".
Proof.
  cbn zeta.
  destruct (healthy_pass Cases.healthy (Scrape.mkState Cases.located Cases.watching)
              1700000001200
              (Extraction.mkMeta (Some 48.8566%float) (Some 2.3522%float) None None None None)
              48.8566 2.3522 Samples.variedText Samples.variedText
              (ContentScript.mkSaveResponse true None None (Some (JStr "saved.jpg"))))
    as (Hdone & _ & Hround & Hstatus & _);
    try reflexivity.
  - vm_compute. discriminate.
  - exact (conj Hdone (conj Hround Hstatus)).
Defined.

(** X29.  Missing coordinates escalate to a reconnection.  In a pass
    that finds no coordinates while [consecutiveNullCoords] already
    stands at 1 or more (the page not being stalled and the scene
    there), the debugger is asked to reconnect, the counter goes back
    to 0 and the pass is cut short: nothing is captured, no guess is
    placed or submitted, no coordinates are sent, and the round counter
    stays. *)
Theorem missing_coordinates_force_a_reconnection (env : Scrape.CycleEnv) (st : Scrape.State)
        (ready : Z) :
  Scrape.isPageStuck (Scrape.nowAtStart env) (Scrape.watch st) = false ->
  Dedup.consecutiveDuplicates (Scrape.frames (Scrape.watch st))
  < Scrape.MAX_CONSECUTIVE_DUPLICATES ->
  Scrape.sceneReadyAt env = Some ready ->
  SpecTerms.captured (ContentScript.latestStreetViewMetadata (Scrape.page st)) = false ->
  1 <= Scrape.consecutiveNullCoords (Scrape.watch st) ->
  let st' := snd (fst (Scrape.cycle env st)) in
  fst (fst (Scrape.cycle env st)) = Scrape.Retry /\
  Scrape.consecutiveNullCoords (Scrape.watch st') = 0 /\
  In Scrape.ReconnectDebugger (snd (Scrape.cycle env st)) /\
  Forall (fun action => action = Scrape.ReconnectDebugger) (snd (Scrape.cycle env st)) /\
  ContentScript.currentRound (Scrape.page st') = ContentScript.currentRound (Scrape.page st).
Proof.
  intros Hstuck Hdup Hscene Hmissing Hcount. cbn zeta.
  pose proof (round_counter_of_pass env st) as Hround.
  unfold Scrape.cycle in *. rewrite Hstuck in *.
  replace (Scrape.MAX_CONSECUTIVE_DUPLICATES
           <=? Dedup.consecutiveDuplicates (Scrape.frames (Scrape.watch st)))
    with false in * by (symmetry; apply Z.leb_gt; exact Hdup).
  rewrite Hscene in *.
  assert (Hp1 : forall r : ContentScript.State * list Scrape.Action,
             r = (if Scrape.areCoordinatesStale (Scrape.nowAfterSettle env) (Scrape.page st)
                     && (Scrape.scrapeActive (Scrape.markStreetViewChanged ready (Scrape.watch st))
                         || Scrape.autoPlayActive
                              (Scrape.markStreetViewChanged ready (Scrape.watch st)))
                  then (snd (Scrape.requestDebuggerReconnect
                               (Scrape.staleReconnect env) (Scrape.nowStaleReconnected env)
                               (ContentScript.updateStatus Scrape.staleMessage (Scrape.page st))),
                        [Scrape.ReconnectDebugger])
                  else (Scrape.page st, [])) ->
             ContentScript.latestStreetViewMetadata (fst r)
             = ContentScript.latestStreetViewMetadata (Scrape.page st)
             /\ Forall (fun action => action = Scrape.ReconnectDebugger) (snd r)).
  { intros r ->. destruct (_ && _); [ | split; [ reflexivity | constructor ] ].
    cbn [fst snd]. split; [ | repeat constructor ].
    destruct (Scrape.staleReconnect env) as [ [ [ | ] | ] | message ]; reflexivity. }
  specialize (Hp1 _ eq_refl).
  destruct (if Scrape.areCoordinatesStale _ _ && _ then _ else _) as [p1 asked].
  cbn [fst snd] in Hp1. destruct Hp1 as [Hsame Hasked]. rewrite Hsame in *.
  replace (Scrape.MAX_NULL_COORDS_BEFORE_RECONNECT
           <=? Scrape.consecutiveNullCoords
                 (Scrape.markStreetViewChanged ready (Scrape.watch st)) + 1)
    with true in *
    by (symmetry; apply Z.leb_le; cbn; unfold Scrape.MAX_NULL_COORDS_BEFORE_RECONNECT; lia).
  assert (Hgoal :
            let r := (Scrape.Retry,
                      Scrape.mkState
                        (snd (Scrape.requestDebuggerReconnect
                                (Scrape.nullReconnect env) (Scrape.nowNullReconnected env)
                                (ContentScript.updateStatus Scrape.noCoordsMessage p1)))
                        (Scrape.setNullCoords 0
                           (Scrape.markStreetViewChanged ready (Scrape.watch st))),
                      (asked ++ [Scrape.ReconnectDebugger])%list) in
            ContentScript.currentRound (Scrape.page (snd (fst r)))
            = ContentScript.currentRound (Scrape.page st) ->
            fst (fst r) = Scrape.Retry /\
            Scrape.consecutiveNullCoords (Scrape.watch (snd (fst r))) = 0 /\
            In Scrape.ReconnectDebugger (snd r) /\
            Forall (fun action => action = Scrape.ReconnectDebugger) (snd r) /\
            ContentScript.currentRound (Scrape.page (snd (fst r)))
            = ContentScript.currentRound (Scrape.page st)).
  { cbn zeta. cbn [fst snd]. intros Hr.
    split; [ reflexivity | ]. split; [ reflexivity | ].
    split; [ apply List.in_or_app; right; now left | ].
    split; [ apply Forall_app; split; [ exact Hasked | repeat constructor ] | exact Hr ]. }
  destruct (ContentScript.latestStreetViewMetadata (Scrape.page st))
    as [ [ [ lat | ] [ lon | ] country address code photo ] | ];
    try discriminate Hmissing; apply Hgoal; exact Hround.
Qed.

Lemma missing_coordinates_force_a_reconnection_witness :
  let st := Scrape.mkState Samples.freshPage
              (Scrape.setNullCoords 1 Cases.watching) in
  snd (Scrape.cycle Cases.healthy st) = [Scrape.ReconnectDebugger] /\
  Scrape.consecutiveNullCoords (Scrape.watch (snd (fst (Scrape.cycle Cases.healthy st)))) = 0.
Proof.
  cbn zeta. split; [ vm_compute; reflexivity | ].
  refine (proj1 (proj2 (missing_coordinates_force_a_reconnection Cases.healthy
                          (Scrape.mkState Samples.freshPage
                             (Scrape.setNullCoords 1 Cases.watching))
                          1700000001200 _ _ _ _ _))).
  - vm_compute. reflexivity.
  - vm_compute. reflexivity.
  - reflexivity.
  - reflexivity.
  - vm_compute. discriminate.
Defined.

(** X30.  Three unchanged frames in a row stop the loop's work: once a
    valid frame has been offered three more times after it was
    accepted, the next pass reloads the page, whatever else that pass
    would have met. *)
Theorem three_unchanged_frames_reload (frame : string) (env : Scrape.CycleEnv)
        (p : ContentScript.State) (w : Scrape.Watch) :
  Image.isInvalidImage frame = false ->
  Dedup.lastImageHash (Scrape.frames w) = Dedup.simpleImageHash frame ->
  0 <= Dedup.consecutiveDuplicates (Scrape.frames w) ->
  let counted := snd (Dedup.shouldSaveImages [frame; frame; frame] (Scrape.frames w)) in
  fst (fst (Scrape.cycle env (Scrape.mkState p (Scrape.setFrames counted w))))
  = Scrape.Reloaded.
Proof.
  intros Hvalid Hlast Hcount. cbn zeta. cbn [Dedup.shouldSaveImages].
  rewrite (shouldSaveImage_duplicate frame _ Hvalid Hlast).
  rewrite (shouldSaveImage_duplicate frame _ Hvalid) by exact Hlast.
  rewrite (shouldSaveImage_duplicate frame _ Hvalid) by exact Hlast.
  cbn [snd Dedup.lastImageHash Dedup.consecutiveDuplicates].
  unfold Scrape.cycle. cbn [Scrape.watch Scrape.page Scrape.setFrames Scrape.frames].
  destruct (Scrape.isPageStuck _ _); [ reflexivity | ].
  cbn [Dedup.consecutiveDuplicates].
  replace (Scrape.MAX_CONSECUTIVE_DUPLICATES
           <=? Dedup.consecutiveDuplicates (Scrape.frames w) + 1 + 1 + 1) with true
    by (symmetry; apply Z.leb_le; unfold Scrape.MAX_CONSECUTIVE_DUPLICATES; lia).
  reflexivity.
Qed.

Lemma three_unchanged_frames_reload_witness :
  let accepted := snd (Dedup.shouldSaveImage Samples.variedText Dedup.initial) in
  let w := Scrape.setFrames accepted Cases.watching in
  let counted := snd (Dedup.shouldSaveImages
                        [Samples.variedText; Samples.variedText; Samples.variedText]
                        (Scrape.frames w)) in
  fst (fst (Scrape.cycle Cases.healthy
              (Scrape.mkState Cases.located (Scrape.setFrames counted w))))
  = Scrape.Reloaded.
Proof.
  cbn zeta.
  apply (three_unchanged_frames_reload Samples.variedText Cases.healthy Cases.located).
  - vm_compute. reflexivity.
  - vm_compute. reflexivity.
  - vm_compute. discriminate.
Defined.

(** [stopScrape] ends the run and clears its counters: after it,
    Scrape is not active; if it was active before, the duplicate
    counter, the stored hash and the missing-coordinates counter are
    reset, the keep-alive is stopped, the background process is told to
    stop the capture and the restart flags are cleared; and a second
    call does nothing at all. *)
Lemma stopScrape_resets_and_is_idempotent (updateStatusText again : bool)
        (st : Scrape.State) :
  let st1 := fst (Scrape.stopScrape updateStatusText st) in
  Scrape.scrapeActive (Scrape.watch st1) = false /\
  (if Scrape.scrapeActive (Scrape.watch st)
   then Scrape.frames (Scrape.watch st1) = Dedup.mkState None 0
        /\ Scrape.consecutiveNullCoords (Scrape.watch st1) = 0
        /\ snd (Scrape.stopScrape updateStatusText st)
           = [Scrape.StopKeepAlive; Scrape.SendStopGeoCapture; Scrape.ClearRestartFlags]
   else Scrape.stopScrape updateStatusText st = (st, [])) /\
  Scrape.stopScrape again st1 = (st1, []).
Proof.
  cbn zeta.
  assert (Hstopped : forall s, Scrape.scrapeActive (Scrape.watch s) = false ->
                               Scrape.stopScrape again s = (s, [])).
  { intros s Hs. unfold Scrape.stopScrape. now rewrite Hs. }
  destruct (Scrape.scrapeActive (Scrape.watch st)) eqn:Hactive.
  - unfold Scrape.stopScrape at 1 2 3 4 5. rewrite Hactive. cbn [negb fst snd].
    split; [ reflexivity | ]. split; [ now repeat split | ].
    apply Hstopped. unfold Scrape.stopScrape. now rewrite Hactive.
  - assert (Hsame : Scrape.stopScrape updateStatusText st = (st, []))
      by (unfold Scrape.stopScrape; now rewrite Hactive).
    rewrite Hsame. cbn [fst].
    split; [ exact Hactive | ]. split; [ reflexivity | now apply Hstopped ].
Qed.
